(** * triphoto: photo gallery, reactions and batch upload of the React client

    A shallow embedding of the TypeScript client of the trip-photo sharing
    application: the input validators and [photoApi.uploadPhoto] of the API
    service, the gallery component ([visiblePhotos], [handleLike],
    [handleDislike]), the administrator control of the room page and the two
    upload components ([uploadFilesInBatches] and [uploadFilesWithLogging]
    with [retryFailedUploads]).

    Conventions of the embedding:
    - a JavaScript string is the list of its UTF-16 code units, so that
      [length], [===], [includes] and the regular expressions (none of which
      carries the [u] flag) mean what they mean in the source;
    - an [async] function is a function from the state of the outside world
      (server, network) to a [Run]: the requests and other observable actions
      it performed, the world afterwards and its completion (a value or a
      thrown error); the HTTP endpoints are the fields of the class [Backend];
    - the uploads of one sub-batch are started in the order of the sub-batch
      and joined by [Promise.allSettled]; the embedding serialises each
      request with its response in that order;
    - console output and the purely visual React setters (progress bar,
      current file name, the [uploading] flag) are left out; the setters of
      the state a handler reads or hands over are events of the trace. *)

From stdpp Require Import gmap sets list strings.
From Equations Require Import Equations.
From Stdlib Require Import ZArith NArith Lia.
From Stdlib.Strings Require Byte.

(* ===================================================================== *)
(** * Part I: the embedding                                               *)
(* ===================================================================== *)

(** ** JavaScript strings *)

Module JS.

Definition JSString : Type := list N.

(** Decoder used only to write string literals of the source: the UTF-8
    bytes of a Rocq literal become the UTF-16 code units JavaScript holds. *)
Fixpoint utf16_of_utf8 (bs : list N) : JSString :=
  match bs with
  | [] => []
  | b0 :: r =>
    if (b0 <? 0x80)%N then b0 :: utf16_of_utf8 r
    else if (b0 <? 0xE0)%N then
      match r with
      | b1 :: r1 =>
        N.lor (N.shiftl (N.land b0 0x1F) 6) (N.land b1 0x3F) :: utf16_of_utf8 r1
      | [] => []
      end
    else if (b0 <? 0xF0)%N then
      match r with
      | b1 :: b2 :: r2 =>
        N.lor (N.shiftl (N.land b0 0x0F) 12)
          (N.lor (N.shiftl (N.land b1 0x3F) 6) (N.land b2 0x3F))
        :: utf16_of_utf8 r2
      | _ => []
      end
    else
      match r with
      | b1 :: b2 :: b3 :: r3 =>
        let cp := N.lor (N.shiftl (N.land b0 0x07) 18)
                    (N.lor (N.shiftl (N.land b1 0x3F) 12)
                       (N.lor (N.shiftl (N.land b2 0x3F) 6) (N.land b3 0x3F))) in
        let v := (cp - 0x10000)%N in
        (0xD800 + N.shiftr v 10)%N :: (0xDC00 + N.land v 0x3FF)%N
        :: utf16_of_utf8 r3
      | _ => []
      end
  end.

Definition js (s : string) : JSString :=
  utf16_of_utf8 (map Byte.to_N (String.list_byte_of_string s)).

(** [a === b] on strings. *)
Definition eqb (a b : JSString) : bool := bool_decide (a = b).

(** Truthiness of a string: only the empty string is falsy. *)
Definition truthy (s : JSString) : bool :=
  match s with [] => false | _ :: _ => true end.

(** [a || b] on strings. *)
Definition or_else (a b : JSString) : JSString := if truthy a then a else b.

(** [o || b] where [o] may be [undefined] or [null]. *)
Definition opt_or_else (o : option JSString) (b : JSString) : JSString :=
  match o with
  | Some a => or_else a b
  | None => b
  end.

Fixpoint startsWith (pat s : JSString) : bool :=
  match pat, s with
  | [], _ => true
  | _ :: _, [] => false
  | p :: pat', c :: s' => (p =? c)%N && startsWith pat' s'
  end.

(** [s.includes(pat)] *)
Fixpoint includes (s pat : JSString) : bool :=
  startsWith pat s ||
  match s with
  | [] => false
  | _ :: s' => includes s' pat
  end.

(** [s.replace(/c/g, by)] for a single code unit [c]. *)
Definition replaceAll (c : N) (by_ : JSString) (s : JSString) : JSString :=
  concat (map (fun x => if (x =? c)%N then by_ else [x]) s).

(** White space and line terminators removed by [trim]. *)
Definition isWhiteSpace (c : N) : bool :=
  ((9 <=? c) && (c <=? 13) || (c =? 32) || (c =? 0xA0) || (c =? 0x1680)
   || (0x2000 <=? c) && (c <=? 0x200A) || (c =? 0x2028) || (c =? 0x2029)
   || (c =? 0x202F) || (c =? 0x205F) || (c =? 0x3000) || (c =? 0xFEFF))%N.

Fixpoint trimStart (s : JSString) : JSString :=
  match s with
  | c :: s' => if isWhiteSpace c then trimStart s' else s
  | [] => []
  end.

Definition trim (s : JSString) : JSString :=
  rev (trimStart (rev (trimStart s))).

Fixpoint digits (d : Decimal.uint) : JSString :=
  match d with
  | Decimal.Nil => []
  | Decimal.D0 d => 48%N :: digits d
  | Decimal.D1 d => 49%N :: digits d
  | Decimal.D2 d => 50%N :: digits d
  | Decimal.D3 d => 51%N :: digits d
  | Decimal.D4 d => 52%N :: digits d
  | Decimal.D5 d => 53%N :: digits d
  | Decimal.D6 d => 54%N :: digits d
  | Decimal.D7 d => 55%N :: digits d
  | Decimal.D8 d => 56%N :: digits d
  | Decimal.D9 d => 57%N :: digits d
  end.

(** [`${n}`] for a counter [n]. *)
Definition ofNat (n : nat) : JSString := digits (Nat.to_uint n).

(** [l.slice(a, b)] for indices [0 <= a] and [0 <= b]. *)
Definition slice {A : Type} (a b : nat) (l : list A) : list A :=
  take (b - a) (drop a l).

(** ** Errors and asynchronous runs *)

(** What the handlers read of a rejected request: [error.response?.status],
    [error.response?.data?.detail] and [error.message]. *)
Record AxiosResponse : Type := mkResponse {
  resp_status : Z;
  resp_detail : option JSString
}.

Record JSError : Type := mkError {
  response : option AxiosResponse;
  message : JSString
}.

(** [new Error(msg)] *)
Definition Error (msg : JSString) : JSError :=
  {| response := None; message := msg |}.

Inductive Completion (A : Type) : Type :=
| Return (a : A)
| Throw (e : JSError).
Arguments Return {A} a.
Arguments Throw {A} e.

Section Async.
Context {World Event : Type}.

Record Run (A : Type) : Type := mkRun {
  trace : list Event;
  world : World;
  value : Completion A
}.
Arguments mkRun {A} _ _ _.
Arguments trace {A} _.
Arguments world {A} _.
Arguments value {A} _.

Definition Async (A : Type) : Type := World -> Run A.

Definition ret {A} (a : A) : Async A :=
  fun w => mkRun [] w (Return a).

Definition throw {A} (e : JSError) : Async A :=
  fun w => mkRun [] w (Throw e).

Definition bind {A B} (m : Async A) (f : A -> Async B) : Async B :=
  fun w =>
    let r := m w in
    match value r with
    | Return a =>
      let r' := f a (world r) in
      mkRun (trace r ++ trace r') (world r') (value r')
    | Throw e => mkRun (trace r) (world r) (Throw e)
    end.

(** [try { m } catch (e) { h e }] *)
Definition try_catch {A} (m : Async A) (h : JSError -> Async A) : Async A :=
  fun w =>
    let r := m w in
    match value r with
    | Return a => r
    | Throw e =>
      let r' := h e (world r) in
      mkRun (trace r ++ trace r') (world r') (value r')
    end.

(** An observable action of the client. *)
Definition emit (ev : Event) : Async unit :=
  fun w => mkRun [ev] w (Return tt).

(** The response of the outside world to a request. *)
Definition respond {A} (f : World -> Completion A * World) : Async A :=
  fun w => mkRun [] (f w).2 (f w).1.

(** [for (const x of l) { ys.push(await f x) }] *)
Fixpoint forEach {A B} (f : A -> Async B) (l : list A) : Async (list B) :=
  match l with
  | [] => ret []
  | x :: l' => bind (f x) (fun y => bind (forEach f l') (fun ys => ret (y :: ys)))
  end.

End Async.

Arguments Run : clear implicits.
Arguments Async : clear implicits.
Arguments mkRun {World Event A} _ _ _.
Arguments trace {World Event A} _.
Arguments world {World Event A} _.
Arguments value {World Event A} _.

End JS.

Export JS.

Declare Scope async_scope.
Delimit Scope async_scope with async.
Notation "x <- m ;; k" := (bind m (fun x => k))
  (at level 100, m at next level, right associativity) : async_scope.
Notation "m ;;; k" := (bind m (fun _ => k))
  (at level 100, right associativity) : async_scope.

Local Open Scope async_scope.

(** ** Data model ([types/index.ts]) *)

Record Room : Type := mkRoom {
  room_id_ : JSString;
  room_name : JSString;
  room_description : option JSString;
  creator_name : JSString;
  room_created_at : JSString;
  is_active : bool;
  photo_count : Z
}.

(** The counters are the integers the server sends. *)
Record Photo : Type := mkPhoto {
  id : JSString;
  room_id : JSString;
  filename : JSString;
  original_filename : JSString;
  uploader_name : JSString;
  file_path : JSString;
  thumbnail_path : option JSString;
  file_size : option N;
  mime_type : option JSString;
  taken_at : option JSString;
  uploaded_at : JSString;
  like_count : Z;
  dislike_count : Z;
  user_liked : option bool;
  user_disliked : option bool
}.

(** [{ ...photo, like_count: n }] *)
Definition with_like_count (n : Z) (photo : Photo) : Photo :=
  {| id := id photo; room_id := room_id photo; filename := filename photo;
     original_filename := original_filename photo;
     uploader_name := uploader_name photo; file_path := file_path photo;
     thumbnail_path := thumbnail_path photo; file_size := file_size photo;
     mime_type := mime_type photo; taken_at := taken_at photo;
     uploaded_at := uploaded_at photo;
     like_count := n;
     dislike_count := dislike_count photo;
     user_liked := user_liked photo; user_disliked := user_disliked photo |}.

(** [{ ...photo, dislike_count: n }] *)
Definition with_dislike_count (n : Z) (photo : Photo) : Photo :=
  {| id := id photo; room_id := room_id photo; filename := filename photo;
     original_filename := original_filename photo;
     uploader_name := uploader_name photo; file_path := file_path photo;
     thumbnail_path := thumbnail_path photo; file_size := file_size photo;
     mime_type := mime_type photo; taken_at := taken_at photo;
     uploaded_at := uploaded_at photo;
     like_count := like_count photo;
     dislike_count := n;
     user_liked := user_liked photo; user_disliked := user_disliked photo |}.

(** [Like] and [Dislike] have the same shape. *)
Record Reaction : Type := mkReaction {
  reaction_id : JSString;
  reaction_photo_id : JSString;
  reaction_user_name : JSString;
  reaction_created_at : JSString
}.

(** The browser's [File]: [file.name], [file.size], [file.type]. *)
Record File : Type := mkFile {
  name : JSString;
  size : N;
  type : JSString
}.

Inductive SessionStatus : Type :=
| in_progress | completed | partially_failed | failed.

#[global] Instance SessionStatus_eq_dec : EqDecision SessionStatus.
Proof. solve_decision. Defined.

Record UploadSession : Type := mkSession {
  session_id_ : JSString;
  session_room_id : JSString;
  session_user_name : JSString;
  total_files : nat;
  completed_files : nat;
  failed_files_count : nat;
  session_started_at : JSString;
  session_completed_at : option JSString;
  session_status : SessionStatus
}.

Record UploadSessionCreate : Type := mkSessionCreate {
  sc_room_id : JSString;
  sc_user_name : JSString;
  sc_total_files : nat
}.

(** The body of [uploadSessionApi.updateSession]; [completed_at] is the
    client's clock reading, which the embedding does not carry. *)
Record UploadSessionUpdate : Type := mkSessionUpdate {
  su_completed_files : nat;
  su_failed_files : nat;
  su_status : SessionStatus
}.

Inductive LogStatus : Type :=
| pending | uploading | success | log_failed | retrying.

#[global] Instance LogStatus_eq_dec : EqDecision LogStatus.
Proof. solve_decision. Defined.

Record UploadLog : Type := mkLog {
  log_id : JSString;
  log_session_id : JSString;
  log_room_id : JSString;
  log_original_filename : JSString;
  log_file_size : option N;
  log_mime_type : option JSString;
  log_uploader_name : JSString;
  log_status : LogStatus;
  log_photo_id : option JSString;
  error_message : option JSString;
  retry_count : nat;
  log_started_at : JSString;
  log_completed_at : option JSString
}.

Record UploadLogCreate : Type := mkLogCreate {
  lc_session_id : JSString;
  lc_room_id : JSString;
  lc_original_filename : JSString;
  lc_file_size : N;
  lc_mime_type : JSString;
  lc_uploader_name : JSString
}.

Record UploadResult : Type := mkResult {
  result_session_id : JSString;
  result_total_files : nat;
  successful_uploads : nat;
  failed_uploads : nat;
  failed_files : list UploadLog
}.

(** The answer of [DELETE /rooms/:id]. *)
Record DeleteRoomResult : Type := mkDeleteRoomResult {
  deleted_room_name : JSString;
  deleted_photos_count : nat
}.

(** ** The outside world *)

(** Requests and other observable actions of the client, in the order in
    which they happen. *)
Inductive Event : Type :=
| PostUpload (roomId : JSString) (file : File) (uploader_name : JSString)
| PostLike (photoId user_name : JSString)
| PostDislike (photoId user_name : JSString)
| DeleteRoom (roomId : JSString)
| CreateSession (c : UploadSessionCreate)
| CreateLog (c : UploadLogCreate)
| UploadPhotoWithLogging (roomId : JSString) (file : File)
    (userName logId : JSString)
| UpdateSession (sessionId : JSString) (u : UploadSessionUpdate)
| RetryFailedUploads (log_ids : list JSString)
| GetSessionLogs (sessionId : JSString)
| AllSettled (n : nat)
| Delay (ms : Z)
| SetUploadSession (session : UploadSession)
| SetUploadLogs (logs : list UploadLog)
| SetUploadResult (r : option UploadResult)
| SetSelectedFiles (fs : option (list File))
| OnUploadSuccess
| Navigate (path : JSString)
| Confirm (msg : JSString)
| Alert (msg : JSString).

(** The endpoints behind the API service. [uploadSessionApi], [uploadLogApi]
    and [photoApiEnhanced] are imported by the logging upload component from
    the API service; they are taken here as the requests they stand for. *)
Class Backend (World : Type) : Type := {
  post_upload :
    JSString -> File -> JSString -> World -> Completion Photo * World;
  post_like : JSString -> JSString -> World -> Completion Reaction * World;
  post_dislike : JSString -> JSString -> World -> Completion Reaction * World;
  delete_room : JSString -> World -> Completion DeleteRoomResult * World;
  createSession :
    UploadSessionCreate -> World -> Completion UploadSession * World;
  createLog : UploadLogCreate -> World -> Completion UploadLog * World;
  uploadPhotoWithLogging :
    JSString -> File -> JSString -> JSString ->
    World -> Completion Photo * World;
  updateSession :
    JSString -> UploadSessionUpdate -> World -> Completion unit * World;
  retryFailedUploads_request :
    list JSString -> World -> Completion unit * World;
  getSessionLogs : JSString -> World -> Completion (list UploadLog) * World;
  window_confirm : JSString -> World -> bool * World
}.

(** ** The API service ([services/api.ts]) *)

Module validateInput.

Definition isDigit (c : N) : bool := ((48 <=? c) && (c <=? 57))%N.
Definition isLower (c : N) : bool := ((97 <=? c) && (c <=? 122))%N.
Definition isUpper (c : N) : bool := ((65 <=? c) && (c <=? 90))%N.

(** [[0-9a-f]] under the [i] flag *)
Definition isHex (c : N) : bool :=
  (isDigit c || (97 <=? c) && (c <=? 102) || (65 <=? c) && (c <=? 70))%N.

(** [[0-9a-f]{n}]: the rest of the string after exactly [n] such units *)
Fixpoint hexRun (n : nat) (s : JSString) : option JSString :=
  match n with
  | O => Some s
  | S n' =>
    match s with
    | c :: s' => if isHex c then hexRun n' s' else None
    | [] => None
    end
  end.

(** Groups of hexadecimal digits separated by [-], anchored at both ends. *)
Fixpoint hexGroups (gs : list nat) (s : JSString) : bool :=
  match gs with
  | [] => false
  | [g] =>
    match hexRun g s with
    | Some [] => true
    | _ => false
    end
  | g :: gs' =>
    match hexRun g s with
    | Some (c :: r) => (c =? 45)%N && hexGroups gs' r
    | _ => false
    end
  end.

(** [/^[0-9a-f]{8}-[0-9a-f]{4}-[0-9a-f]{4}-[0-9a-f]{4}-[0-9a-f]{12}$/i] *)
Definition roomId (roomId : JSString) : bool :=
  hexGroups [8; 4; 4; 4; 12]%nat roomId.

(** [[가-힣a-zA-Z0-9._-]] *)
Definition isNameUnit (c : N) : bool :=
  ((0xAC00 <=? c) && (c <=? 0xD7A3))%N || isLower c || isUpper c || isDigit c
  || (c =? 46)%N || (c =? 95)%N || (c =? 45)%N.

Definition userName (userName : JSString) : bool :=
  (2 <=? length userName)%nat && (length userName <=? 50)%nat
  && (truthy userName && forallb isNameUnit userName).

Record FileValidation : Type := mkValidation {
  valid : bool;
  error : option JSString
}.

Definition allowedTypes : list JSString :=
  [js "image/jpeg"; js "image/jpg"; js "image/png"; js "image/gif";
   js "image/webp"].

Definition maxSize : N := 10 * 1024 * 1024.

Definition file (file : File) : FileValidation :=
  if negb (existsb (eqb (type file)) allowedTypes) then
    {| valid := false;
       error := Some (js "Invalid file type. Only JPEG, PNG, GIF, and WebP are allowed.") |}
  else if (maxSize <? size file)%N then
    {| valid := false;
       error := Some (js "File too large. Maximum size is 10MB.") |}
  else if includes (name file) (js "..") || includes (name file) (js "/")
          || includes (name file) (js "\") then
    {| valid := false; error := Some (js "Invalid filename.") |}
  else {| valid := true; error := None |}.

End validateInput.

Definition sanitizeInput (input : JSString) : JSString :=
  trim
    (replaceAll 47 (js "&#x2F;")
      (replaceAll 39 (js "&#x27;")
        (replaceAll 34 (js "&quot;")
          (replaceAll 62 (js "&gt;")
            (replaceAll 60 (js "&lt;") input))))).

Section Api.
Context {World : Type} {backend : Backend World}.

Local Abbreviation Async := (JS.Async World Event).

(** [photoApi.uploadPhoto] *)
Definition uploadPhoto (roomId : JSString) (file : File)
  (uploaderName : JSString) : Async Photo :=
  if negb (validateInput.roomId roomId) then
    throw (Error (js "Invalid room ID format"))
  else if negb (validateInput.userName uploaderName) then
    throw (Error (js "Invalid username"))
  else
    let fileValidation := validateInput.file file in
    if negb (validateInput.valid fileValidation) then
      throw (Error (opt_or_else (validateInput.error fileValidation)
                      (js "Invalid file")))
    else
      emit (PostUpload roomId file (sanitizeInput uploaderName)) ;;;
      respond (post_upload roomId file (sanitizeInput uploaderName)).

(** [likeApi.toggleLike] *)
Definition toggleLike (photoId user_name : JSString) : Async Reaction :=
  if negb (validateInput.roomId photoId) then
    throw (Error (js "Invalid photo ID format"))
  else if negb (validateInput.userName user_name) then
    throw (Error (js "Invalid username"))
  else
    emit (PostLike photoId (sanitizeInput user_name)) ;;;
    respond (post_like photoId (sanitizeInput user_name)).

(** [dislikeApi.toggleDislike] *)
Definition toggleDislike (photoId user_name : JSString) : Async Reaction :=
  if negb (validateInput.roomId photoId) then
    throw (Error (js "Invalid photo ID format"))
  else if negb (validateInput.userName user_name) then
    throw (Error (js "Invalid username"))
  else
    emit (PostDislike photoId (sanitizeInput user_name)) ;;;
    respond (post_dislike photoId (sanitizeInput user_name)).

(** [roomApi.deleteRoom] *)
Definition deleteRoom (roomId : JSString) : Async DeleteRoomResult :=
  if negb (validateInput.roomId roomId) then
    throw (Error (js "Invalid room ID format"))
  else
    emit (DeleteRoom roomId) ;;;
    respond (delete_room roomId).

End Api.

(** ** The gallery ([components/PhotoGallery.tsx]) *)

Module PhotoGallery.

(** The state of the component as one render sees it: the user name read from
    [localStorage] ([''] when absent) and the three pieces of React state the
    reaction handlers read and write. A handler reads [userLikes] and
    [userDislikes] from the render that created it and updates the state
    through the functional setters; handlers run one after the other, each on
    the state the previous one left, so the two views coincide. *)
Record State : Type := mkState {
  userName : JSString;
  userLikes : gset JSString;
  userDislikes : gset JSString;
  localPhotos : list Photo
}.

Definition visiblePhotos (localPhotos : list Photo) : list Photo :=
  List.filter (fun photo => (dislike_count photo =? 0)%Z) localPhotos.

(** [s.has(x)] *)
Definition has (x : JSString) (s : gset JSString) : bool :=
  bool_decide (x ∈ s).

(** The updater given to [setUserLikes] and [setUserDislikes]. *)
Definition toggled (photoId : JSString) (prev : gset JSString) : gset JSString :=
  if has photoId prev then prev ∖ {[photoId]} else prev ∪ {[photoId]}.

Section Handlers.
Context {World : Type} {backend : Backend World}.

Local Abbreviation Async := (JS.Async World Event).

Definition handleLike (photoId : JSString) (st : State) : Async State :=
  if negb (truthy (userName st)) then
    emit (Alert (js "이름을 입력해주세요.")) ;;; ret st
  else
    try_catch
      (_ <- toggleLike photoId (userName st) ;;
       ret {| userName := userName st;
              userLikes := toggled photoId (userLikes st);
              userDislikes := userDislikes st;
              localPhotos :=
                map (fun photo =>
                       if eqb (id photo) photoId then
                         let isLiked := has photoId (userLikes st) in
                         with_like_count
                           (if isLiked then like_count photo - 1
                            else like_count photo + 1)%Z photo
                       else photo)
                    (localPhotos st) |})
      (fun _ => emit (Alert (js "좋아요 처리에 실패했습니다.")) ;;; ret st).

Definition handleDislike (photoId : JSString) (st : State) : Async State :=
  if negb (truthy (userName st)) then
    emit (Alert (js "이름을 입력해주세요.")) ;;; ret st
  else
    try_catch
      (_ <- toggleDislike photoId (userName st) ;;
       ret {| userName := userName st;
              userLikes := userLikes st;
              userDislikes := toggled photoId (userDislikes st);
              localPhotos :=
                map (fun photo =>
                       if eqb (id photo) photoId then
                         let isDisliked := has photoId (userDislikes st) in
                         with_dislike_count
                           (if isDisliked then dislike_count photo - 1
                            else dislike_count photo + 1)%Z photo
                       else photo)
                    (localPhotos st) |})
      (fun _ => emit (Alert (js "싫어요 처리에 실패했습니다.")) ;;; ret st).

End Handlers.

End PhotoGallery.

(** ** The room page ([pages/RoomPage.tsx]) *)

Module RoomPage.

(** The name the administrator control is reserved for. *)
Definition adminName : JSString := js "이성일".

(** The condition under which [RoomInfo] renders the delete button:
    [(localStorage.getItem('userName') || '') === '이성일']. *)
Definition showsDeleteButton (stored : option JSString) : bool :=
  let currentUserName := opt_or_else stored (js "") in
  eqb currentUserName adminName.


Section Handlers.
Context {World : Type} {backend : Backend World}.

Local Abbreviation Async := (JS.Async World Event).



End Handlers.

End RoomPage.

(** ** The batch uploader ([components/PhotoUpload.tsx]) *)

Module PhotoUpload.

Definition BATCH_SIZE : nat := 5.
Definition BATCH_DELAY : Z := 1000.

(** The value of one promise of a sub-batch:
    [{ success: true, file, error: null }] or [{ success: false, file, error }]. *)
Inductive BatchItem : Type :=
| Succeeded (file : File)
| NotSucceeded (file : File) (error : JSError).

(** An entry of the array [Promise.allSettled] resolves to. *)
Inductive Settled (A : Type) : Type :=
| fulfilled (v : A)
| rejected (reason : JSError).
Arguments fulfilled {A} v.
Arguments rejected {A} reason.

(** What the function returns: [{ completedFiles, skippedFiles, errors }]. *)
Record Summary : Type := mkSummary {
  completedFiles : nat;
  skippedFiles : nat;
  errors : list JSString
}.

(** [for (let i = 0; i < files.length; i += BATCH_SIZE)
       batches.push(files.slice(i, i + BATCH_SIZE))], from index [i] on. *)
Equations? batchesFrom (files : list File) (i : nat) : list (list File)
  by wf (length files - i) lt :=
  batchesFrom files i with decide (i < length files) => {
    | left _ => slice i (i + BATCH_SIZE) files :: batchesFrom files (i + BATCH_SIZE)
    | right _ => [] }.
Proof. unfold BATCH_SIZE. lia. Qed.

Definition statusOf (error : JSError) : option Z :=
  resp_status <$> response error.

(** The message pushed on [errors] for a file that was not uploaded. *)
Definition describe (file : File) (error : JSError) : JSString :=
  if bool_decide (statusOf error = Some 409%Z) then
    name file ++ js ": 이미 업로드된 사진입니다"
  else if bool_decide (statusOf error = Some 400%Z) then
    name file ++ js ": "
    ++ opt_or_else (response error ≫= resp_detail) (js "잘못된 요청")
  else if bool_decide (statusOf error = Some 413%Z) then
    name file ++ js ": 파일 크기가 너무 큽니다 (최대 10MB)"
  else if bool_decide (statusOf error = Some 429%Z) then
    name file ++ js ": 요청이 너무 많습니다. 잠시 후 다시 시도해주세요"
  else if bool_decide (statusOf error = Some 419%Z) then
    name file ++ js ": 보안 토큰 오류. 페이지를 새로고침해주세요"
  else
    name file ++ js ": 업로드 실패 ("
    ++ or_else (message error) (js "알 수 없는 오류") ++ js ")".

(** The body of [batchResults.forEach]. *)
Definition tally (acc : Summary) (result : Settled BatchItem) : Summary :=
  match result with
  | fulfilled (Succeeded _) =>
    {| completedFiles := completedFiles acc + 1;
       skippedFiles := skippedFiles acc;
       errors := errors acc |}
  | fulfilled (NotSucceeded file error) =>
    {| completedFiles := completedFiles acc;
       skippedFiles :=
         if bool_decide (statusOf error = Some 409%Z)
         then skippedFiles acc + 1 else skippedFiles acc;
       errors := errors acc ++ [describe file error] |}
  | rejected _ =>
    {| completedFiles := completedFiles acc;
       skippedFiles := skippedFiles acc;
       errors := errors acc ++ [js "알 수 없는 파일: 처리 실패"] |}
  end.

(** [processFiles]: the files kept as the selection and the messages shown
    for the others. *)
Definition processFiles (files : list File) : list File * list JSString :=
  fold_left
    (fun acc file =>
       let validation := validateInput.file file in
       if validateInput.valid validation then (acc.1 ++ [file], acc.2)
       else (acc.1,
             acc.2 ++ [name file ++ js ": "
                       ++ default (js "undefined") (validateInput.error validation)]))
    files ([], []).

Section Component.
Context {World : Type} {backend : Backend World}.
Variable roomId : JSString.

Local Abbreviation Async := (JS.Async World Event).

(** One promise of [batchPromises]. *)
Definition uploadOne (userName : JSString) (file : File) : Async BatchItem :=
  try_catch
    (_ <- uploadPhoto roomId file userName ;; ret (Succeeded file))
    (fun error => ret (NotSucceeded file error)).

(** [Promise.allSettled]: every promise is awaited, none of them aborts the
    others, and a rejection becomes an entry of the result. *)
Definition settle {A} (m : Async A) : Async (Settled A) :=
  fun w =>
    let r := m w in
    mkRun (trace r) (world r)
      (Return match value r with
              | Return a => fulfilled a
              | Throw e => rejected e
              end).

Definition allSettled {A} (promises : list (Async A)) : Async (list (Settled A)) :=
  results <- forEach settle promises ;;
  emit (AllSettled (length promises)) ;;;
  ret results.

(** The loop over [batches], at index [batchIndex], [rest] being the
    sub-batches from that index on and [count] the value of [batches.length]. *)
Fixpoint processBatches (userName : JSString) (count batchIndex : nat)
  (rest : list (list File)) (acc : Summary) : Async Summary :=
  match rest with
  | [] => ret acc
  | batch :: rest' =>
    batchResults <- allSettled (map (uploadOne userName) batch) ;;
    let acc' := fold_left tally batchResults acc in
    (if (Z.of_nat batchIndex <? Z.of_nat count - 1)%Z
     then emit (Delay BATCH_DELAY) else ret tt) ;;;
    processBatches userName count (batchIndex + 1) rest' acc'
  end.

Definition uploadFilesInBatches (files : list File) (userName : JSString)
  : Async Summary :=
  let batches := batchesFrom files 0 in
  processBatches userName (length batches) 0 batches
    {| completedFiles := 0; skippedFiles := 0; errors := [] |}.

(** The text [handleUpload] builds from the summary. *)
Definition summaryMessage (s : Summary) : JSString :=
  let message := js "" in
  let message :=
    if (0 <? completedFiles s)%nat then
      message ++ ofNat (completedFiles s)
      ++ js "개의 사진이 성공적으로 업로드되었습니다! 📸"
    else message in
  let message :=
    if (0 <? skippedFiles s)%nat then
      message ++ [10%N] ++ ofNat (skippedFiles s)
      ++ js "개의 중복 사진은 건너뛰었습니다. 🔄"
    else message in
  let message :=
    if (skippedFiles s <? length (errors s))%nat then
      message ++ [10%N] ++ ofNat (length (errors s) - skippedFiles s)
      ++ js "개의 사진 업로드에 실패했습니다. ❌"
    else message in
  message.

(** [handleUpload]; [stored] is [localStorage.getItem('userName')]. *)
Definition handleUpload (selectedFiles : option (list File))
  (stored : option JSString) : Async unit :=
  match selectedFiles with
  | None | Some [] => ret tt
  | Some files =>
    let userName := opt_or_else stored (js "") in
    if negb (truthy userName) then
      emit (Alert (js "이름을 입력해주세요."))
    else if negb (validateInput.userName userName) then
      emit (Alert (js "유효하지 않은 사용자 이름입니다. 2-50자의 한글, 영문, 숫자, ., _, - 만 사용 가능합니다."))
    else if negb (validateInput.roomId roomId) then
      emit (Alert (js "유효하지 않은 방 ID입니다."))
    else
      try_catch
        (s <- uploadFilesInBatches files userName ;;
         emit (SetSelectedFiles None) ;;;
         emit OnUploadSuccess ;;;
         emit (Alert (or_else (summaryMessage s)
                        (js "업로드할 새로운 사진이 없습니다."))))
        (fun _ => emit (Alert (js "사진 업로드 중 오류가 발생했습니다.")))
  end.

End Component.

End PhotoUpload.

(** ** The upload component with session and log bookkeeping *)

Module PhotoUploadLogging.

Definition BATCH_SIZE : nat := 5.
Definition BATCH_DELAY : Z := 4000.

(** The value of one promise of a sub-batch:
    [{ success: true, file, log, photo }] or
    [{ success: false, file, log, error: errorMessage }]. *)
Inductive FileResult : Type :=
| Uploaded (file : File) (log : UploadLog) (photo : Photo)
| NotUploaded (file : File) (log : UploadLog) (error : JSString).

(** The variables the batch loop updates. *)
Record Progress : Type := mkProgress {
  completedCount : nat;
  failedCount : nat;
  failedLogs : list UploadLog
}.

(** [error.response?.data?.detail || error.message || '알 수 없는 오류'] *)
Definition errorMessage (error : JSError) : JSString :=
  or_else (opt_or_else (response error ≫= resp_detail) (message error))
    (js "알 수 없는 오류").

Definition finalStatus (completedCount failedCount : nat) : SessionStatus :=
  if (failedCount =? 0)%nat then completed
  else if (completedCount =? 0)%nat then failed
  else partially_failed.

(** The body of [batchResults.forEach]; every promise of a sub-batch is
    fulfilled, since its body is one [try]/[catch] whose handler only reads
    fields of the error. *)
Definition count (acc : nat * nat) (result : FileResult) : nat * nat :=
  match result with
  | Uploaded _ _ _ => (acc.1 + 1, acc.2)
  | NotUploaded _ _ _ => (acc.1, acc.2 + 1)
  end.

Section Component.
Context {World : Type} {backend : Backend World}.
Variable roomId : JSString.

Local Abbreviation Async := (JS.Async World Event).

(** One promise of [batchPromises]; [failedLogs] is the array shared by the
    promises, to which the handler pushes. *)
Definition uploadOne (userName : JSString) (entry : File * UploadLog)
  (failedLogs : list UploadLog) : Async (FileResult * list UploadLog) :=
  let '(file, log) := entry in
  try_catch
    (emit (UploadPhotoWithLogging roomId file userName (log_id log)) ;;;
     photo <- respond (uploadPhotoWithLogging roomId file userName (log_id log)) ;;
     ret (Uploaded file log photo, failedLogs))
    (fun error =>
       let failedLogs := failedLogs ++ [log] in
       ret (NotUploaded file log (errorMessage error), failedLogs)).

(** [batch.map(async ...)] followed by [await Promise.allSettled]. *)
Fixpoint uploadBatch (userName : JSString) (batch : list (File * UploadLog))
  (failedLogs : list UploadLog) : Async (list FileResult * list UploadLog) :=
  match batch with
  | [] => ret ([], failedLogs)
  | entry :: batch' =>
    r <- uploadOne userName entry failedLogs ;;
    rs <- uploadBatch userName batch' r.2 ;;
    ret (r.1 :: rs.1, rs.2)
  end.

(** One turn of the loop at index [i]. *)
Definition iteration (userName : JSString)
  (fileLogPairs : list (File * UploadLog)) (i : nat) (p : Progress)
  : Async Progress :=
  let batch := slice i (i + BATCH_SIZE) fileLogPairs in
  rs <- uploadBatch userName batch (failedLogs p) ;;
  emit (AllSettled (length batch)) ;;;
  let counts := fold_left count rs.1 (completedCount p, failedCount p) in
  (if (i + BATCH_SIZE <? length fileLogPairs)%nat
   then emit (Delay BATCH_DELAY) else ret tt) ;;;
  ret {| completedCount := counts.1; failedCount := counts.2;
         failedLogs := rs.2 |}.

(** [for (let i = 0; i < fileLogPairs.length; i += BATCH_SIZE) { ... }],
    from index [i] on. *)
Equations? batchLoop (userName : JSString)
  (fileLogPairs : list (File * UploadLog)) (i : nat) (p : Progress)
  : Async Progress by wf (length fileLogPairs - i) lt :=
  batchLoop userName fileLogPairs i p with decide (i < length fileLogPairs) => {
    | left _ =>
      bind (iteration userName fileLogPairs i p)
        (fun p' => batchLoop userName fileLogPairs (i + BATCH_SIZE) p')
    | right _ => ret p }.
Proof. unfold BATCH_SIZE. lia. Qed.

Definition createLogs (session : UploadSession) (userName : JSString)
  (files : list File) : Async (list UploadLog) :=
  forEach
    (fun file =>
       let c := {| lc_session_id := session_id_ session;
                   lc_room_id := roomId;
                   lc_original_filename := name file;
                   lc_file_size := size file;
                   lc_mime_type := type file;
                   lc_uploader_name := userName |} in
       emit (CreateLog c) ;;; respond (createLog c))
    files.

Definition uploadFilesWithLogging (files : list File) (userName : JSString)
  : Async UploadResult :=
  try_catch
    (let c := {| sc_room_id := roomId; sc_user_name := userName;
                 sc_total_files := length files |} in
     emit (CreateSession c) ;;;
     session <- respond (createSession c) ;;
     emit (SetUploadSession session) ;;;
     logs <- createLogs session userName files ;;
     emit (SetUploadLogs logs) ;;;
     (* [files.map((file, index) => ({ file, log: logs[index] }))]: [logs]
        holds one log per file, so [logs[index]] is always defined *)
     let fileLogPairs := zip files logs in
     p <- batchLoop userName fileLogPairs 0
            {| completedCount := 0; failedCount := 0; failedLogs := [] |} ;;
     let u := {| su_completed_files := completedCount p;
                 su_failed_files := failedCount p;
                 su_status := finalStatus (completedCount p) (failedCount p) |} in
     emit (UpdateSession (session_id_ session) u) ;;;
     _ <- respond (updateSession (session_id_ session) u) ;;
     let result := {| result_session_id := session_id_ session;
                      result_total_files := length files;
                      successful_uploads := completedCount p;
                      failed_uploads := failedCount p;
                      failed_files := failedLogs p |} in
     emit (SetUploadResult (Some result)) ;;;
     ret result)
    (fun error =>
       throw (Error (js "업로드 세션 생성 실패: " ++ message error))).

(** [handleUpload]; [stored] is [localStorage.getItem('userName')]. *)
Definition handleUpload (selectedFiles : option (list File))
  (stored : option JSString) : Async unit :=
  match selectedFiles with
  | None | Some [] => ret tt
  | Some files =>
    let userName := opt_or_else stored (js "") in
    if negb (truthy userName) then
      emit (Alert (js "사용자 이름을 입력해주세요."))
    else
      emit (SetUploadResult None) ;;;
      try_catch
        (result <- uploadFilesWithLogging files userName ;;
         if (failed_uploads result =? 0)%nat then
           emit (Alert (js "✅ 모든 사진이 성공적으로 업로드되었습니다! ("
                        ++ ofNat (successful_uploads result) ++ js "개)")) ;;;
           emit (SetSelectedFiles None) ;;;
           emit OnUploadSuccess
         else
           emit (Alert (js "⚠️ 업로드 완료: 성공 "
                        ++ ofNat (successful_uploads result) ++ js "개, 실패 "
                        ++ ofNat (failed_uploads result) ++ js "개" ++ [10%N]
                        ++ js "실패한 파일들은 재시도할 수 있습니다.")))
        (fun error => emit (Alert (js "업로드 실패: " ++ message error)))
  end.

(** The message of the [TypeError] raised by [uploadSession!.id] when the
    session is [null]. *)
Definition nullSessionMessage : JSString :=
  js "Cannot read properties of null (reading 'id')".

(** The loop over [pendingLogs]: its [try] block sets two display fields,
    writes to the console and increments [retrySuccessCount]. *)
Definition retryCounts (pendingLogs : list UploadLog) : nat * nat :=
  fold_left (fun acc (_ : UploadLog) => (acc.1 + 1, acc.2)) pendingLogs (0, 0).

(** [retryFailedUploads]; [uploadResult] and [uploadSession] are the React
    state the closure holds, [stored] is [localStorage.getItem('userName')]. *)
Definition retryFailedUploads (uploadResult : option UploadResult)
  (uploadSession : option UploadSession) (stored : option JSString)
  : Async unit :=
  match uploadResult with
  | None => ret tt
  | Some uploadResult =>
    if (length (failed_files uploadResult) =? 0)%nat then ret tt else
    try_catch
      (let failedLogIds := map log_id (failed_files uploadResult) in
       emit (RetryFailedUploads failedLogIds) ;;;
       _ <- respond (retryFailedUploads_request failedLogIds) ;;
       let userName := opt_or_else stored (js "") in
       if negb (truthy userName) then
         emit (Alert (js "사용자 이름을 찾을 수 없습니다."))
       else
         emit (SetUploadResult None) ;;;
         session <- match uploadSession with
                    | Some session => ret session
                    | None => throw (Error nullSessionMessage)
                    end ;;
         emit (GetSessionLogs (session_id_ session)) ;;;
         updatedLogs <- respond (getSessionLogs (session_id_ session)) ;;
         let pendingLogs :=
           List.filter (fun log => bool_decide (log_status log = pending))
             updatedLogs in
         let counts := retryCounts pendingLogs in
         emit (Alert (js "재시도 완료: 성공 " ++ ofNat counts.1 ++ js "개, 실패 "
                      ++ ofNat counts.2 ++ js "개")) ;;;
         emit OnUploadSuccess)
      (fun error => emit (Alert (js "재시도 실패: " ++ message error)))
  end.

End Component.

End PhotoUploadLogging.

(** ** Vocabulary of the statements *)

(** [ls] joined with [sep] between consecutive elements and none at the end. *)
Fixpoint joinWith {A : Type} (sep : list A) (ls : list (list A)) : list A :=
  match ls with
  | [] => []
  | [l] => l
  | l :: ls' => l ++ sep ++ joinWith sep ls'
  end.

(** [batches] cuts the non-empty [l] into consecutive pieces of [n] elements,
    the last one holding between 1 and [n]. *)
Definition partitioned {A : Type} (n : nat) (l : list A)
  (batches : list (list A)) : Prop :=
  concat batches = l ∧
  ∃ full last, batches = full ++ [last] ∧
    Forall (fun b => length b = n) full ∧ 1 ≤ length last ≤ n.

Definition isThrow {A : Type} (c : Completion A) : bool :=
  match c with Return _ => false | Throw _ => true end.

Definition isReturn {A : Type} (c : Completion A) : bool :=
  match c with Return _ => true | Throw _ => false end.

(** A request that submits a file to the ingestion endpoint. *)
Definition isUploadRequest (ev : Event) : bool :=
  match ev with
  | PostUpload _ _ _ | UploadPhotoWithLogging _ _ _ _ => true
  | _ => false
  end.

(** ** A scripted backend, to run the components on concrete inputs *)

Module Scripted.

(** The answers still to give to upload requests ([None] accepts the file;
    an exhausted script accepts too), the number of logs created so far and
    the logs the server holds. *)
Record World : Type := mkWorld {
  script : list (option JSError);
  created : nat;
  logs : list UploadLog
}.

Definition photoOf (roomId : JSString) (file : File) (uploader : JSString)
  : Photo :=
  {| id := js "photo"; room_id := roomId; filename := js "stored.jpg";
     original_filename := name file; uploader_name := uploader;
     file_path := js "/uploads/stored.jpg"; thumbnail_path := None;
     file_size := Some (size file); mime_type := Some (type file);
     taken_at := None; uploaded_at := js "2025-01-01T00:00:00";
     like_count := 0; dislike_count := 0;
     user_liked := None; user_disliked := None |}.

Definition answer (photo : Photo) (w : World) : Completion Photo * World :=
  match script w with
  | [] => (Return photo, w)
  | None :: rest =>
    (Return photo, {| script := rest; created := created w; logs := logs w |})
  | Some e :: rest =>
    (Throw e, {| script := rest; created := created w; logs := logs w |})
  end.

Definition reaction (photoId user : JSString) : Reaction :=
  {| reaction_id := js "reaction"; reaction_photo_id := photoId;
     reaction_user_name := user;
     reaction_created_at := js "2025-01-01T00:00:00" |}.

Definition sessionOf (c : UploadSessionCreate) : UploadSession :=
  {| session_id_ := js "session"; session_room_id := sc_room_id c;
     session_user_name := sc_user_name c; total_files := sc_total_files c;
     completed_files := 0; failed_files_count := 0;
     session_started_at := js "2025-01-01T00:00:00";
     session_completed_at := None; session_status := in_progress |}.

Definition logOf (n : nat) (c : UploadLogCreate) : UploadLog :=
  {| log_id := js "log-" ++ ofNat n; log_session_id := lc_session_id c;
     log_room_id := lc_room_id c;
     log_original_filename := lc_original_filename c;
     log_file_size := Some (lc_file_size c);
     log_mime_type := Some (lc_mime_type c);
     log_uploader_name := lc_uploader_name c; log_status := pending;
     log_photo_id := None; error_message := None; retry_count := 0;
     log_started_at := js "2025-01-01T00:00:00"; log_completed_at := None |}.

#[global] Instance backend : Backend World := {
  post_upload roomId file uploader := answer (photoOf roomId file uploader);
  post_like photoId user w := (Return (reaction photoId user), w);
  post_dislike photoId user w := (Return (reaction photoId user), w);
  delete_room roomId w :=
    (Throw {| response := Some {| resp_status := 403; resp_detail := None |};
              message := js "Request failed with status code 403" |}, w);
  createSession c w := (Return (sessionOf c), w);
  createLog c w :=
    (Return (logOf (created w) c),
     {| script := script w; created := S (created w);
        logs := logs w ++ [logOf (created w) c] |});
  uploadPhotoWithLogging roomId file uploader _ :=
    answer (photoOf roomId file uploader);
  updateSession _ _ w := (Return tt, w);
  retryFailedUploads_request _ w := (Return tt, w);
  getSessionLogs _ w := (Return (logs w), w);
  window_confirm _ w := (true, w)
}.

Definition start (script : list (option JSError)) : World :=
  {| script := script; created := 0; logs := [] |}.

Definition room : JSString := js "123e4567-e89b-12d3-a456-426614174000".
Definition photo1 : JSString := js "9b2f0c1e-7d4a-4e6b-8c3d-5a1f2e3d4c5b".
Definition user : JSString := js "traveler".

Definition image (n : string) : File :=
  {| name := js n; size := 2048; type := js "image/jpeg" |}.

Definition seven : list File :=
  [image "a.jpg"; image "b.jpg"; image "c.jpg"; image "d.jpg"; image "e.jpg";
   image "f.jpg"; image "g.jpg"].

Definition conflict : JSError :=
  {| response := Some {| resp_status := 409;
                         resp_detail := Some (js "Duplicate photo") |};
     message := js "Request failed with status code 409" |}.

Definition serverError : JSError :=
  {| response := Some {| resp_status := 500; resp_detail := None |};
     message := js "Request failed with status code 500" |}.

Definition aPhoto (pid : JSString) (likes dislikes : Z) : Photo :=
  {| id := pid; room_id := room; filename := js "stored.jpg";
     original_filename := js "a.jpg"; uploader_name := user;
     file_path := js "/uploads/stored.jpg"; thumbnail_path := None;
     file_size := None; mime_type := None; taken_at := None;
     uploaded_at := js "2025-01-01T00:00:00";
     like_count := likes; dislike_count := dislikes;
     user_liked := None; user_disliked := None |}.

End Scripted.

(** The file name contains ['..'], ['/'] or ['\']. *)
Definition suspiciousName (f : File) : bool :=
  includes (name f) (js "..") || includes (name f) (js "/")
  || includes (name f) (js "\").

Definition allowedType (f : File) : bool :=
  existsb (eqb (type f)) validateInput.allowedTypes.

(** A file that passes the type, size, user name and room id checks and is still refused. *)
Definition doubleDot : File :=
  {| name := js "trip..jpg"; size := 2048; type := js "image/jpeg" |}.

(** A file with a path separator in its name whose content type is not an
    image type. *)
Definition slashName : File :=
  {| name := js "a/b.gif"; size := 2048; type := js "text/plain" |}.

(** The photo list after a successful like toggle, and after a dislike one. *)
Definition likeToggled (photoId : JSString) (st : PhotoGallery.State)
  : PhotoGallery.State :=
  {| PhotoGallery.userName := PhotoGallery.userName st;
     PhotoGallery.userLikes :=
       PhotoGallery.toggled photoId (PhotoGallery.userLikes st);
     PhotoGallery.userDislikes := PhotoGallery.userDislikes st;
     PhotoGallery.localPhotos :=
       map (fun photo =>
              if eqb (id photo) photoId then
                with_like_count
                  (if PhotoGallery.has photoId (PhotoGallery.userLikes st)
                   then like_count photo - 1 else like_count photo + 1) photo
              else photo)
           (PhotoGallery.localPhotos st) |}.

Definition dislikeToggled (photoId : JSString) (st : PhotoGallery.State)
  : PhotoGallery.State :=
  {| PhotoGallery.userName := PhotoGallery.userName st;
     PhotoGallery.userLikes := PhotoGallery.userLikes st;
     PhotoGallery.userDislikes :=
       PhotoGallery.toggled photoId (PhotoGallery.userDislikes st);
     PhotoGallery.localPhotos :=
       map (fun photo =>
              if eqb (id photo) photoId then
                with_dislike_count
                  (if PhotoGallery.has photoId (PhotoGallery.userDislikes st)
                   then dislike_count photo - 1 else dislike_count photo + 1)
                  photo
              else photo)
           (PhotoGallery.localPhotos st) |}.


(** The two kinds of reaction, with the handler, the request, the user's
    active flag and the counter of each. *)
Inductive ReactionKind : Type := Like | Dislike.

Definition active (kind : ReactionKind) (photoId : JSString)
  (st : PhotoGallery.State) : bool :=
  match kind with
  | Like => PhotoGallery.has photoId (PhotoGallery.userLikes st)
  | Dislike => PhotoGallery.has photoId (PhotoGallery.userDislikes st)
  end.

Definition counter (kind : ReactionKind) (photo : Photo) : Z :=
  match kind with
  | Like => like_count photo
  | Dislike => dislike_count photo
  end.

Section ReactionKinds.
Context {World : Type} {backend : Backend World}.

Definition request (kind : ReactionKind) :
  JSString → JSString → Async World Event Reaction :=
  match kind with
  | Like => toggleLike
  | Dislike => toggleDislike
  end.

Definition handle (kind : ReactionKind) :
  JSString → PhotoGallery.State → Async World Event PhotoGallery.State :=
  match kind with
  | Like => PhotoGallery.handleLike
  | Dislike => PhotoGallery.handleDislike
  end.

End ReactionKinds.

(** A gallery in which the user has liked and disliked the one photo. *)
Definition sampleGallery : PhotoGallery.State :=
  {| PhotoGallery.userName := Scripted.user;
     PhotoGallery.userLikes := {[Scripted.photo1]};
     PhotoGallery.userDislikes := {[Scripted.photo1]};
     PhotoGallery.localPhotos := [Scripted.aPhoto Scripted.photo1 3 1] |}.


(** The runs of [m] on the elements of [l], one after the other from the
    world [w] on, and the world after the last one. *)
Fixpoint runs {World A B : Type} (m : A → Async World Event B) (l : list A)
  (w : World) : list (Run World Event B) :=
  match l with
  | [] => []
  | x :: l' => m x w :: runs m l' (world (m x w))
  end.

Fixpoint worldAfter {World A B : Type} (m : A → Async World Event B)
  (l : list A) (w : World) : World :=
  match l with
  | [] => w
  | x :: l' => worldAfter m l' (world (m x w))
  end.

(** The consecutive pieces of [n] elements of [l] (the last one possibly
    shorter), by recursion on a bound on the number of pieces. *)
Fixpoint subBatchesUpTo {A : Type} (bound n : nat) (l : list A)
  : list (list A) :=
  match bound with
  | O => []
  | S bound' =>
    match l with
    | [] => []
    | _ :: _ => take n l :: subBatchesUpTo bound' n (drop n l)
    end
  end.

Definition subBatches {A : Type} (n : nat) (l : list A) : list (list A) :=
  subBatchesUpTo (length l) n l.

Definition countReturned {A : Type} (cs : list (Completion A)) : nat :=
  length (List.filter isReturn cs).

Definition countThrown {A : Type} (cs : list (Completion A)) : nat :=
  length (List.filter isThrow cs).

(** *** The uploader with bookkeeping *)

Section LoggingVocabulary.
Context {World : Type} {backend : Backend World}.
Variable roomId : JSString.
Variable userName : JSString.

(** The request for one file and its log, as the [try] block of
    [PhotoUploadLogging.uploadOne] makes it. *)
Definition submit (entry : File * UploadLog) : Async World Event Photo :=
  emit (UploadPhotoWithLogging roomId entry.1 userName (log_id entry.2)) ;;;
  respond (uploadPhotoWithLogging roomId entry.1 userName (log_id entry.2)).

(** What the uploader records for one file, from the completion of its own
    request. *)
Definition resultOf (entry : File * UploadLog) (c : Completion Photo)
  : PhotoUploadLogging.FileResult :=
  match c with
  | Return photo => PhotoUploadLogging.Uploaded entry.1 entry.2 photo
  | Throw error =>
    PhotoUploadLogging.NotUploaded entry.1 entry.2
      (PhotoUploadLogging.errorMessage error)
  end.

(** The logs of the entries whose request was rejected, in order. *)
Definition failedOf (entries : list (File * UploadLog))
  (cs : list (Completion Photo)) : list UploadLog :=
  map (fun ec => ec.1.2) (List.filter (fun ec => isThrow ec.2) (zip entries cs)).

(** The events of one sub-batch: its requests, then the join. *)
Definition batchEvents (batch : list (File * UploadLog)) : list Event :=
  map (fun entry =>
         UploadPhotoWithLogging roomId entry.1 userName (log_id entry.2)) batch
  ++ [AllSettled (length batch)].

End LoggingVocabulary.

Definition isUpdateSession (ev : Event) : bool :=
  match ev with
  | UpdateSession _ _ => true
  | _ => false
  end.

(** *** The batch uploader *)

(** A request rejected by the server as a duplicate (status 409). *)
Definition isConflict {A : Type} (c : Completion A) : bool :=
  match c with
  | Return _ => false
  | Throw e => bool_decide (PhotoUpload.statusOf e = Some 409%Z)
  end.

(** A failure other than a duplicate. *)
Definition isGenuineFailure {A : Type} (c : Completion A) : bool :=
  isThrow c && negb (isConflict c).

Section BatchVocabulary.
Context {World : Type} {backend : Backend World}.
Variable roomId : JSString.
Variable userName : JSString.

(** The call of [photoApi.uploadPhoto] in the [try] block of
    [PhotoUpload.uploadOne]. *)
Definition attempt (file : File) : Async World Event Photo :=
  uploadPhoto roomId file userName.

(** The file passes the validation of [photoApi.uploadPhoto], so that the
    request is made. *)
Definition sendable (file : File) : bool :=
  validateInput.roomId roomId && validateInput.userName userName
  && validateInput.valid (validateInput.file file).

Definition itemOf (file : File) (c : Completion Photo) : PhotoUpload.BatchItem :=
  match c with
  | Return _ => PhotoUpload.Succeeded file
  | Throw error => PhotoUpload.NotSucceeded file error
  end.

(** The per-file messages for the files that were not uploaded, in order. *)
Definition messagesOf (files : list File) (cs : list (Completion Photo))
  : list JSString :=
  omap (fun fc : File * Completion Photo =>
          match fc.2 with
          | Return _ => None
          | Throw error => Some (PhotoUpload.describe fc.1 error)
          end)
       (zip files cs).

(** The events of one sub-batch: the requests of the files that pass the
    validation, then the join. *)
Definition postEvents (batch : list File) : list Event :=
  map (fun file => PostUpload roomId file (sanitizeInput userName))
    (List.filter sendable batch)
  ++ [AllSettled (length batch)].

End BatchVocabulary.

(** The server after one log was created and then reset by a retry request:
    it holds that log, pending. *)
Definition afterRetry : Scripted.World :=
  {| Scripted.script := []; Scripted.created := 1;
     Scripted.logs :=
       [Scripted.logOf 0
          {| lc_session_id := js "session"; lc_room_id := Scripted.room;
             lc_original_filename := js "a.jpg"; lc_file_size := 2048;
             lc_mime_type := js "image/jpeg";
             lc_uploader_name := Scripted.user |}] |}.

(** The result of an upload of one file that failed. *)
Definition oneFailed : UploadResult :=
  {| result_session_id := js "session"; result_total_files := 1;
     successful_uploads := 0; failed_uploads := 1;
     failed_files := Scripted.logs afterRetry |}.

(* ===================================================================== *)
(** * Part I, continued: the rest of the client                           *)
(* ===================================================================== *)

(** ** The remaining validator of [validateInput] *)

Module validateInputRest.

(** [[가-힣a-zA-Z0-9\s._-]]; [\s] matches the white space and line
    terminators that [trim] removes. *)
Definition isRoomNameUnit (c : N) : bool :=
  validateInput.isNameUnit c || isWhiteSpace c.

Definition roomName (roomName : JSString) : bool :=
  (1 <=? length roomName)%nat && (length roomName <=? 100)%nat
  && (truthy roomName && forallb isRoomNameUnit roomName).

End validateInputRest.

(** The five characters [sanitizeInput] escapes: less-than, greater-than, double quote, single quote and slash. *)
Definition isEscaped (c : N) : bool :=
  ((c =? 60) || (c =? 62) || (c =? 34) || (c =? 39) || (c =? 47))%N.

(** ** The selection of files ([components/PhotoUpload.tsx]) *)

(** [Array.from(selectedFiles).forEach((file, i) => { if (i !== index)
    dt.items.add(file) })], from position [i] on. *)
Fixpoint keepExcept (index i : nat) (files : list File) : list File :=
  match files with
  | [] => []
  | file :: files' =>
    if negb (i =? index)%nat then file :: keepExcept index (S i) files'
    else keepExcept index (S i) files'
  end.

(** [removeFile]: the selection afterwards ([null] stays [null]). *)
Definition removeFile (selectedFiles : option (list File)) (index : nat)
  : option (list File) :=
  match selectedFiles with
  | None => None
  | Some files => Some (keepExcept index 0 files)
  end.

(** [handleFileSelect] and [handleDrop]: both hand the files of the browser
    event, when there are any, to [processFiles], which replaces the selection
    by the valid files if there is at least one. *)
Definition handleFileSelect (files : option (list File))
  (selectedFiles : option (list File)) : option (list File) :=
  match files with
  | None => selectedFiles
  | Some files =>
    let validFiles := (PhotoUpload.processFiles files).1 in
    if (0 <? length validFiles)%nat then Some validFiles else selectedFiles
  end.

Definition handleDrop := handleFileSelect.

(** What the user can do to the selection before pressing the upload button. *)
Inductive SelectionStep : Type :=
| FileSelect (files : option (list File))
| FileDrop (files : option (list File))
| RemoveFile (index : nat).

Definition selectionStep (selectedFiles : option (list File))
  (step : SelectionStep) : option (list File) :=
  match step with
  | FileSelect files => handleFileSelect files selectedFiles
  | FileDrop files => handleDrop files selectedFiles
  | RemoveFile index => removeFile selectedFiles index
  end.

(** The selection after the steps, from the initial state [useState(null)]. *)
Definition selectionAfter (steps : list SelectionStep) : option (list File) :=
  fold_left selectionStep steps None.

(** The message [processFiles] shows for a file it refuses. *)
Definition refusal (file : File) : JSString :=
  name file ++ js ": "
  ++ default (js "undefined") (validateInput.error (validateInput.file file)).

Definition isValidFile (file : File) : bool :=
  validateInput.valid (validateInput.file file).

Definition isAlert (ev : Event) : bool :=
  match ev with Alert _ => true | _ => false end.

(** The summary [uploadFilesInBatches] returns when the requests of [files]
    complete as [cs]. *)
Definition summaryOf (files : list File) (cs : list (Completion Photo))
  : PhotoUpload.Summary :=
  {| PhotoUpload.completedFiles := countReturned cs;
     PhotoUpload.skippedFiles := length (List.filter isConflict cs);
     PhotoUpload.errors := messagesOf files cs |}.

(** What an upload handler does once the uploader is back: the alert, the
    reset of the selection and the callback of the page. *)
Definition isOutcome (ev : Event) : bool :=
  match ev with
  | Alert _ | SetSelectedFiles _ | OnUploadSuccess => true
  | _ => false
  end.

(** ** A backend whose bookkeeping can fail, to run the uploader on *)

Module Flaky.

(** The error of session creation, the number of logs the server still
    creates before it refuses, the error of the session update, the answers
    to the upload requests and the number of logs created so far. *)
Record World : Type := mkWorld {
  sessionError : option JSError;
  logsLeft : option nat;
  updateError : option JSError;
  script : list (option JSError);
  created : nat
}.

Definition networkError : JSError :=
  {| response := None; message := js "Network Error" |}.

Definition answer (photo : Photo) (w : World) : Completion Photo * World :=
  match script w with
  | [] => (Return photo, w)
  | None :: rest =>
    (Return photo,
     {| sessionError := sessionError w; logsLeft := logsLeft w;
        updateError := updateError w; script := rest; created := created w |})
  | Some e :: rest =>
    (Throw e,
     {| sessionError := sessionError w; logsLeft := logsLeft w;
        updateError := updateError w; script := rest; created := created w |})
  end.

#[global] Instance backend : Backend World := {
  post_upload roomId file uploader :=
    answer (Scripted.photoOf roomId file uploader);
  post_like photoId user w := (Return (Scripted.reaction photoId user), w);
  post_dislike photoId user w := (Return (Scripted.reaction photoId user), w);
  delete_room roomId w := (Throw networkError, w);
  createSession c w :=
    match sessionError w with
    | Some e => (Throw e, w)
    | None => (Return (Scripted.sessionOf c), w)
    end;
  createLog c w :=
    match logsLeft w with
    | Some O => (Throw networkError, w)
    | budget =>
      (Return (Scripted.logOf (created w) c),
       {| sessionError := sessionError w; logsLeft := Nat.pred <$> budget;
          updateError := updateError w; script := script w;
          created := S (created w) |})
    end;
  uploadPhotoWithLogging roomId file uploader _ :=
    answer (Scripted.photoOf roomId file uploader);
  updateSession _ _ w :=
    match updateError w with
    | Some e => (Throw e, w)
    | None => (Return tt, w)
    end;
  retryFailedUploads_request _ w := (Return tt, w);
  getSessionLogs _ w := (Return [], w);
  window_confirm _ w := (false, w)
}.

(** A server that creates one log and refuses the second. *)
Definition secondLogRefused : World :=
  {| sessionError := None; logsLeft := Some 1%nat; updateError := None;
     script := []; created := 0 |}.

(** A server that accepts every file and refuses the final session update. *)
Definition updateRefused : World :=
  {| sessionError := None; logsLeft := None;
     updateError := Some networkError; script := []; created := 0 |}.

End Flaky.

(** [setUploadResult(result)] with a result, which brings up the retry
    panel. *)
Definition showsResult (ev : Event) : bool :=
  match ev with
  | SetUploadResult (Some _) => true
  | _ => false
  end.

(** ** The other requests of the API service ([services/api.ts]) *)

(** [RoomCreate]; [description] is optional. *)
Record RoomCreate : Type := mkRoomCreate {
  rc_name : JSString;
  rc_description : option JSString;
  rc_creator_name : JSString
}.

Record Participant : Type := mkParticipant {
  participant_name : JSString;
  participant_photo_count : Z;
  first_upload_at : JSString
}.

(** The bytes of a downloaded photo. *)
Definition Blob : Type := list N.

(** The requests the functions below make, by endpoint, with the values put
    into the path, the query or the body. *)
Inductive Request : Type :=
| PostRoom (data : RoomCreate)
| GetRoom (roomId : JSString)
| PostJoin (roomId user_name : JSString)
| GetRooms
| GetParticipantsCount (roomId : JSString)
| GetParticipantsList (roomId : JSString)
| GetPhotos (roomId : JSString)
| GetPhotosWithUserStatus (roomId user_name : JSString)
| GetDownload (roomId photoId : JSString)
| GetLikes (photoId : JSString)
| GetLikeCheck (photoId userName : JSString)
| GetLikeCount (photoId : JSString)
| GetDislikeCheck (photoId userName : JSString).

Inductive Storage : Type := localStorage | sessionStorage.

(** The observable actions of the pages: those of the upload and reaction
    code, the requests above, writes to the browser's storages, the download
    link that is clicked, the previews opened on iOS, and what the two modal
    dialogs hand to the page. *)
Inductive Action : Type :=
| Of (ev : Event)
| Sent (r : Request)
| SetItem (storage : Storage) (key value : JSString)
| SaveAs (blob : Blob) (filename : JSString)
| ShowImagePreview (imageUrl filename : JSString)
| OpenTabAfter (ms : Z) (imageUrl filename : JSString) (position total : nat)
| SetError (msg : JSString)
| OnLogin (userName : JSString)
| OnSubmit (roomId userName : JSString).

(** The endpoints behind these requests, and the clipboard. *)
Class Server (World : Type) : Type := {
  post_room : RoomCreate -> World -> Completion Room * World;
  get_room : JSString -> World -> Completion Room * World;
  post_join : JSString -> JSString -> World -> Completion unit * World;
  get_rooms : World -> Completion (list Room) * World;
  get_participants_count : JSString -> World -> Completion Z * World;
  get_participants_list :
    JSString -> World -> Completion (list Participant) * World;
  get_photos : JSString -> World -> Completion (list Photo) * World;
  get_photos_with_user_status :
    JSString -> JSString -> World -> Completion (list Photo) * World;
  get_download : JSString -> JSString -> World -> Completion Blob * World;
  get_likes : JSString -> World -> Completion (list Reaction) * World;
  get_like_check : JSString -> JSString -> World -> Completion bool * World;
  get_like_count : JSString -> World -> Completion Z * World;
  get_dislike_check : JSString -> JSString -> World -> Completion bool * World;
  copyToClipboard : JSString -> World -> bool * World
}.

(** A run of the upload and reaction code, seen among the actions of a page. *)
Definition lift {World A : Type} (m : Async World Event A)
  : Async World Action A :=
  fun w => let r := m w in mkRun (map Of (trace r)) (world r) (value r).

Module roomApi.
Section Service.
Context {World : Type} {server : Server World}.

Local Abbreviation Async := (JS.Async World Action).

Definition createRoom (roomData : RoomCreate) : Async Room :=
  if negb (validateInputRest.roomName (rc_name roomData)) then
    throw (Error (js "Invalid room name"))
  else if negb (validateInput.userName (rc_creator_name roomData)) then
    throw (Error (js "Invalid creator name"))
  else
    let sanitizedData :=
      {| rc_name := sanitizeInput (rc_name roomData);
         rc_creator_name := sanitizeInput (rc_creator_name roomData);
         rc_description :=
           match rc_description roomData with
           | Some description =>
             if truthy description then Some (sanitizeInput description)
             else None
           | None => None
           end |} in
    emit (Sent (PostRoom sanitizedData)) ;;;
    respond (post_room sanitizedData).

Definition getRoom (roomId : JSString) : Async Room :=
  if negb (validateInput.roomId roomId) then
    throw (Error (js "Invalid room ID format"))
  else
    emit (Sent (GetRoom roomId)) ;;; respond (get_room roomId).

Definition joinRoom (roomId user_name : JSString) : Async unit :=
  if negb (validateInput.roomId roomId) then
    throw (Error (js "Invalid room ID format"))
  else if negb (validateInput.userName user_name) then
    throw (Error (js "Invalid username"))
  else
    emit (Sent (PostJoin roomId (sanitizeInput user_name))) ;;;
    respond (post_join roomId (sanitizeInput user_name)).

Definition listRooms : Async (list Room) :=
  emit (Sent GetRooms) ;;; respond get_rooms.

Definition getParticipantsCount (roomId : JSString) : Async Z :=
  if negb (validateInput.roomId roomId) then
    throw (Error (js "Invalid room ID format"))
  else
    emit (Sent (GetParticipantsCount roomId)) ;;;
    respond (get_participants_count roomId).

Definition getParticipantsList (roomId : JSString) : Async (list Participant) :=
  if negb (validateInput.roomId roomId) then
    throw (Error (js "Invalid room ID format"))
  else
    emit (Sent (GetParticipantsList roomId)) ;;;
    respond (get_participants_list roomId).

End Service.
End roomApi.

Module photoApi.
Section Service.
Context {World : Type} {server : Server World}.

Local Abbreviation Async := (JS.Async World Action).

Definition getRoomPhotos (roomId : JSString) : Async (list Photo) :=
  if negb (validateInput.roomId roomId) then
    throw (Error (js "Invalid room ID format"))
  else
    emit (Sent (GetPhotos roomId)) ;;; respond (get_photos roomId).

Definition getRoomPhotosWithUserStatus (roomId userName : JSString)
  : Async (list Photo) :=
  if negb (validateInput.roomId roomId) then
    throw (Error (js "Invalid room ID format"))
  else if negb (validateInput.userName userName) then
    throw (Error (js "Invalid username"))
  else
    let sanitizedUserName := sanitizeInput userName in
    emit (Sent (GetPhotosWithUserStatus roomId sanitizedUserName)) ;;;
    respond (get_photos_with_user_status roomId sanitizedUserName).

Definition downloadPhoto (roomId photoId : JSString) : Async Blob :=
  if negb (validateInput.roomId roomId) then
    throw (Error (js "Invalid room ID format"))
  else if negb (validateInput.roomId photoId) then
    throw (Error (js "Invalid photo ID format"))
  else
    emit (Sent (GetDownload roomId photoId)) ;;;
    respond (get_download roomId photoId).

End Service.
End photoApi.

Module likeApi.
Section Service.
Context {World : Type} {server : Server World}.

Local Abbreviation Async := (JS.Async World Action).

Definition getPhotoLikes (photoId : JSString) : Async (list Reaction) :=
  if negb (validateInput.roomId photoId) then
    throw (Error (js "Invalid photo ID format"))
  else
    emit (Sent (GetLikes photoId)) ;;; respond (get_likes photoId).

(** The user name goes into the path through [encodeURIComponent]; the
    request is recorded with the name before encoding. *)
Definition checkUserLike (photoId userName : JSString) : Async bool :=
  if negb (validateInput.roomId photoId) then
    throw (Error (js "Invalid photo ID format"))
  else if negb (validateInput.userName userName) then
    throw (Error (js "Invalid username"))
  else
    emit (Sent (GetLikeCheck photoId userName)) ;;;
    respond (get_like_check photoId userName).

Definition getLikeCount (photoId : JSString) : Async Z :=
  if negb (validateInput.roomId photoId) then
    throw (Error (js "Invalid photo ID format"))
  else
    emit (Sent (GetLikeCount photoId)) ;;; respond (get_like_count photoId).

End Service.
End likeApi.

Module dislikeApi.
Section Service.
Context {World : Type} {server : Server World}.

Local Abbreviation Async := (JS.Async World Action).

Definition checkUserDislike (photoId userName : JSString) : Async bool :=
  if negb (validateInput.roomId photoId) then
    throw (Error (js "Invalid photo ID format"))
  else if negb (validateInput.userName userName) then
    throw (Error (js "Invalid username"))
  else
    emit (Sent (GetDislikeCheck photoId userName)) ;;;
    respond (get_dislike_check photoId userName).

End Service.
End dislikeApi.

(** *** Vocabulary: the calls of the service and what they may send *)

(** A call of one of the functions the service exports. *)
Inductive ApiCall : Type :=
| CreateRoomCall (roomData : RoomCreate)
| GetRoomCall (roomId : JSString)
| JoinRoomCall (roomId user_name : JSString)
| ListRoomsCall
| GetParticipantsCountCall (roomId : JSString)
| GetParticipantsListCall (roomId : JSString)
| DeleteRoomCall (roomId : JSString)
| UploadPhotoCall (roomId : JSString) (file : File) (uploaderName : JSString)
| GetRoomPhotosCall (roomId : JSString)
| GetRoomPhotosWithUserStatusCall (roomId userName : JSString)
| DownloadPhotoCall (roomId photoId : JSString)
| ToggleLikeCall (photoId user_name : JSString)
| GetPhotoLikesCall (photoId : JSString)
| CheckUserLikeCall (photoId userName : JSString)
| GetLikeCountCall (photoId : JSString)
| ToggleDislikeCall (photoId user_name : JSString)
| CheckUserDislikeCall (photoId userName : JSString).

(** The actions of a call. *)
Definition actionsOf {World : Type} {backend : Backend World}
  {server : Server World} (call : ApiCall) (w : World) : list Action :=
  match call with
  | CreateRoomCall roomData => trace (roomApi.createRoom roomData w)
  | GetRoomCall roomId => trace (roomApi.getRoom roomId w)
  | JoinRoomCall roomId user_name => trace (roomApi.joinRoom roomId user_name w)
  | ListRoomsCall => trace (roomApi.listRooms w)
  | GetParticipantsCountCall roomId =>
    trace (roomApi.getParticipantsCount roomId w)
  | GetParticipantsListCall roomId =>
    trace (roomApi.getParticipantsList roomId w)
  | DeleteRoomCall roomId => trace (lift (deleteRoom roomId) w)
  | UploadPhotoCall roomId file uploaderName =>
    trace (lift (uploadPhoto roomId file uploaderName) w)
  | GetRoomPhotosCall roomId => trace (photoApi.getRoomPhotos roomId w)
  | GetRoomPhotosWithUserStatusCall roomId userName =>
    trace (photoApi.getRoomPhotosWithUserStatus roomId userName w)
  | DownloadPhotoCall roomId photoId =>
    trace (photoApi.downloadPhoto roomId photoId w)
  | ToggleLikeCall photoId user_name =>
    trace (lift (toggleLike photoId user_name) w)
  | GetPhotoLikesCall photoId => trace (likeApi.getPhotoLikes photoId w)
  | CheckUserLikeCall photoId userName =>
    trace (likeApi.checkUserLike photoId userName w)
  | GetLikeCountCall photoId => trace (likeApi.getLikeCount photoId w)
  | ToggleDislikeCall photoId user_name =>
    trace (lift (toggleDislike photoId user_name) w)
  | CheckUserDislikeCall photoId userName =>
    trace (dislikeApi.checkUserDislike photoId userName w)
  end.

(** The values a call was given, as they must look to be sent: room and
    photo ids, user names, the file. *)
Definition givenIds (call : ApiCall) : list JSString :=
  match call with
  | CreateRoomCall _ | ListRoomsCall => []
  | GetRoomCall roomId | GetParticipantsCountCall roomId
  | GetParticipantsListCall roomId | DeleteRoomCall roomId
  | GetRoomPhotosCall roomId | JoinRoomCall roomId _
  | UploadPhotoCall roomId _ _ | GetRoomPhotosWithUserStatusCall roomId _ =>
    [roomId]
  | DownloadPhotoCall roomId photoId => [roomId; photoId]
  | ToggleLikeCall photoId _ | GetPhotoLikesCall photoId
  | CheckUserLikeCall photoId _ | GetLikeCountCall photoId
  | ToggleDislikeCall photoId _ | CheckUserDislikeCall photoId _ => [photoId]
  end.

Definition givenNames (call : ApiCall) : list JSString :=
  match call with
  | CreateRoomCall roomData => [rc_creator_name roomData]
  | JoinRoomCall _ name | UploadPhotoCall _ _ name
  | GetRoomPhotosWithUserStatusCall _ name | ToggleLikeCall _ name
  | CheckUserLikeCall _ name | ToggleDislikeCall _ name
  | CheckUserDislikeCall _ name => [name]
  | _ => []
  end.

(** The ids and the user names an action carries to the server. *)
Definition sentIds (a : Action) : list JSString :=
  match a with
  | Sent (GetRoom i) | Sent (GetParticipantsCount i)
  | Sent (GetParticipantsList i) | Sent (GetPhotos i) | Sent (PostJoin i _)
  | Sent (GetPhotosWithUserStatus i _) | Sent (GetLikes i)
  | Sent (GetLikeCheck i _) | Sent (GetLikeCount i)
  | Sent (GetDislikeCheck i _) => [i]
  | Sent (GetDownload i j) => [i; j]
  | Of (DeleteRoom i) | Of (PostUpload i _ _) | Of (PostLike i _)
  | Of (PostDislike i _) => [i]
  | _ => []
  end.

Definition sentNames (a : Action) : list JSString :=
  match a with
  | Sent (PostRoom data) => [rc_creator_name data]
  | Sent (PostJoin _ n) | Sent (GetPhotosWithUserStatus _ n)
  | Sent (GetLikeCheck _ n) | Sent (GetDislikeCheck _ n) => [n]
  | Of (PostUpload _ _ n) | Of (PostLike _ n) | Of (PostDislike _ n) => [n]
  | _ => []
  end.

(** A request to the server (and not an alert or another local action). *)
Definition isRequest (a : Action) : bool :=
  match a with
  | Sent _ => true
  | Of (PostUpload _ _ _) | Of (PostLike _ _) | Of (PostDislike _ _)
  | Of (DeleteRoom _) => true
  | _ => false
  end.

(** ** A small server, to run the pages on *)

Module Site.

(** The one room the server holds, if any, its photos and participants, the
    ids of the photos whose file is missing, and the joins recorded. *)
Record World : Type := mkWorld {
  room : option Room;
  photos : list Photo;
  participants : list Participant;
  missing : list JSString;
  members : list (JSString * JSString)
}.

Definition notFound : JSError :=
  {| response := Some {| resp_status := 404;
                         resp_detail := Some (js "Not found") |};
     message := js "Request failed with status code 404" |}.

Definition holds (roomId : JSString) (w : World) : bool :=
  match room w with
  | Some r => eqb (room_id_ r) roomId
  | None => false
  end.

Definition inRoom {A : Type} (roomId : JSString) (a : A) (w : World)
  : Completion A * World :=
  if holds roomId w then (Return a, w) else (Throw notFound, w).

Definition created (data : RoomCreate) : Room :=
  {| room_id_ := Scripted.room; room_name := rc_name data;
     room_description := rc_description data;
     creator_name := rc_creator_name data;
     room_created_at := js "2025-01-01T00:00:00"; is_active := true;
     photo_count := 0 |}.

#[global] Instance server : Server World := {
  post_room data w :=
    (Return (created data),
     {| room := Some (created data); photos := []; participants := [];
        missing := missing w; members := members w |});
  get_room roomId w :=
    match room w with
    | Some r => if eqb (room_id_ r) roomId then (Return r, w)
                else (Throw notFound, w)
    | None => (Throw notFound, w)
    end;
  post_join roomId user w :=
    if holds roomId w then
      (Return tt,
       {| room := room w; photos := photos w; participants := participants w;
          missing := missing w; members := members w ++ [(roomId, user)] |})
    else (Throw notFound, w);
  get_rooms w := (Return (option_list (room w)), w);
  get_participants_count roomId w :=
    inRoom roomId (Z.of_nat (length (participants w))) w;
  get_participants_list roomId w := inRoom roomId (participants w) w;
  get_photos roomId w := inRoom roomId (photos w) w;
  get_photos_with_user_status roomId _ w := inRoom roomId (photos w) w;
  get_download roomId photoId w :=
    if existsb (eqb photoId) (missing w) then (Throw notFound, w)
    else inRoom roomId [255%N; 216%N; 255%N] w;
  get_likes _ w := (Return [], w);
  get_like_check _ _ w := (Return false, w);
  get_like_count _ w := (Return 0%Z, w);
  get_dislike_check _ _ w := (Return false, w);
  copyToClipboard _ w := (true, w)
}.

Definition empty : World :=
  {| room := None; photos := []; participants := []; missing := [];
     members := [] |}.

Definition photo2 : JSString := js "0a1b2c3d-4e5f-4a6b-8c7d-9e0f1a2b3c4d".
Definition photo3 : JSString := js "11111111-2222-4333-8444-555555555555".

(** A room with three photos, the second of which was disliked once and the
    third of which has lost its file. *)
Definition trip : World :=
  {| room := Some (created {| rc_name := js "Jeju"; rc_description := None;
                              rc_creator_name := Scripted.user |});
     photos := [Scripted.aPhoto Scripted.photo1 2 0;
                Scripted.aPhoto photo2 0 1;
                Scripted.aPhoto photo3 0 0];
     participants := [{| participant_name := Scripted.user;
                         participant_photo_count := 3;
                         first_upload_at := js "2025-01-01T00:00:00" |}];
     missing := [photo3];
     members := [(Scripted.room, Scripted.user)] |}.

End Site.

(** ** The gallery: selection and downloads ([components/PhotoGallery.tsx]) *)

Module GalleryDownloads.

(** [isIOS] of [utils/downloadUtils.ts]:
    [/iPad|iPhone|iPod/.test(navigator.userAgent)]. *)
Definition isIOS (userAgent : JSString) : bool :=
  includes userAgent (js "iPad") || includes userAgent (js "iPhone")
  || includes userAgent (js "iPod").

(** The updater [handlePhotoSelect] gives to [setSelectedPhotos]. *)
Definition handlePhotoSelect (photoId : JSString) (prev : gset JSString)
  : gset JSString :=
  if PhotoGallery.has photoId prev then prev ∖ {[photoId]}
  else prev ∪ {[photoId]}.

Section Handlers.
Context {World : Type} {server : Server World}.

(** [navigator.userAgent], [window.location.protocol] and
    [window.location.hostname]. *)
Variable userAgent : JSString.
Variable protocol : JSString.
Variable hostname : JSString.

Local Abbreviation Async := (JS.Async World Action).

Definition imageUrl (photo : Photo) : JSString :=
  protocol ++ js "//" ++ hostname ++ js ":8000" ++ file_path photo.

(** [handleDownload]; the value is the set [downloading] afterwards. On iOS
    the photo leaves the set only when the preview is closed. *)
Definition handleDownload (photo : Photo) (downloading : gset JSString)
  : Async (gset JSString) :=
  let downloading := downloading ∪ {[id photo]} in
  try_catch
    (if isIOS userAgent then
       emit (ShowImagePreview (imageUrl photo) (original_filename photo)) ;;;
       ret downloading
     else
       blob <- photoApi.downloadPhoto (room_id photo) (id photo) ;;
       emit (SaveAs blob (original_filename photo)) ;;;
       ret (downloading ∖ {[id photo]}))
    (fun _ =>
       emit (Of (Alert (js "다운로드에 실패했습니다."))) ;;;
       ret (downloading ∖ {[id photo]})).

(** [for (const photo of selectedPhotoObjects) { await handleDownload(photo);
    await new Promise(resolve => setTimeout(resolve, 500)) }] *)
Fixpoint downloadEach (selectedPhotoObjects : list Photo)
  (downloading : gset JSString) : Async (gset JSString) :=
  match selectedPhotoObjects with
  | [] => ret downloading
  | photo :: rest =>
    downloading <- handleDownload photo downloading ;;
    emit (Of (Delay 500)) ;;;
    downloadEach rest downloading
  end.

(** The loop of the iOS branch, at index [i]: each photo gets a tab that is
    opened [i * 1000] ms later and shows its position among [total]. *)
Fixpoint openTabs (i total : nat) (selectedPhotoObjects : list Photo)
  : Async unit :=
  match selectedPhotoObjects with
  | [] => ret tt
  | photo :: rest =>
    emit (OpenTabAfter (Z.of_nat i * 1000) (imageUrl photo)
            (original_filename photo) (i + 1) total) ;;;
    openTabs (i + 1) total rest
  end.

(** [handleBatchDownload]; the value is the selection and the set
    [downloading] afterwards. *)
Definition handleBatchDownload (selectedPhotos : gset JSString)
  (localPhotos : list Photo) (downloading : gset JSString)
  : Async (gset JSString * gset JSString) :=
  if (base.size selectedPhotos =? 0)%nat then
    emit (Of (Alert (js "다운로드할 사진을 선택해주세요."))) ;;;
    ret (selectedPhotos, downloading)
  else
    let selectedPhotoObjects :=
      List.filter (fun photo => PhotoGallery.has (id photo) selectedPhotos)
        (PhotoGallery.visiblePhotos localPhotos) in
    downloading <-
      (if isIOS userAgent then
         emit (Of (Alert (ofNat (length selectedPhotoObjects)
                          ++ js "개의 사진을 새 탭으로 엽니다. 각 탭에서 이미지를 길게 눌러 저장하세요."))) ;;;
         openTabs 0 (length selectedPhotoObjects) selectedPhotoObjects ;;;
         ret downloading
       else downloadEach selectedPhotoObjects downloading) ;;
    ret (∅, downloading).

(** [loadParticipantCount]; the value is [participantCount] afterwards. *)
Definition loadParticipantCount (roomId : JSString) (participantCount : Z)
  : Async Z :=
  try_catch (roomApi.getParticipantsCount roomId)
    (fun _ => ret participantCount).

End Handlers.

(** The photos [handleBatchDownload] works on. *)
Definition chosen (selectedPhotos : gset JSString) (localPhotos : list Photo)
  : list Photo :=
  List.filter (fun photo => PhotoGallery.has (id photo) selectedPhotos)
    (PhotoGallery.visiblePhotos localPhotos).

(** The photo passes the checks of [photoApi.downloadPhoto]. *)
Definition downloadable (photo : Photo) : bool :=
  validateInput.roomId (room_id photo) && validateInput.roomId (id photo).

Definition isDownloadAlert (a : Action) : bool :=
  match a with
  | Of (Alert _) => true
  | _ => false
  end.

Definition isSaveAs (a : Action) : bool :=
  match a with
  | SaveAs _ _ => true
  | _ => false
  end.

Definition isPause (a : Action) : bool :=
  match a with
  | Of (Delay _) => true
  | _ => false
  end.

End GalleryDownloads.

(** A desktop browser and an iPhone. *)
Definition desktop : JSString := js "Mozilla/5.0 (X11; Linux x86_64)".
Definition iPhone : JSString :=
  js "Mozilla/5.0 (iPhone; CPU iPhone OS 17_0 like Mac OS X)".

(** All three photos of [Site.trip] selected. *)
Definition allThree : gset JSString :=
  {[Scripted.photo1; Site.photo2; Site.photo3]}.

(** ** The room page: loading and filtering ([pages/RoomPage.tsx]) *)

Module RoomPageState.

Inductive Tab : Type := gallery | upload.

(** The React state of the page that its handlers read and write. *)
Record State : Type := mkState {
  room : option Room;
  photos : list Photo;
  participants : list Participant;
  activeTab : Tab;
  showLoginModal : bool;
  selectedUploader : option JSString
}.

(** [userName && userName.trim().length >= 2] *)
Definition longEnough (userName : option JSString) : bool :=
  match userName with
  | Some userName => truthy userName && (2 <=? length (trim userName))%nat
  | None => false
  end.

(** [{ ...state }] after [setRoom], [setPhotos] and [setParticipants]. *)
Definition loaded (data : Room * list Photo * list Participant) (st : State)
  : State :=
  {| room := Some data.1.1; photos := data.1.2; participants := data.2;
     activeTab := activeTab st; showLoginModal := showLoginModal st;
     selectedUploader := selectedUploader st |}.

Section Handlers.
Context {World : Type} {server : Server World}.

Local Abbreviation Async := (JS.Async World Action).

(** A promise that is awaited with the others: its rejection does not stop
    them. *)
Definition settled {A : Type} (m : Async A) : Async (Completion A) :=
  fun w => let r := m w in mkRun (trace r) (world r) (Return (value r)).

(** [await Promise.all([roomApi.getRoom(roomId), ..., 
    roomApi.getParticipantsList(roomId)])]: the three calls are made in this
    order, whatever becomes of the others, and the three values are there
    only when none was rejected. The handlers do not read the reason of a
    rejection, which is not kept. *)
Definition fetchAll (roomId : JSString) (userName : option JSString)
  : Async (option (Room * list Photo * list Participant)) :=
  roomData <- settled (roomApi.getRoom roomId) ;;
  photosData <-
    settled (match userName with
             | Some name =>
               if longEnough userName
               then photoApi.getRoomPhotosWithUserStatus roomId name
               else photoApi.getRoomPhotos roomId
             | None => photoApi.getRoomPhotos roomId
             end) ;;
  participantsData <- settled (roomApi.getParticipantsList roomId) ;;
  ret match roomData, photosData, participantsData with
      | Return r, Return p, Return ps => Some (r, p, ps)
      | _, _, _ => None
      end.

(** [refreshRoomData]; [roomId] is the route parameter and [stored] is
    [localStorage.getItem('userName')]. *)
Definition refreshRoomData (roomId : option JSString)
  (stored : option JSString) (st : State) : Async State :=
  match roomId with
  | Some roomId =>
    if negb (truthy roomId) then ret st else
    data <- fetchAll roomId stored ;;
    ret match data with
        | Some data => loaded data st
        | None => st
        end
  | None => ret st
  end.



End Handlers.

Definition handleParticipantClick (participantName : JSString) (st : State)
  : State :=
  {| room := room st; photos := photos st; participants := participants st;
     activeTab := activeTab st; showLoginModal := showLoginModal st;
     selectedUploader :=
       if bool_decide (selectedUploader st = Some participantName)
       then None else Some participantName |}.

(** [filteredPhotos], the list handed to the gallery. *)
Definition filteredPhotos (st : State) : list Photo :=
  match selectedUploader st with
  | Some uploader =>
    if truthy uploader
    then List.filter (fun photo => eqb (uploader_name photo) uploader)
           (photos st)
    else photos st
  | None => photos st
  end.

End RoomPageState.

(** ** Names kept in the browser's storages *)

(** [JSON.parse], the assignment [data[key] = value] and [JSON.stringify],
    on the values of JavaScript, which the embedding does not describe: the
    first two may throw. *)
Class Json (JSValue : Type) : Type := {
  JSON_parse : JSString -> Completion JSValue;
  setProperty : JSValue -> JSString -> JSString -> Completion JSValue;
  JSON_stringify : JSValue -> JSString
}.

Section Storages.
Context {World JSValue : Type} {server : Server World} {json : Json JSValue}.

Local Abbreviation Async := (JS.Async World Action).

Definition now {A : Type} (c : Completion A) : Async A :=
  fun w => mkRun [] w c.

(** [const roomUserData = JSON.parse(localStorage.getItem('roomUsers') || '{}');
     roomUserData[key] = value;
     localStorage.setItem('roomUsers', JSON.stringify(roomUserData))],
    the three lines each of the handlers below has; [roomUsers] is what
    [localStorage.getItem('roomUsers')] returns. *)
Definition saveRoomUser (roomUsers : option JSString) (key value : JSString)
  : Async unit :=
  roomUserData <- now (JSON_parse (opt_or_else roomUsers (js "{}"))) ;;
  roomUserData <- now (setProperty roomUserData key value) ;;
  emit (SetItem localStorage (js "roomUsers") (JSON_stringify roomUserData)).

(** The [onBlur] handler of the name input of [RoomInfo]. *)
Definition nameInputBlur (value : JSString) (roomId : option JSString)
  (roomUsers : option JSString) : Async unit :=
  let name := trim value in
  match roomId with
  | Some roomId =>
    if truthy name && truthy roomId then
      saveRoomUser roomUsers roomId name ;;;
      emit (SetItem localStorage (js "userName") name) ;;;
      emit (SetItem sessionStorage (js "userName") name)
    else ret tt
  | None => ret tt
  end.

End Storages.

(** ** The login dialog ([components/UserLoginModal.tsx]) *)

Module UserLoginModal.
Section Handlers.
Context {World JSValue : Type} {server : Server World} {json : Json JSValue}.
Variable roomId : JSString.

Local Abbreviation Async := (JS.Async World Action).

Definition statusOf (err : JSError) : option Z := resp_status <$> response err.

(** [loadRoomInfo]; the value is [(roomName, roomInfoLoaded)] afterwards. *)
Definition loadRoomInfo (roomName : JSString) (roomInfoLoaded : bool)
  : Async (JSString * bool) :=
  try_catch
    (if negb (validateInput.roomId roomId) then
       emit (SetError (js "유효하지 않은 방 ID입니다.")) ;;;
       ret (roomName, roomInfoLoaded)
     else
       room <- roomApi.getRoom roomId ;;
       ret (room_name room, true))
    (fun err =>
       (if bool_decide (statusOf err = Some 400%Z) then
          emit (SetError (js "유효하지 않은 방 ID 형식입니다."))
        else if bool_decide (statusOf err = Some 404%Z) then
          emit (SetError (js "존재하지 않는 방입니다."))
        else if bool_decide (statusOf err = Some 429%Z) then
          emit (SetError (js "요청이 너무 많습니다. 잠시 후 다시 시도해주세요."))
        else
          emit (SetError (js "방 정보를 불러올 수 없습니다."))) ;;;
       ret (roomName, roomInfoLoaded)).

(** [handleSubmit]; [inputValue] is the value of the name input and
    [roomUsers] is [localStorage.getItem('roomUsers')]. *)
Definition handleSubmit (inputValue : JSString) (roomUsers : option JSString)
  : Async unit :=
  let trimmedName := trim inputValue in
  if negb (truthy trimmedName) then
    emit (SetError (js "이름을 입력해주세요."))
  else if negb (validateInput.userName trimmedName) then
    emit (SetError (js "이름은 2-50자의 한글, 영문, 숫자, ., _, - 만 사용 가능합니다."))
  else if negb (validateInput.roomId roomId) then
    emit (SetError (js "유효하지 않은 방 ID입니다."))
  else
    emit (SetError (js "")) ;;;
    try_catch
      (roomApi.joinRoom roomId trimmedName ;;;
       let sanitizedName := sanitizeInput trimmedName in
       emit (SetItem localStorage (js "userName") sanitizedName) ;;;
       emit (SetItem sessionStorage (js "userName") sanitizedName) ;;;
       saveRoomUser roomUsers roomId sanitizedName ;;;
       emit (OnLogin sanitizedName))
      (fun err =>
         if bool_decide (statusOf err = Some 400%Z) then
           emit (SetError (opt_or_else (response err ≫= resp_detail)
                             (js "잘못된 요청입니다.")))
         else if bool_decide (statusOf err = Some 404%Z) then
           emit (SetError (js "존재하지 않는 방입니다."))
         else if bool_decide (statusOf err = Some 429%Z) then
           emit (SetError (js "요청이 너무 많습니다. 잠시 후 다시 시도해주세요."))
         else if bool_decide (statusOf err = Some 419%Z) then
           emit (SetError (js "보안 토큰 오류. 페이지를 새로고침해주세요."))
         else if bool_decide (statusOf err = Some 403%Z) then
           emit (SetError (js "방 접근 권한이 없습니다."))
         else
           emit (SetError (js "방 참가에 실패했습니다. 다시 시도해주세요."))).

End Handlers.
End UserLoginModal.

(** ** Creating a room ([pages/CreateRoomPage.tsx]) *)

Module CreateRoomPage.
Section Handlers.
Context {World JSValue : Type} {server : Server World} {json : Json JSValue}.

Local Abbreviation Async := (JS.Async World Action).

(** [handleSubmit]; the three values are those of the inputs of the form. *)
Definition handleSubmit (name description creator_name : JSString)
  (roomUsers : option JSString) : Async unit :=
  if negb (truthy (trim name)) || negb (truthy (trim creator_name)) then ret tt
  else
    try_catch
      (let formData := {| rc_name := name; rc_description := Some description;
                          rc_creator_name := creator_name |} in
       room <- roomApi.createRoom formData ;;
       emit (SetItem localStorage (js "userName") creator_name) ;;;
       emit (SetItem sessionStorage (js "userName") creator_name) ;;;
       saveRoomUser roomUsers (room_id_ room) creator_name ;;;
       let autoLoginFlag := js "autoLogin_" ++ room_id_ room in
       emit (SetItem sessionStorage autoLoginFlag creator_name) ;;;
       try_catch (roomApi.joinRoom (room_id_ room) creator_name)
         (fun _ => ret tt) ;;;
       emit (Of (Navigate (js "/room/" ++ room_id_ room ++ js "?creator=true"))))
      (fun _ => emit (Of (Alert (js "방 생성에 실패했습니다.")))).

End Handlers.
End CreateRoomPage.

(** ** The home page and its dialog ([pages/HomePage.tsx],
    [components/RoomPasswordModal.tsx]) *)

Module HomePage.
Section Handlers.
Context {World JSValue : Type} {server : Server World} {json : Json JSValue}.

Local Abbreviation Async := (JS.Async World Action).

(** [loadRooms]; the value is [rooms] afterwards. *)
Definition loadRooms (rooms : list Room) : Async (list Room) :=
  try_catch roomApi.listRooms (fun _ => ret rooms).

(** [handleJoinRoom]; the two values are those of the inputs of the form. *)
Definition handleJoinRoom (roomIdInput userNameInput : JSString)
  (roomUsers : option JSString) : Async unit :=
  let roomId := or_else (trim roomIdInput) (js "") in
  let userName := or_else (trim userNameInput) (js "") in
  if negb (truthy roomId) || negb (truthy userName) then ret tt
  else
    try_catch
      (roomApi.joinRoom roomId userName ;;;
       saveRoomUser roomUsers roomId userName ;;;
       emit (SetItem localStorage (js "userName") userName) ;;;
       emit (SetItem sessionStorage (js "userName") userName) ;;;
       emit (Of (Navigate (js "/room/" ++ roomId))))
      (fun _ =>
         emit (Of (Alert (js "방에 참가할 수 없습니다. 방 ID를 확인해주세요.")))).

(** [handlePasswordSubmit]; [selectedRoom] is the room whose card was
    clicked. *)
Definition handlePasswordSubmit (selectedRoom : option Room)
  (inputRoomId userName : JSString) (roomUsers : option JSString)
  : Async unit :=
  match selectedRoom with
  | None => ret tt
  | Some selectedRoom =>
    try_catch
      (if negb (eqb inputRoomId (room_id_ selectedRoom)) then
         emit (Of (Alert (js "올바르지 않은 방 ID입니다.")))
       else
         roomApi.joinRoom inputRoomId userName ;;;
         saveRoomUser roomUsers inputRoomId userName ;;;
         emit (SetItem localStorage (js "userName") userName) ;;;
         emit (SetItem sessionStorage (js "userName") userName) ;;;
         emit (Of (Navigate (js "/room/" ++ inputRoomId))))
      (fun _ =>
         emit (Of (Alert (js "방에 접근할 수 없습니다. 방 ID나 사용자 이름을 다시 확인해주세요."))))
  end.

End Handlers.
End HomePage.

Module RoomPasswordModal.
Section Handlers.
Context {World : Type}.

Local Abbreviation Async := (JS.Async World Action).

(** [handleSubmit]; [onSubmit] is what the home page passes, its
    [handlePasswordSubmit]. *)
Definition handleSubmit (roomIdInput userNameInput : JSString) : Async unit :=
  let roomId := or_else (trim roomIdInput) (js "") in
  let userName := or_else (trim userNameInput) (js "") in
  if negb (truthy roomId) then
    emit (SetError (js "방 ID를 입력해주세요."))
  else if (length roomId <? 10)%nat then
    emit (SetError (js "올바른 방 ID를 입력해주세요."))
  else if negb (truthy userName) then
    emit (SetError (js "사용자 이름을 입력해주세요."))
  else if (length userName <? 2)%nat then
    emit (SetError (js "사용자 이름은 2글자 이상이어야 합니다."))
  else
    emit (SetError (js "")) ;;;
    emit (OnSubmit roomId userName).

End Handlers.
End RoomPasswordModal.

(** ** Vocabulary of the statements about the pages *)

(** A write of the user name a later visit will read. *)
Definition storesUserName (a : Action) : option JSString :=
  match a with
  | SetItem _ key value => if eqb key (js "userName") then Some value else None
  | _ => None
  end.

(** The JavaScript values reduced to the entries written into them; nothing
    throws. *)
#[global] Instance entries : Json (list (JSString * JSString)) := {
  JSON_parse _ := Return [];
  setProperty data key value := Return ((key, value) :: data);
  JSON_stringify data := concat (map (fun kv => kv.1 ++ js "=" ++ kv.2) data)
}.

(** Whatever the action stores as the user name passes
    [validateInput.userName], and so does a name handed to the page. *)
Definition keepsNamesValid (a : Action) : bool :=
  match a with
  | OnLogin name => validateInput.userName name
  | _ =>
    match storesUserName a with
    | Some name => validateInput.userName name
    | None => true
    end
  end.

(** The state of a page that has loaded nothing yet. *)
Definition blankPage : RoomPageState.State :=
  {| RoomPageState.room := None; RoomPageState.photos := [];
     RoomPageState.participants := [];
     RoomPageState.activeTab := RoomPageState.gallery;
     RoomPageState.showLoginModal := true;
     RoomPageState.selectedUploader := None |}.

(** A photo uploaded by [uploader]. *)
Definition photoBy (photoId uploader : JSString) : Photo :=
  {| id := photoId; room_id := Scripted.room; filename := js "stored.jpg";
     original_filename := js "a.jpg"; uploader_name := uploader;
     file_path := js "/uploads/stored.jpg"; thumbnail_path := None;
     file_size := None; mime_type := None; taken_at := None;
     uploaded_at := js "2025-01-01T00:00:00";
     like_count := 0; dislike_count := 0;
     user_liked := None; user_disliked := None |}.

(** A page showing three photos of two uploaders, filtered by the second
    one. *)
Definition sharedPage : RoomPageState.State :=
  {| RoomPageState.room := None;
     RoomPageState.photos :=
       [photoBy Scripted.photo1 Scripted.user;
        photoBy Site.photo2 (js "guest");
        photoBy Site.photo3 Scripted.user];
     RoomPageState.participants := [];
     RoomPageState.activeTab := RoomPageState.gallery;
     RoomPageState.showLoginModal := false;
     RoomPageState.selectedUploader := Some (js "guest") |}.

(** [localStorage.getItem('userName')] after the actions [t], when it was
    [stored] before them. *)
Definition localUserName (stored : option JSString) (t : list Action)
  : option JSString :=
  fold_left
    (fun acc a =>
       match a with
       | SetItem localStorage key value =>
         if eqb key (js "userName") then Some value else acc
       | _ => acc
       end)
    t stored.

(** ** The gallery: taking over the photos of the page *)

From stdpp Require sorting.






(* ===================================================================== *)
(** * Part II: properties                                                 *)
(* ===================================================================== *)

Local Open Scope Z_scope.

(** ** Strings *)

Lemma eqb_true (a b : JSString) : eqb a b = true ↔ a = b.
Proof. unfold eqb. apply bool_decide_eq_true. Qed.


(** ** The administrator control of the room page *)

Section RoomPageFacts.
Context {World : Type} {backend : Backend World}.


End RoomPageFacts.



(** ** Validation before a photo is sent *)


Lemma file_valid_iff (f : File) :
  validateInput.valid (validateInput.file f) = true ↔
  allowedType f = true ∧ (size f <= validateInput.maxSize)%N
  ∧ suspiciousName f = false.
Proof.
  unfold validateInput.file, allowedType, suspiciousName.
  destruct (existsb _ _); simpl; [|intuition discriminate].
  destruct (N.ltb_spec validateInput.maxSize (size f)); simpl;
    [split; [discriminate | intros (_ & ? & _); lia]|].
  destruct (_ || _ || _); simpl; intuition (try discriminate; auto).
Qed.

Lemma file_invalid_filename (f : File) :
  allowedType f = true → (size f <= validateInput.maxSize)%N →
  suspiciousName f = true →
  validateInput.file f
  = {| validateInput.valid := false;
       validateInput.error := Some (js "Invalid filename.") |}.
Proof.
  unfold validateInput.file, allowedType, suspiciousName. intros -> Hs ->.
  simpl. destruct (N.ltb_spec validateInput.maxSize (size f)); [lia | reflexivity].
Qed.

Lemma processFiles_fold (files : list File) (acc : list File * list JSString) :
  (fold_left
     (fun acc file =>
        let validation := validateInput.file file in
        if validateInput.valid validation then (acc.1 ++ [file], acc.2)
        else (acc.1,
              acc.2 ++ [name file ++ js ": "
                        ++ default (js "undefined")
                             (validateInput.error validation)]))
     files acc).1
  = acc.1 ++ List.filter (fun f => validateInput.valid (validateInput.file f)) files.
Proof.
  revert acc. induction files as [|f files IH]; intros acc; simpl.
  - by rewrite app_nil_r.
  - rewrite IH. destruct (validateInput.valid (validateInput.file f)); simpl.
    + by rewrite <- app_assoc.
    + reflexivity.
Qed.

Lemma processFiles_kept (files : list File) :
  (PhotoUpload.processFiles files).1
  = List.filter (fun f => validateInput.valid (validateInput.file f)) files.
Proof. unfold PhotoUpload.processFiles. by rewrite processFiles_fold. Qed.

Section ValidationFacts.
Context {World : Type} {backend : Backend World}.

Lemma uploadPhoto_sends (r : JSString) (f : File) (u : JSString) (w : World) :
  validateInput.roomId r = true → validateInput.userName u = true →
  validateInput.valid (validateInput.file f) = true →
  uploadPhoto r f u w
  = mkRun [PostUpload r f (sanitizeInput u)]
      (post_upload r f (sanitizeInput u) w).2
      (post_upload r f (sanitizeInput u) w).1.
Proof. unfold uploadPhoto. intros -> -> ->. reflexivity. Qed.

Lemma uploadPhoto_throws (r : JSString) (f : File) (u : JSString) (w : World) :
  validateInput.roomId r && validateInput.userName u
  && validateInput.valid (validateInput.file f) = false →
  ∃ msg, uploadPhoto r f u w = mkRun [] w (Throw (Error msg)).
Proof.
  unfold uploadPhoto. intros H.
  destruct (validateInput.roomId r); simpl in *; [|eexists; reflexivity].
  destruct (validateInput.userName u); simpl in *; [|eexists; reflexivity].
  rewrite H. simpl. eexists; reflexivity.
Qed.

(** C7 (as amended). [photoApi.uploadPhoto] fails in its validation step,
    before any request is made, exactly when the room id or the uploader name
    fails its format check, or the content type is not one of the allowed
    image types, or the size exceeds 10 MiB, or the file name contains ['..'],
    ['/'] or ['\']; a file passing all of these checks is sent to the server. *)
Theorem uploadPhoto_validation (r : JSString) (f : File) (u : JSString)
  (w : World) :
  let bad :=
    negb (validateInput.roomId r) || negb (validateInput.userName u)
    || negb (allowedType f) || (10 * 1024 * 1024 <? size f)%N
    || suspiciousName f in
  (bad = true → ∃ msg, uploadPhoto r f u w = mkRun [] w (Throw (Error msg)))
  ∧ (bad = false →
     uploadPhoto r f u w
     = mkRun [PostUpload r f (sanitizeInput u)]
         (post_upload r f (sanitizeInput u) w).2
         (post_upload r f (sanitizeInput u) w).1).
Proof.
  intros bad.
  pose proof (file_valid_iff f) as Hv.
  destruct (validateInput.roomId r) eqn:Hr, (validateInput.userName u) eqn:Hu,
    (allowedType f) eqn:Ht, (10 * 1024 * 1024 <? size f)%N eqn:Hsz,
    (suspiciousName f) eqn:Hn; subst bad; simpl;
    (split; [intros Hb; try discriminate Hb | intros Hb; try discriminate Hb]).
  all: try (apply uploadPhoto_throws; rewrite Hr, Hu; simpl; try reflexivity;
            apply not_true_is_false; intros Hval; apply Hv in Hval;
            destruct Hval as (? & Hle & ?);
            try discriminate;
            apply N.ltb_lt in Hsz; unfold validateInput.maxSize in Hle; lia).
  apply uploadPhoto_sends; [assumption..|].
  apply Hv. split; [reflexivity|]. split; [|reflexivity].
  apply N.ltb_ge in Hsz. exact Hsz.
Qed.

(** C10 (as amended). A file whose name contains ['..'], ['/'] or ['\'] is
    always rejected by [validateInput.file], and the checks run in the order
    type, size, name: the error is the one of the content type when the type
    is not allowed, the one of the size when the type is allowed and the size
    exceeds 10 MiB, and ['Invalid filename.'] exactly when type and size are
    both acceptable. The file is dropped from the selection by [processFiles],
    and [photoApi.uploadPhoto] throws for it without making any request, with
    that same error once the room id and the uploader name are well formed. *)
Theorem suspicious_filename_rejected (f : File) :
  includes (name f) (js "..") || includes (name f) (js "/")
  || includes (name f) (js "\") = true →
  let typeOk := existsb (eqb (type f)) validateInput.allowedTypes in
  let sizeOk := (size f <=? 10 * 1024 * 1024)%N in
  let message :=
    if negb typeOk then
      js "Invalid file type. Only JPEG, PNG, GIF, and WebP are allowed."
    else if negb sizeOk then js "File too large. Maximum size is 10MB."
    else js "Invalid filename." in
  validateInput.file f
  = {| validateInput.valid := false; validateInput.error := Some message |}
  ∧ (validateInput.error (validateInput.file f) = Some (js "Invalid filename.")
     ↔ typeOk = true ∧ sizeOk = true)
  ∧ (∀ files, f ∉ (PhotoUpload.processFiles files).1)
  ∧ (∀ r u w, ∃ msg, uploadPhoto r f u w = mkRun [] w (Throw (Error msg)))
  ∧ (∀ r u w,
       validateInput.roomId r = true → validateInput.userName u = true →
       uploadPhoto r f u w = mkRun [] w (Throw (Error message))).
Proof.
  intros Hn typeOk sizeOk message.
  assert (Hfile : validateInput.file f
                  = {| validateInput.valid := false;
                       validateInput.error := Some message |}).
  { subst message typeOk sizeOk. unfold validateInput.file, validateInput.maxSize.
    destruct (existsb _ _); cbn [negb]; [|reflexivity].
    rewrite N.ltb_antisym.
    destruct (size f <=? 10 * 1024 * 1024)%N; cbn [negb]; [|reflexivity].
    by rewrite Hn. }
  assert (Hinv : validateInput.valid (validateInput.file f) = false)
    by (by rewrite Hfile).
  split; [exact Hfile|]. split; [|split; [|split]].
  - rewrite Hfile. cbn [validateInput.error]. subst message.
    destruct typeOk, sizeOk; cbn [negb]; split;
      [done | done | | intros [_ [=]] | | intros [[=] _] | | intros [[=] _]].
    all: intros H; exfalso; vm_compute in H; discriminate H.
  - intros files. rewrite processFiles_kept, list_elem_of_In, filter_In.
    intros [_ Hv]. congruence.
  - intros r u w. apply uploadPhoto_throws. rewrite Hinv.
    by rewrite andb_false_r.
  - intros r u w Hr Hu. unfold uploadPhoto. rewrite Hr, Hu, Hfile.
    cbn [negb validateInput.valid validateInput.error opt_or_else].
    assert (Hm : or_else message (js "Invalid file") = message).
    { subst message. destruct (negb typeOk), (negb sizeOk);
        vm_compute; reflexivity. }
    by rewrite Hm.
Qed.

End ValidationFacts.


(** C7 (as stated) fails: the content type is allowed, the size is below
    10 MiB, the uploader name and the room id are well formed, and yet the
    validation step rejects the file. *)
Lemma uploadPhoto_rejects_double_dot :
  existsb (eqb (type doubleDot)) validateInput.allowedTypes = true
  ∧ (size doubleDot <= 10 * 1024 * 1024)%N
  ∧ validateInput.userName Scripted.user = true
  ∧ validateInput.roomId Scripted.room = true
  ∧ uploadPhoto Scripted.room doubleDot Scripted.user (Scripted.start [])
    = mkRun [] (Scripted.start []) (Throw (Error (js "Invalid filename."))).
Proof. vm_compute. repeat split; try reflexivity. discriminate. Qed.

(** The amended C7 on a file that is refused and on one that is sent. *)
Lemma uploadPhoto_validation_witness :
  (∃ msg, uploadPhoto Scripted.room doubleDot Scripted.user (Scripted.start [])
          = mkRun [] (Scripted.start []) (Throw (Error msg)))
  ∧ uploadPhoto Scripted.room (Scripted.image "a.jpg") Scripted.user
      (Scripted.start [])
    = mkRun [PostUpload Scripted.room (Scripted.image "a.jpg")
               (sanitizeInput Scripted.user)]
        (post_upload Scripted.room (Scripted.image "a.jpg")
           (sanitizeInput Scripted.user) (Scripted.start [])).2
        (post_upload Scripted.room (Scripted.image "a.jpg")
           (sanitizeInput Scripted.user) (Scripted.start [])).1.
Proof.
  split.
  - apply (proj1 (uploadPhoto_validation Scripted.room doubleDot Scripted.user
                    (Scripted.start []))).
    vm_compute. reflexivity.
  - apply (proj2 (uploadPhoto_validation Scripted.room (Scripted.image "a.jpg")
                    Scripted.user (Scripted.start []))).
    vm_compute. reflexivity.
Defined.

(** C10 (as stated) fails: the name holds a ['/'], and the error is the one
    of the content type, from [validateInput.file] and from
    [photoApi.uploadPhoto] alike. *)
Lemma suspicious_name_other_error :
  includes (name slashName) (js "/") = true
  ∧ validateInput.file slashName
    = {| validateInput.valid := false;
         validateInput.error :=
           Some (js "Invalid file type. Only JPEG, PNG, GIF, and WebP are allowed.") |}
  ∧ validateInput.error (validateInput.file slashName)
    ≠ Some (js "Invalid filename.")
  ∧ uploadPhoto Scripted.room slashName Scripted.user (Scripted.start [])
    = mkRun [] (Scripted.start [])
        (Throw (Error (js "Invalid file type. Only JPEG, PNG, GIF, and WebP are allowed."))).
Proof. vm_compute. repeat split; try reflexivity. discriminate. Qed.

(** The amended C10 on ['trip..jpg'], an image of 2 KiB. *)
Lemma suspicious_filename_rejected_witness :
  validateInput.error (validateInput.file doubleDot)
  = Some (js "Invalid filename.").
Proof.
  refine (proj2 (proj1 (proj2 (suspicious_filename_rejected
                                 (World := Scripted.World) doubleDot _))) _).
  - vm_compute. reflexivity.
  - vm_compute. split; reflexivity.
Defined.

(** ** The gallery: visibility and reactions *)

Lemma with_like_count_same (p : Photo) : with_like_count (like_count p) p = p.
Proof. by destruct p. Qed.

Lemma with_dislike_count_same (p : Photo) :
  with_dislike_count (dislike_count p) p = p.
Proof. by destruct p. Qed.

Lemma with_like_count_twice (n m : Z) (p : Photo) :
  with_like_count n (with_like_count m p) = with_like_count n p.
Proof. reflexivity. Qed.

Lemma with_dislike_count_twice (n m : Z) (p : Photo) :
  with_dislike_count n (with_dislike_count m p) = with_dislike_count n p.
Proof. reflexivity. Qed.

Lemma has_true (x : JSString) (s : gset JSString) :
  PhotoGallery.has x s = true ↔ x ∈ s.
Proof. unfold PhotoGallery.has. apply bool_decide_eq_true. Qed.

Lemma has_false (x : JSString) (s : gset JSString) :
  PhotoGallery.has x s = false ↔ x ∉ s.
Proof. unfold PhotoGallery.has. apply bool_decide_eq_false. Qed.

Lemma has_toggled (x : JSString) (s : gset JSString) :
  PhotoGallery.has x (PhotoGallery.toggled x s) = negb (PhotoGallery.has x s).
Proof.
  unfold PhotoGallery.toggled. destruct (PhotoGallery.has x s) eqn:E; simpl.
  - apply has_false. set_solver.
  - apply has_true. set_solver.
Qed.

Lemma toggled_twice (x : JSString) (s : gset JSString) :
  PhotoGallery.toggled x (PhotoGallery.toggled x s) = s.
Proof.
  unfold PhotoGallery.toggled at 1. rewrite has_toggled.
  unfold PhotoGallery.toggled. destruct (PhotoGallery.has x s) eqn:E; simpl.
  - apply has_true in E. apply set_eq. intros y.
    destruct (decide (y = x)); set_solver.
  - apply has_false in E. set_solver.
Qed.

Lemma visiblePhotos_spec (l : list Photo) (p : Photo) :
  p ∈ PhotoGallery.visiblePhotos l ↔ p ∈ l ∧ dislike_count p = 0.
Proof.
  unfold PhotoGallery.visiblePhotos.
  rewrite !list_elem_of_In, filter_In, Z.eqb_eq. reflexivity.
Qed.

Lemma likeToggled_twice (photoId : JSString) (st : PhotoGallery.State) :
  likeToggled photoId (likeToggled photoId st) = st.
Proof.
  destruct st as [u likes dislikes photos]. unfold likeToggled. simpl.
  rewrite toggled_twice, has_toggled. f_equal.
  rewrite map_map. rewrite <- (map_id photos) at 2.
  apply map_ext. intros p.
  destruct (eqb (id p) photoId) eqn:E; simpl; [|by rewrite E].
  rewrite E. rewrite with_like_count_twice.
  destruct (PhotoGallery.has photoId likes); simpl;
    rewrite <- (with_like_count_same p) at 3; f_equal; lia.
Qed.

Lemma dislikeToggled_twice (photoId : JSString) (st : PhotoGallery.State) :
  dislikeToggled photoId (dislikeToggled photoId st) = st.
Proof.
  destruct st as [u likes dislikes photos]. unfold dislikeToggled. simpl.
  rewrite toggled_twice, has_toggled. f_equal.
  rewrite map_map. rewrite <- (map_id photos) at 2.
  apply map_ext. intros p.
  destruct (eqb (id p) photoId) eqn:E; simpl; [|by rewrite E].
  rewrite E. rewrite with_dislike_count_twice.
  destruct (PhotoGallery.has photoId dislikes); simpl;
    rewrite <- (with_dislike_count_same p) at 3; f_equal; lia.
Qed.

Section GalleryFacts.
Context {World : Type} {backend : Backend World}.

Lemma handleLike_done (photoId : JSString) (st : PhotoGallery.State)
  (w : World) (x : Reaction) :
  value (toggleLike photoId (PhotoGallery.userName st) w) = Return x →
  PhotoGallery.handleLike photoId st w
  = mkRun (trace (toggleLike photoId (PhotoGallery.userName st) w))
      (world (toggleLike photoId (PhotoGallery.userName st) w))
      (Return (likeToggled photoId st)).
Proof.
  intros Hx. unfold PhotoGallery.handleLike.
  assert (Hu : truthy (PhotoGallery.userName st) = true).
  { destruct (PhotoGallery.userName st) eqn:E; [|reflexivity].
    unfold toggleLike in Hx.
    destruct (validateInput.roomId photoId); discriminate Hx. }
  rewrite Hu. cbn [negb]. unfold try_catch, bind. cbn zeta.
  rewrite Hx. cbn. by rewrite app_nil_r.
Qed.

Lemma handleDislike_done (photoId : JSString) (st : PhotoGallery.State)
  (w : World) (x : Reaction) :
  value (toggleDislike photoId (PhotoGallery.userName st) w) = Return x →
  PhotoGallery.handleDislike photoId st w
  = mkRun (trace (toggleDislike photoId (PhotoGallery.userName st) w))
      (world (toggleDislike photoId (PhotoGallery.userName st) w))
      (Return (dislikeToggled photoId st)).
Proof.
  intros Hx. unfold PhotoGallery.handleDislike.
  assert (Hu : truthy (PhotoGallery.userName st) = true).
  { destruct (PhotoGallery.userName st) eqn:E; [|reflexivity].
    unfold toggleDislike in Hx.
    destruct (validateInput.roomId photoId); discriminate Hx. }
  rewrite Hu. cbn [negb]. unfold try_catch, bind. cbn zeta.
  rewrite Hx. cbn. by rewrite app_nil_r.
Qed.

End GalleryFacts.


Section ReactionFacts.
Context {World : Type} {backend : Backend World}.


(** C1. A photo is in the visible set of the gallery exactly when it is in
    the photo list with [dislike_count] equal to 0; a photo with
    [dislike_count >= 1] is not in the visible set; and when the user removes
    the only dislike of a photo, the same record with its counter back at 0
    is in the visible set of the resulting list, which holds the same photos
    in the same order and was obtained without any upload request. *)
Theorem visible_iff_no_dislike :
  (∀ (l : list Photo) (p : Photo),
     p ∈ PhotoGallery.visiblePhotos l ↔ p ∈ l ∧ dislike_count p = 0)
  ∧ (∀ (l : list Photo) (p : Photo),
       1 ≤ dislike_count p → p ∉ PhotoGallery.visiblePhotos l)
  ∧ (∀ (photoId : JSString) (st : PhotoGallery.State) (w : World)
       (x : Reaction) (photo : Photo),
       value (toggleDislike photoId (PhotoGallery.userName st) w) = Return x →
       PhotoGallery.has photoId (PhotoGallery.userDislikes st) = true →
       photo ∈ PhotoGallery.localPhotos st →
       id photo = photoId → dislike_count photo = 1 →
       (photo ∉ PhotoGallery.visiblePhotos (PhotoGallery.localPhotos st))
       ∧ ∃ st',
           value (PhotoGallery.handleDislike photoId st w) = Return st'
           ∧ with_dislike_count 0 photo
             ∈ PhotoGallery.visiblePhotos (PhotoGallery.localPhotos st')
           ∧ map id (PhotoGallery.localPhotos st')
             = map id (PhotoGallery.localPhotos st)
           ∧ List.filter isUploadRequest
               (trace (PhotoGallery.handleDislike photoId st w)) = []).
Proof.
  split; [exact visiblePhotos_spec|]. split.
  - intros l p Hp Hin. apply visiblePhotos_spec in Hin. lia.
  - intros photoId st w x photo Hx Hd Hin Hid Hc. split.
    + intros Hv. apply visiblePhotos_spec in Hv. lia.
    + exists (dislikeToggled photoId st).
      rewrite (handleDislike_done _ _ _ _ Hx). cbn [value trace].
      split; [reflexivity|]. split; [|split].
      * apply visiblePhotos_spec. split; [|reflexivity].
        unfold dislikeToggled. cbn [PhotoGallery.localPhotos].
        apply list_elem_of_fmap. exists photo. split; [|exact Hin].
        rewrite Hd. apply eqb_true in Hid. rewrite Hid.
        f_equal. lia.
      * unfold dislikeToggled. cbn [PhotoGallery.localPhotos].
        rewrite map_map. apply map_ext. intros p.
        by destruct (eqb (id p) photoId).
      * unfold toggleDislike in *.
        destruct (validateInput.roomId photoId); [|discriminate Hx].
        destruct (validateInput.userName (PhotoGallery.userName st));
          [|discriminate Hx].
        reflexivity.
Qed.

(** C6. For either kind of reaction, two toggles in sequence whose requests
    both succeed bring the gallery back to the state before the first one: the
    user's active flag, flipped by the first toggle, and the counter of every
    photo have their initial values again. *)
Theorem toggle_twice_restores (kind : ReactionKind) (photoId : JSString)
  (st : PhotoGallery.State) (w : World) (x1 x2 : Reaction) :
  let w1 := world (request kind photoId (PhotoGallery.userName st) w) in
  value (request kind photoId (PhotoGallery.userName st) w) = Return x1 →
  value (request kind photoId (PhotoGallery.userName st) w1) = Return x2 →
  ∃ st1 st2,
    value (handle kind photoId st w) = Return st1
    ∧ world (handle kind photoId st w) = w1
    ∧ value (handle kind photoId st1 w1) = Return st2
    ∧ active kind photoId st1 = negb (active kind photoId st)
    ∧ active kind photoId st2 = active kind photoId st
    ∧ map (counter kind) (PhotoGallery.localPhotos st2)
      = map (counter kind) (PhotoGallery.localPhotos st)
    ∧ st2 = st.
Proof.
  intros w1 H1 H2. destruct kind; cbn [request handle active] in *.
  - exists (likeToggled photoId st), st.
    rewrite (handleLike_done _ _ _ _ H1). cbn [value world].
    assert (Hu : PhotoGallery.userName (likeToggled photoId st)
                 = PhotoGallery.userName st) by reflexivity.
    rewrite <- Hu in H2. rewrite (handleLike_done _ _ _ _ H2).
    cbn [value world]. rewrite likeToggled_twice.
    repeat split; try reflexivity.
    apply has_toggled.
  - exists (dislikeToggled photoId st), st.
    rewrite (handleDislike_done _ _ _ _ H1). cbn [value world].
    assert (Hu : PhotoGallery.userName (dislikeToggled photoId st)
                 = PhotoGallery.userName st) by reflexivity.
    rewrite <- Hu in H2. rewrite (handleDislike_done _ _ _ _ H2).
    cbn [value world]. rewrite dislikeToggled_twice.
    repeat split; try reflexivity.
    apply has_toggled.
Qed.

End ReactionFacts.


Lemma visible_iff_no_dislike_witness :
  ∃ st',
    value (PhotoGallery.handleDislike Scripted.photo1 sampleGallery
             (Scripted.start [])) = Return st'
    ∧ with_dislike_count 0 (Scripted.aPhoto Scripted.photo1 3 1)
      ∈ PhotoGallery.visiblePhotos (PhotoGallery.localPhotos st').
Proof.
  destruct (proj2 (proj2 (visible_iff_no_dislike (World := Scripted.World)))
              Scripted.photo1 sampleGallery (Scripted.start [])
              (Scripted.reaction Scripted.photo1 Scripted.user)
              (Scripted.aPhoto Scripted.photo1 3 1))
    as [_ (st' & H1 & H2 & _)].
  - vm_compute. reflexivity.
  - apply has_true. set_solver.
  - set_solver.
  - reflexivity.
  - reflexivity.
  - exists st'. split; assumption.
Defined.

Lemma toggle_twice_restores_witness :
  ∃ st1 st2,
    value (PhotoGallery.handleLike Scripted.photo1 sampleGallery
             (Scripted.start [])) = Return st1
    ∧ value (PhotoGallery.handleLike Scripted.photo1 st1 (Scripted.start []))
      = Return st2
    ∧ st2 = sampleGallery.
Proof.
  destruct (toggle_twice_restores (World := Scripted.World) Like
              Scripted.photo1 sampleGallery (Scripted.start [])
              (Scripted.reaction Scripted.photo1 Scripted.user)
              (Scripted.reaction Scripted.photo1 Scripted.user))
    as (st1 & st2 & H1 & _ & H2 & _ & _ & _ & H3).
  - vm_compute. reflexivity.
  - vm_compute. reflexivity.
  - exists st1, st2. repeat split; assumption.
Defined.

(** ** Sub-batches *)

Lemma subBatchesUpTo_enough {A : Type} (n : nat) (l : list A) (b1 b2 : nat) :
  (1 ≤ n)%nat → (length l ≤ b1)%nat → (length l ≤ b2)%nat →
  subBatchesUpTo b1 n l = subBatchesUpTo b2 n l.
Proof.
  intros Hn. revert l b2.
  induction b1 as [|b1 IH]; intros l b2 H1 H2.
  - destruct l; [|simpl in H1; lia]. by destruct b2.
  - destruct l as [|x l]; [by destruct b2|].
    destruct b2 as [|b2]; [simpl in H2; lia|].
    simpl. f_equal. apply IH; rewrite length_drop; simpl in *; lia.
Qed.

Lemma subBatches_nil {A : Type} (n : nat) : subBatches n (@nil A) = [].
Proof. reflexivity. Qed.

Lemma subBatches_cons {A : Type} (n : nat) (l : list A) :
  (1 ≤ n)%nat → l ≠ [] →
  subBatches n l = take n l :: subBatches n (drop n l).
Proof.
  intros Hn Hl. unfold subBatches.
  destruct l as [|x l]; [done|]. cbn [length subBatchesUpTo]. f_equal.
  apply subBatchesUpTo_enough; [done| |done].
  rewrite length_drop. simpl. lia.
Qed.

Lemma subBatches_partitioned {A : Type} (n : nat) (l : list A) :
  (1 ≤ n)%nat → l ≠ [] → partitioned n l (subBatches n l).
Proof.
  intros Hn. remember (length l) as k eqn:Hk. revert l Hk.
  induction (lt_wf k) as [k _ IH]. intros l -> Hl.
  rewrite subBatches_cons by done.
  destruct (decide (drop n l = [])) as [Hd|Hd].
  - rewrite Hd, subBatches_nil. split.
    + simpl. rewrite app_nil_r. rewrite <- (take_drop n l) at 2.
      by rewrite Hd, app_nil_r.
    + exists [], (take n l). split; [done|]. split; [constructor|].
      rewrite length_take. destruct l; [done|]. simpl. lia.
  - assert (Hlen : (n < length l)%nat).
    { destruct (decide (n < length l)%nat); [done|].
      exfalso. apply Hd. apply drop_ge. lia. }
    destruct (IH (length (drop n l))) with (l := drop n l)
      as [Hc (full & last & Hb & Hf & Hlast)]; [|done|done|].
    { rewrite length_drop. lia. }
    split.
    + simpl. rewrite Hc. apply take_drop.
    + exists (take n l :: full), last. rewrite Hb. split; [done|].
      split; [|done]. constructor; [|done]. rewrite length_take. lia.
Qed.


Lemma joinWith_cons {A : Type} (sep l : list A) (ls : list (list A)) :
  joinWith sep (l :: ls)
  = l ++ (if decide (ls = []) then [] else sep ++ joinWith sep ls).
Proof.
  destruct ls; simpl; [by rewrite app_nil_r | reflexivity].
Qed.

Lemma subBatches_empty_iff {A : Type} (n : nat) (l : list A) :
  subBatches n l = [] ↔ l = [].
Proof.
  split; [|intros ->; reflexivity].
  destruct l; [done|]. discriminate.
Qed.

(** ** Runs in sequence *)

Lemma bind_of_run {World A B : Type} (m : Async World Event A)
  (f : A → Async World Event B) (w w' : World) (t : list Event) (a : A) :
  m w = mkRun t w' (Return a) →
  bind m f w = mkRun (t ++ trace (f a w')) (world (f a w')) (value (f a w')).
Proof. intros H. unfold bind. rewrite H. reflexivity. Qed.

Lemma bind_of_throw {World A B : Type} (m : Async World Event A)
  (f : A → Async World Event B) (w : World) (e : JSError) :
  value (m w) = Throw e →
  bind m f w = mkRun (trace (m w)) (world (m w)) (Throw e).
Proof. intros H. unfold bind. rewrite H. reflexivity. Qed.

Lemma run_eta {World A : Type} (r : Run World Event A) :
  r = mkRun (trace r) (world r) (value r).
Proof. by destruct r. Qed.

Lemma bind_trace {World A B : Type} (m : Async World Event A)
  (f : A → Async World Event B) (w : World) :
  trace (bind m f w)
  = trace (m w)
    ++ match value (m w) with
       | Return a => trace (f a (world (m w)))
       | Throw _ => []
       end.
Proof. unfold bind. destruct (value (m w)); cbn; by rewrite ?app_nil_r. Qed.

Lemma forEach_filter_nil {World A B : Type} (P : Event → bool)
  (f : A → Async World Event B) (l : list A) (w : World) :
  (∀ x w', List.filter P (trace (f x w')) = []) →
  List.filter P (trace (forEach f l w)) = [].
Proof.
  intros Hf. revert w. induction l as [|x l IH]; intros w; [reflexivity|].
  cbn [forEach]. rewrite bind_trace, List.filter_app, Hf.
  destruct (value (f x w)); [|reflexivity].
  rewrite bind_trace, List.filter_app, IH.
  by destruct (value (forEach f l (world (f x w)))).
Qed.

Lemma joinWith_filter_nil {A : Type} (P : A → bool) (sep : list A)
  (ls : list (list A)) :
  List.filter P sep = [] → Forall (fun l => List.filter P l = []) ls →
  List.filter P (joinWith sep ls) = [].
Proof.
  intros Hsep Hls. induction Hls as [|l ls Hl Hls IH]; [reflexivity|].
  rewrite joinWith_cons, List.filter_app, Hl.
  destruct (decide (ls = [])); [reflexivity|].
  by rewrite List.filter_app, Hsep, IH.
Qed.

Lemma elem_of_filter_nil {A : Type} (P : A → bool) (l : list A) (x : A) :
  List.filter P l = [] → x ∈ l → P x = false.
Proof.
  intros Hf Hx. destruct (P x) eqn:E; [|reflexivity].
  assert (Hin : In x (List.filter P l))
    by (apply filter_In; split; [by apply list_elem_of_In | done]).
  rewrite Hf in Hin. destruct Hin.
Qed.

Lemma runs_length {World A B : Type} (m : A → Async World Event B)
  (l : list A) (w : World) : length (runs m l w) = length l.
Proof. revert w. induction l; intros w; simpl; [done | by rewrite IHl]. Qed.

Lemma runs_app {World A B : Type} (m : A → Async World Event B)
  (l1 l2 : list A) (w : World) :
  runs m (l1 ++ l2) w = runs m l1 w ++ runs m l2 (worldAfter m l1 w).
Proof. revert w. induction l1; intros w; simpl; [done | by rewrite IHl1]. Qed.

Lemma worldAfter_app {World A B : Type} (m : A → Async World Event B)
  (l1 l2 : list A) (w : World) :
  worldAfter m (l1 ++ l2) w = worldAfter m l2 (worldAfter m l1 w).
Proof. revert w. induction l1; intros w; simpl; [done | by rewrite IHl1]. Qed.

Lemma countReturned_app {A : Type} (a b : list (Completion A)) :
  countReturned (a ++ b) = (countReturned a + countReturned b)%nat.
Proof. unfold countReturned. by rewrite List.filter_app, length_app. Qed.

Lemma countThrown_app {A : Type} (a b : list (Completion A)) :
  countThrown (a ++ b) = (countThrown a + countThrown b)%nat.
Proof. unfold countThrown. by rewrite List.filter_app, length_app. Qed.

Lemma count_total {A : Type} (cs : list (Completion A)) :
  (countReturned cs + countThrown cs)%nat = length cs.
Proof.
  unfold countReturned, countThrown.
  induction cs as [|[a|e] cs IH]; simpl; lia.
Qed.

Lemma forEach_length {World A B : Type} (f : A → Async World Event B)
  (l : list A) (w : World) (ys : list B) :
  value (forEach f l w) = Return ys → length ys = length l.
Proof.
  revert w ys. induction l as [|x l IH]; intros w ys; simpl.
  - by intros [= <-].
  - unfold bind. destruct (value (f x w)) as [y|e]; [|discriminate].
    cbn. destruct (value (forEach f l (world (f x w)))) as [ys'|e] eqn:E;
      [|discriminate].
    cbn. intros [= <-]. simpl. f_equal. by eapply IH.
Qed.

(** ** The uploader with bookkeeping: one file, one sub-batch, the loop *)

Section LoggingFacts.
Context {World : Type} {backend : Backend World}.
Variable roomId : JSString.
Variable userName : JSString.

Local Abbreviation send := (submit roomId userName).
Local Abbreviation completions :=
  (fun entries w => map value (runs send entries w)).

Lemma submit_trace (entry : File * UploadLog) (w : World) :
  trace (send entry w)
  = [UploadPhotoWithLogging roomId entry.1 userName (log_id entry.2)].
Proof.
  unfold submit, bind, emit, respond. reflexivity.
Qed.

Lemma failedOf_cons (entry : File * UploadLog) (entries : list (File * UploadLog))
  (c : Completion Photo) (cs : list (Completion Photo)) :
  failedOf (entry :: entries) (c :: cs)
  = (if isThrow c then [entry.2] else []) ++ failedOf entries cs.
Proof. unfold failedOf. simpl. by destruct (isThrow c). Qed.

Lemma failedOf_app (l1 l2 : list (File * UploadLog))
  (cs1 cs2 : list (Completion Photo)) :
  length l1 = length cs1 →
  failedOf (l1 ++ l2) (cs1 ++ cs2) = failedOf l1 cs1 ++ failedOf l2 cs2.
Proof.
  intros H. unfold failedOf.
  rewrite zip_with_app by done. by rewrite List.filter_app, map_app.
Qed.

Lemma uploadOne_run (entry : File * UploadLog) (failedLogs : list UploadLog)
  (w : World) :
  PhotoUploadLogging.uploadOne roomId userName entry failedLogs w
  = mkRun (trace (send entry w)) (world (send entry w))
      (Return (resultOf entry (value (send entry w)),
               failedLogs
               ++ (if isThrow (value (send entry w)) then [entry.2] else []))).
Proof.
  destruct entry as [file log].
  unfold PhotoUploadLogging.uploadOne, submit, try_catch, bind, emit,
    respond, ret. simpl.
  destruct (uploadPhotoWithLogging roomId file userName (log_id log) w)
    as [[photo|e] w']; simpl; by rewrite ?app_nil_r.
Qed.

Lemma uploadBatch_run (batch : list (File * UploadLog))
  (failedLogs : list UploadLog) (w : World) :
  PhotoUploadLogging.uploadBatch roomId userName batch failedLogs w
  = mkRun
      (map (fun entry =>
              UploadPhotoWithLogging roomId entry.1 userName (log_id entry.2))
         batch)
      (worldAfter send batch w)
      (Return (zip_with resultOf batch (completions batch w),
               failedLogs ++ failedOf batch (completions batch w))).
Proof.
  revert failedLogs w. induction batch as [|entry batch IH]; intros fl w.
  - simpl. unfold ret, failedOf. simpl. by rewrite app_nil_r.
  - cbn [PhotoUploadLogging.uploadBatch].
    erewrite bind_of_run by apply uploadOne_run.
    erewrite bind_of_run by apply IH.
    unfold ret. cbn [value world trace fst snd].
    rewrite submit_trace. cbn [runs map worldAfter zip_with].
    rewrite failedOf_cons, app_nil_r, <- app_assoc. reflexivity.
Qed.

Lemma fold_count (entries : list (File * UploadLog))
  (cs : list (Completion Photo)) (acc : nat * nat) :
  length entries = length cs →
  fold_left PhotoUploadLogging.count (zip_with resultOf entries cs) acc
  = ((acc.1 + countReturned cs)%nat, (acc.2 + countThrown cs)%nat).
Proof.
  revert cs acc. induction entries as [|entry entries IH];
    intros [|c cs] acc H; try discriminate H.
  - destruct acc. simpl. unfold countReturned, countThrown. simpl.
    f_equal; lia.
  - simpl. rewrite IH by (simpl in H; lia).
    unfold countReturned, countThrown.
    destruct c; simpl; f_equal; lia.
Qed.

Lemma iteration_run (fileLogPairs : list (File * UploadLog)) (i : nat)
  (p : PhotoUploadLogging.Progress) (w : World) :
  let batch := take 5 (drop i fileLogPairs) in
  PhotoUploadLogging.iteration roomId userName fileLogPairs i p w
  = mkRun
      (batchEvents roomId userName batch
       ++ (if (i + 5 <? length fileLogPairs)%nat then [Delay 4000] else []))
      (worldAfter send batch w)
      (Return
         {| PhotoUploadLogging.completedCount :=
              PhotoUploadLogging.completedCount p
              + countReturned (completions batch w);
            PhotoUploadLogging.failedCount :=
              PhotoUploadLogging.failedCount p
              + countThrown (completions batch w);
            PhotoUploadLogging.failedLogs :=
              PhotoUploadLogging.failedLogs p
              ++ failedOf batch (completions batch w) |}).
Proof.
  intros batch. unfold PhotoUploadLogging.iteration.
  assert (Hs : slice i (i + PhotoUploadLogging.BATCH_SIZE) fileLogPairs = batch).
  { unfold slice, PhotoUploadLogging.BATCH_SIZE. subst batch. f_equal. lia. }
  rewrite Hs. cbn zeta. erewrite bind_of_run by apply uploadBatch_run.
  cbn [value world trace fst snd].
  rewrite fold_count by (by rewrite length_map, runs_length).
  cbn [fst snd]. unfold PhotoUploadLogging.BATCH_SIZE, PhotoUploadLogging.BATCH_DELAY.
  unfold batchEvents.
  destruct (i + 5 <? length fileLogPairs)%nat;
    unfold bind, emit, ret; cbn [value world trace];
    rewrite ?app_nil_r, <- ?app_assoc; reflexivity.
Qed.

Lemma completions_app (l1 l2 : list (File * UploadLog)) (w : World) :
  completions (l1 ++ l2) w
  = completions l1 w ++ completions l2 (worldAfter send l1 w).
Proof. cbn beta. by rewrite runs_app, map_app. Qed.

(** The state of the loop after the entries [rest] have been processed from
    the progress [p] and the world [w]. *)
Lemma progress_nil (p : PhotoUploadLogging.Progress) :
  {| PhotoUploadLogging.completedCount :=
       PhotoUploadLogging.completedCount p + countReturned (@nil (Completion Photo));
     PhotoUploadLogging.failedCount :=
       PhotoUploadLogging.failedCount p + countThrown (@nil (Completion Photo));
     PhotoUploadLogging.failedLogs :=
       PhotoUploadLogging.failedLogs p ++ failedOf [] [] |} = p.
Proof.
  destruct p. unfold countReturned, countThrown, failedOf. simpl.
  f_equal; [lia | lia | apply app_nil_r].
Qed.

Lemma batchLoop_run (fileLogPairs : list (File * UploadLog)) (k i : nat)
  (p : PhotoUploadLogging.Progress) (w : World) :
  (length fileLogPairs - i ≤ k)%nat →
  PhotoUploadLogging.batchLoop roomId userName fileLogPairs i p w
  = mkRun
      (joinWith [Delay 4000]
         (map (batchEvents roomId userName)
            (subBatches 5 (drop i fileLogPairs))))
      (worldAfter send (drop i fileLogPairs) w)
      (Return
         {| PhotoUploadLogging.completedCount :=
              PhotoUploadLogging.completedCount p
              + countReturned (completions (drop i fileLogPairs) w);
            PhotoUploadLogging.failedCount :=
              PhotoUploadLogging.failedCount p
              + countThrown (completions (drop i fileLogPairs) w);
            PhotoUploadLogging.failedLogs :=
              PhotoUploadLogging.failedLogs p
              ++ failedOf (drop i fileLogPairs)
                   (completions (drop i fileLogPairs) w) |}).
Proof.
  revert i p w. induction k as [|k IH]; intros i p w Hk;
    rewrite PhotoUploadLogging.batchLoop_equation_1;
    destruct (decide (i < length fileLogPairs)%nat) as [Hlt|Hge];
    try lia.
  - cbn. rewrite drop_ge by lia. cbn. unfold ret. by rewrite progress_nil.
  - rewrite PhotoUploadLogging.batchLoop_clause_1_equation_1.
    erewrite bind_of_run by apply iteration_run.
    unfold PhotoUploadLogging.BATCH_SIZE.
    rewrite IH by lia. cbn [trace world value].
    cbn [PhotoUploadLogging.completedCount PhotoUploadLogging.failedCount
         PhotoUploadLogging.failedLogs].
    assert (Hne : drop i fileLogPairs ≠ []).
    { intros He. apply (f_equal length) in He. rewrite length_drop in He.
      simpl in He. lia. }
    rewrite (subBatches_cons 5 (drop i fileLogPairs)) by (lia || done).
    rewrite drop_drop. cbn [map]. rewrite joinWith_cons.
    assert (Hr : drop i fileLogPairs
                 = take 5 (drop i fileLogPairs) ++ drop (i + 5) fileLogPairs).
    { by rewrite <- (drop_drop fileLogPairs), take_drop. }
    set (batch := take 5 (drop i fileLogPairs)) in *.
    set (rest := drop (i + 5) fileLogPairs) in *.
    assert (Hlen : length rest = (length fileLogPairs - (i + 5))%nat)
      by (subst rest; apply length_drop).
    clearbody batch rest. rewrite Hr.
    rewrite worldAfter_app, completions_app, countReturned_app,
      countThrown_app.
    rewrite failedOf_app by (by rewrite length_map, runs_length).
    f_equal.
    + rewrite <- app_assoc. f_equal.
      destruct (Nat.ltb_spec (i + 5) (length fileLogPairs)) as [H5|H5].
      * destruct (decide (map _ (subBatches 5 rest) = [])) as [He|_];
          [|reflexivity].
        apply map_eq_nil, subBatches_empty_iff in He. subst rest.
        simpl in Hlen. lia.
      * destruct rest; [reflexivity | simpl in Hlen; lia].
    + f_equal. f_equal; [lia | lia | by rewrite app_assoc].
  - cbn. rewrite drop_ge by lia. cbn. unfold ret. by rewrite progress_nil.
Qed.

Lemma createLogs_length (session : UploadSession) (files : list File)
  (w : World) (logs : list UploadLog) :
  value (PhotoUploadLogging.createLogs roomId session userName files w)
  = Return logs →
  length logs = length files.
Proof. apply forEach_length. Qed.

(** The four ways a call of [uploadFilesWithLogging] can go: the session is
    not created, a log is not created, the final update is refused, or the
    call returns its result. *)
Lemma uploadFilesWithLogging_run (files : list File) (w : World) :
  let c := {| sc_room_id := roomId; sc_user_name := userName;
              sc_total_files := length files |} in
  let w1 := (createSession c w).2 in
  let wrap := fun e : JSError =>
    Throw (A := UploadResult)
      (Error (js "업로드 세션 생성 실패: " ++ message e)) in
  match (createSession c w).1 with
  | Throw e =>
    PhotoUploadLogging.uploadFilesWithLogging roomId files userName w
    = mkRun [CreateSession c] w1 (wrap e)
  | Return session =>
    let created :=
      PhotoUploadLogging.createLogs roomId session userName files w1 in
    match value created with
    | Throw e =>
      PhotoUploadLogging.uploadFilesWithLogging roomId files userName w
      = mkRun (CreateSession c :: SetUploadSession session :: trace created)
          (world created) (wrap e)
    | Return logs =>
      let fileLogPairs := zip files logs in
      let cs := completions fileLogPairs (world created) in
      let w3 := worldAfter send fileLogPairs (world created) in
      let u := {| su_completed_files := countReturned cs;
                  su_failed_files := countThrown cs;
                  su_status :=
                    PhotoUploadLogging.finalStatus (countReturned cs)
                      (countThrown cs) |} in
      let result := {| result_session_id := session_id_ session;
                       result_total_files := length files;
                       successful_uploads := countReturned cs;
                       failed_uploads := countThrown cs;
                       failed_files := failedOf fileLogPairs cs |} in
      let loop :=
        joinWith [Delay 4000]
          (map (batchEvents roomId userName) (subBatches 5 fileLogPairs)) in
      match (updateSession (session_id_ session) u w3).1 with
      | Throw e =>
        PhotoUploadLogging.uploadFilesWithLogging roomId files userName w
        = mkRun (CreateSession c :: SetUploadSession session :: trace created
                 ++ SetUploadLogs logs :: loop
                 ++ [UpdateSession (session_id_ session) u])
            (updateSession (session_id_ session) u w3).2 (wrap e)
      | Return _ =>
        PhotoUploadLogging.uploadFilesWithLogging roomId files userName w
        = mkRun (CreateSession c :: SetUploadSession session :: trace created
                 ++ SetUploadLogs logs :: loop
                 ++ [UpdateSession (session_id_ session) u;
                     SetUploadResult (Some result)])
            (updateSession (session_id_ session) u w3).2 (Return result)
      end
    end
  end.
Proof.
  intros c w1 wrap.
  unfold PhotoUploadLogging.uploadFilesWithLogging. fold c.
  unfold try_catch. cbn zeta.
  erewrite (bind_of_run (emit (CreateSession c))) by reflexivity.
  cbn [trace world value app].
  destruct (createSession c w) as [[session|e] w1'] eqn:Hs; subst w1;
    cbn [fst snd].
  2:{ rewrite (bind_of_throw (respond (createSession c)) _ w e)
        by (unfold respond; rewrite Hs; reflexivity).
      cbn [trace world value]. unfold respond, throw. rewrite Hs.
      cbn. reflexivity. }
  erewrite (bind_of_run (respond (createSession c))) by
    (unfold respond; rewrite Hs; reflexivity).
  cbn [trace world value app fst snd].
  erewrite (bind_of_run (emit (SetUploadSession session))) by reflexivity.
  cbn [trace world value app].
  set (created := PhotoUploadLogging.createLogs roomId session userName files w1').
  destruct (value created) as [logs|e] eqn:Hl.
  2:{ rewrite (bind_of_throw _ _ _ e Hl). cbn. by rewrite app_nil_r. }
  erewrite (bind_of_run (PhotoUploadLogging.createLogs _ _ _ _))
    by (fold created; rewrite (run_eta created), Hl; reflexivity).
  erewrite (bind_of_run (emit (SetUploadLogs logs))) by reflexivity.
  cbn [trace world value app].
  erewrite bind_of_run
    by (apply (batchLoop_run _ (length (zip files logs))); lia).
  rewrite drop_0. cbn [PhotoUploadLogging.completedCount
    PhotoUploadLogging.failedCount PhotoUploadLogging.failedLogs].
  cbn [Nat.add app].
  erewrite (bind_of_run (emit _)) by reflexivity.
  cbn [trace world value]. fold created.
  set (u := {| su_completed_files := _ |}).
  set (w3 := worldAfter send (zip files logs) (world created)).
  destruct (updateSession (session_id_ session) u w3) as [[[]|e] w4] eqn:Hu;
    cbn [fst snd].
  - erewrite (bind_of_run (respond _))
      by (unfold respond; rewrite Hu; reflexivity).
    unfold bind, emit, ret. cbn [trace world value fst snd app].
    f_equal; rewrite ?app_nil_r, <- ?app_assoc; reflexivity.
  - rewrite (bind_of_throw (respond _) _ _ e)
      by (unfold respond; rewrite Hu; reflexivity).
    unfold respond, throw. rewrite Hu.
    cbn [trace world value fst snd app]. subst wrap. cbn beta.
    f_equal; rewrite ?app_nil_r, <- ?app_assoc; reflexivity.
Qed.

Lemma createLogs_no_update (session : UploadSession) (files : list File)
  (w : World) :
  List.filter isUpdateSession
    (trace (PhotoUploadLogging.createLogs roomId session userName files w)) = [].
Proof. apply forEach_filter_nil. intros x w'. reflexivity. Qed.

Lemma createLogs_no_upload (session : UploadSession) (files : list File)
  (w : World) :
  List.filter isUploadRequest
    (trace (PhotoUploadLogging.createLogs roomId session userName files w)) = [].
Proof. apply forEach_filter_nil. intros x w'. reflexivity. Qed.

Lemma loop_no_update (batches : list (list (File * UploadLog))) :
  List.filter isUpdateSession
    (joinWith [Delay 4000] (map (batchEvents roomId userName) batches)) = [].
Proof.
  apply joinWith_filter_nil; [reflexivity|].
  apply Forall_forall. intros l Hl.
  apply list_elem_of_fmap in Hl. destruct Hl as (b & -> & _).
  unfold batchEvents. rewrite List.filter_app. cbn.
  rewrite app_nil_r. induction b; [reflexivity | assumption].
Qed.

Lemma batchEvents_uploads (batch : list (File * UploadLog)) :
  List.filter isUploadRequest (batchEvents roomId userName batch)
  = map (fun entry =>
           UploadPhotoWithLogging roomId entry.1 userName (log_id entry.2))
      batch.
Proof.
  unfold batchEvents. rewrite List.filter_app. cbn. rewrite app_nil_r.
  induction batch as [|entry batch IH]; [reflexivity|].
  cbn. by rewrite IH.
Qed.

Lemma loop_uploads (k : nat) (entries : list (File * UploadLog)) :
  (length entries ≤ k)%nat →
  List.filter isUploadRequest
    (joinWith [Delay 4000]
       (map (batchEvents roomId userName) (subBatches 5 entries)))
  = map (fun entry =>
           UploadPhotoWithLogging roomId entry.1 userName (log_id entry.2))
      entries.
Proof.
  revert entries. induction k as [|k IH]; intros entries Hk.
  - destruct entries; [reflexivity | simpl in Hk; lia].
  - destruct (decide (entries = [])) as [->|Hne]; [reflexivity|].
    rewrite subBatches_cons by (lia || done). cbn [map].
    rewrite joinWith_cons, List.filter_app, batchEvents_uploads.
    etrans; [|apply (f_equal (map _) (take_drop 5 entries))].
    rewrite map_app. f_equal.
    destruct (decide (map _ _ = [])) as [He|_].
    + apply map_eq_nil, subBatches_empty_iff in He. by rewrite He.
    + rewrite List.filter_app. cbn [List.filter isUploadRequest app].
      apply IH. rewrite length_drop.
      destruct entries; [done | simpl in *; lia].
Qed.

Lemma finalStatus_spec (c f : nat) :
  (PhotoUploadLogging.finalStatus c f = completed ↔ f = 0%nat)
  ∧ (PhotoUploadLogging.finalStatus c f = failed ↔ c = 0%nat ∧ (0 < f)%nat)
  ∧ (PhotoUploadLogging.finalStatus c f = partially_failed
     ↔ (0 < c)%nat ∧ (0 < f)%nat)
  ∧ PhotoUploadLogging.finalStatus c f ≠ in_progress.
Proof.
  unfold PhotoUploadLogging.finalStatus.
  destruct (Nat.eqb_spec f 0), (Nat.eqb_spec c 0);
    repeat split; intros; try discriminate; try lia; try done.
Qed.

Lemma completions_length (entries : list (File * UploadLog)) (w : World) :
  length (completions entries w) = length entries.
Proof. cbn beta. by rewrite length_map, runs_length. Qed.

End LoggingFacts.

(** ** The session update and the isolation of failures *)

Section SessionFacts.
Context {World : Type} {backend : Backend World}.
Variable roomId : JSString.
Variable userName : JSString.

Lemma not_update_in (l : list Event) (sid : JSString)
  (upd : UploadSessionUpdate) :
  List.filter isUpdateSession l = [] → UpdateSession sid upd ∉ l.
Proof.
  intros Hf Hin. by pose proof (elem_of_filter_nil _ _ _ Hf Hin).
Qed.

(** C2. Whenever [uploadFilesWithLogging] sends the update that gives the
    session its final status, the completed and failed counts it sends add up
    to the number of files, which is the [total_files] the session was created
    with, and the status sent is [completed] exactly when no file failed,
    [failed] exactly when no file completed and at least one failed, and
    [partially_failed] in every other case. *)
Theorem terminal_session_counts (files : list File) (w : World)
  (sid : JSString) (upd : UploadSessionUpdate) :
  UpdateSession sid upd
  ∈ trace (PhotoUploadLogging.uploadFilesWithLogging roomId files userName w) →
  hd_error
    (trace (PhotoUploadLogging.uploadFilesWithLogging roomId files userName w))
  = Some (CreateSession {| sc_room_id := roomId; sc_user_name := userName;
                           sc_total_files := length files |})
  ∧ (su_completed_files upd + su_failed_files upd)%nat = length files
  ∧ (su_status upd = completed ↔ su_failed_files upd = 0%nat)
  ∧ (su_status upd = failed
     ↔ su_completed_files upd = 0%nat ∧ (0 < su_failed_files upd)%nat)
  ∧ (su_status upd = partially_failed
     ↔ su_failed_files upd ≠ 0%nat
       ∧ ¬ (su_completed_files upd = 0%nat ∧ (0 < su_failed_files upd)%nat))
  ∧ su_status upd ≠ in_progress.
Proof.
  intros Hin.
  assert (Hf : UpdateSession sid upd
               ∈ List.filter isUpdateSession
                   (trace (PhotoUploadLogging.uploadFilesWithLogging roomId
                             files userName w))).
  { apply list_elem_of_In, filter_In. split; [by apply list_elem_of_In|done]. }
  clear Hin.
  pose proof (uploadFilesWithLogging_run roomId userName files w) as Hrun.
  cbn zeta in Hrun.
  destruct (createSession _ w).1 as [session|e].
  2:{ rewrite Hrun in Hf. cbn in Hf. by apply elem_of_nil in Hf. }
  destruct (value (PhotoUploadLogging.createLogs roomId session userName files _))
    as [logs|e] eqn:Hlogs.
  2:{ rewrite Hrun in Hf. cbn [trace List.filter isUpdateSession] in Hf.
      rewrite createLogs_no_update in Hf. by apply elem_of_nil in Hf. }
  apply createLogs_length in Hlogs.
  set (cs := map value (runs _ (zip files logs) _)) in Hrun.
  assert (Hcs : (countReturned cs + countThrown cs)%nat = length files).
  { rewrite count_total. subst cs. rewrite length_map, runs_length.
    rewrite length_zip_with. lia. }
  assert (Hupd : upd = {| su_completed_files := countReturned cs;
                          su_failed_files := countThrown cs;
                          su_status :=
                            PhotoUploadLogging.finalStatus (countReturned cs)
                              (countThrown cs) |}
                 ∧ hd_error
                     (trace (PhotoUploadLogging.uploadFilesWithLogging roomId
                               files userName w))
                   = Some (CreateSession
                             {| sc_room_id := roomId; sc_user_name := userName;
                                sc_total_files := length files |})).
  { destruct (updateSession _ _ _).1; rewrite Hrun in Hf |- *;
      cbn [trace List.filter isUpdateSession] in Hf;
      rewrite List.filter_app, createLogs_no_update in Hf;
      cbn [app List.filter isUpdateSession] in Hf;
      rewrite List.filter_app, loop_no_update in Hf;
      cbn in Hf; apply list_elem_of_singleton in Hf;
      (split; [by injection Hf | reflexivity]). }
  destruct Hupd as [-> Hhd]. cbn [su_completed_files su_failed_files su_status].
  destruct (finalStatus_spec (countReturned cs) (countThrown cs))
    as (H1 & H2 & H3 & H4).
  split; [exact Hhd|]. split; [exact Hcs|]. split; [exact H1|].
  split; [exact H2|]. split; [|exact H4].
  rewrite H3. lia.
Qed.

End SessionFacts.

(** Seven files of which the third is a duplicate and the sixth meets a
    server error. *)
Lemma terminal_session_counts_witness :
  let upd := {| su_completed_files := 5; su_failed_files := 2;
                su_status := partially_failed |} in
  (su_completed_files upd + su_failed_files upd)%nat = length Scripted.seven
  ∧ (su_status upd = completed ↔ su_failed_files upd = 0%nat).
Proof.
  intros upd.
  destruct (terminal_session_counts Scripted.room Scripted.user Scripted.seven
              (Scripted.start [None; None; Some Scripted.conflict; None; None;
                               Some Scripted.serverError; None])
              (js "session") upd) as (_ & H1 & H2 & _).
  - vm_compute. set_solver.
  - split; assumption.
Defined.

Section IsolationFacts.
Context {World : Type} {backend : Backend World}.
Variable roomId : JSString.
Variable userName : JSString.

Local Abbreviation send := (submit roomId userName).







End IsolationFacts.

(** ** The batch uploader: one file, one sub-batch, the loop *)

Lemma batchesFrom_subBatches (files : list File) (k i : nat) :
  (length files - i ≤ k)%nat →
  PhotoUpload.batchesFrom files i = subBatches 5 (drop i files).
Proof.
  revert i. induction k as [|k IH]; intros i Hk;
    rewrite PhotoUpload.batchesFrom_equation_1;
    destruct (decide (i < length files)%nat) as [Hlt|Hge]; try lia.
  - cbn. by rewrite drop_ge by lia.
  - rewrite PhotoUpload.batchesFrom_clause_1_equation_1.
    unfold PhotoUpload.BATCH_SIZE.
    rewrite IH by lia.
    rewrite (subBatches_cons 5 (drop i files)); [|lia|].
    + rewrite drop_drop. unfold slice. do 2 f_equal. lia.
    + intros He. apply (f_equal length) in He. rewrite length_drop in He.
      simpl in He. lia.
  - cbn. by rewrite drop_ge by lia.
Qed.

Section BatchFacts.
Context {World : Type} {backend : Backend World}.
Variable roomId : JSString.
Variable userName : JSString.

Local Abbreviation try_ := (attempt roomId userName).
Local Abbreviation answers := (fun files w => map value (runs try_ files w)).

Lemma attempt_trace (file : File) (w : World) :
  trace (try_ file w)
  = if sendable roomId userName file
    then [PostUpload roomId file (sanitizeInput userName)] else [].
Proof.
  unfold attempt, sendable, uploadPhoto.
  destruct (validateInput.roomId roomId); [|reflexivity].
  destruct (validateInput.userName userName); [|reflexivity].
  cbn. destruct (validateInput.valid (validateInput.file file)); reflexivity.
Qed.

Lemma batch_uploadOne_run (file : File) (w : World) :
  PhotoUpload.uploadOne roomId userName file w
  = mkRun (trace (try_ file w)) (world (try_ file w))
      (Return (itemOf file (value (try_ file w)))).
Proof.
  unfold PhotoUpload.uploadOne, try_catch, bind. fold (try_ file).
  destruct (value (try_ file w)) eqn:E; cbn; rewrite ?E; cbn;
    by rewrite ?app_nil_r.
Qed.

Lemma settled_run (batch : list File) (w : World) :
  forEach PhotoUpload.settle
    (map (PhotoUpload.uploadOne roomId userName) batch) w
  = mkRun
      (map (fun file => PostUpload roomId file (sanitizeInput userName))
         (List.filter (sendable roomId userName) batch))
      (worldAfter try_ batch w)
      (Return (map PhotoUpload.fulfilled
                 (zip_with itemOf batch (answers batch w)))).
Proof.
  revert w. induction batch as [|file batch IH]; intros w; [reflexivity|].
  cbn [map forEach].
  erewrite bind_of_run
    by (unfold PhotoUpload.settle; rewrite batch_uploadOne_run; reflexivity).
  erewrite bind_of_run by apply IH.
  unfold ret. cbn [trace world value]. rewrite attempt_trace.
  cbn [List.filter runs map zip_with worldAfter].
  destruct (sendable roomId userName file); cbn; by rewrite ?app_nil_r.
Qed.

Lemma allSettled_run (batch : list File) (w : World) :
  PhotoUpload.allSettled (map (PhotoUpload.uploadOne roomId userName) batch) w
  = mkRun (postEvents roomId userName batch) (worldAfter try_ batch w)
      (Return (map PhotoUpload.fulfilled
                 (zip_with itemOf batch (answers batch w)))).
Proof.
  unfold PhotoUpload.allSettled.
  erewrite bind_of_run by apply settled_run.
  unfold bind, emit, ret. cbn [trace world value].
  unfold postEvents. by rewrite length_map, app_nil_r.
Qed.

Lemma messagesOf_app (l1 l2 : list File) (cs1 cs2 : list (Completion Photo)) :
  length l1 = length cs1 →
  messagesOf (l1 ++ l2) (cs1 ++ cs2) = messagesOf l1 cs1 ++ messagesOf l2 cs2.
Proof.
  intros H. unfold messagesOf. rewrite zip_with_app by done.
  apply omap_app.
Qed.

Lemma fold_tally (batch : list File) (cs : list (Completion Photo))
  (acc : PhotoUpload.Summary) :
  length batch = length cs →
  fold_left PhotoUpload.tally
    (map PhotoUpload.fulfilled (zip_with itemOf batch cs)) acc
  = {| PhotoUpload.completedFiles :=
         PhotoUpload.completedFiles acc + countReturned cs;
       PhotoUpload.skippedFiles :=
         PhotoUpload.skippedFiles acc + length (List.filter isConflict cs);
       PhotoUpload.errors := PhotoUpload.errors acc ++ messagesOf batch cs |}.
Proof.
  revert cs acc. induction batch as [|file batch IH];
    intros [|c cs] acc H; try discriminate H.
  - destruct acc. unfold countReturned, messagesOf. cbn.
    f_equal; [lia | lia | by rewrite app_nil_r].
  - cbn [zip_with map fold_left]. rewrite IH by (simpl in H; lia).
    unfold countReturned, messagesOf.
    destruct c as [photo|e]; cbn.
    + f_equal; lia.
    + destruct (bool_decide (PhotoUpload.statusOf e = Some 409%Z)); cbn;
        f_equal; try lia; by rewrite <- app_assoc.
Qed.

Lemma answers_app (l1 l2 : list File) (w : World) :
  answers (l1 ++ l2) w = answers l1 w ++ answers l2 (worldAfter try_ l1 w).
Proof. cbn beta. by rewrite runs_app, map_app. Qed.

Lemma processBatches_run (rest : list (list File)) (count batchIndex : nat)
  (acc : PhotoUpload.Summary) (w : World) :
  count = (batchIndex + length rest)%nat →
  PhotoUpload.processBatches roomId userName count batchIndex rest acc w
  = mkRun (joinWith [Delay 1000] (map (postEvents roomId userName) rest))
      (worldAfter try_ (concat rest) w)
      (Return
         {| PhotoUpload.completedFiles :=
              PhotoUpload.completedFiles acc
              + countReturned (answers (concat rest) w);
            PhotoUpload.skippedFiles :=
              PhotoUpload.skippedFiles acc
              + length (List.filter isConflict (answers (concat rest) w));
            PhotoUpload.errors :=
              PhotoUpload.errors acc
              ++ messagesOf (concat rest) (answers (concat rest) w) |}).
Proof.
  revert batchIndex acc w.
  induction rest as [|batch rest IH]; intros batchIndex acc w Hc.
  - cbn. unfold ret, countReturned, messagesOf. cbn. destruct acc. cbn.
    by rewrite !Nat.add_0_r, app_nil_r.
  - cbn [PhotoUpload.processBatches].
    erewrite bind_of_run by apply allSettled_run.
    rewrite fold_tally by (by rewrite length_map, runs_length).
    cbn [map concat]. rewrite joinWith_cons.
    rewrite worldAfter_app, answers_app, countReturned_app, List.filter_app,
      length_app.
    rewrite messagesOf_app by (by rewrite length_map, runs_length).
    destruct rest as [|batch' rest].
    + assert (Hz : (Z.of_nat batchIndex <? Z.of_nat count - 1)%Z = false)
        by (apply Z.ltb_ge; simpl in Hc; lia).
      rewrite Hz. erewrite (bind_of_run (ret tt)) by reflexivity.
      cbn. unfold ret, countReturned, messagesOf. cbn.
      destruct (decide (@nil (list Event) = [])) as [_|?]; [|done].
      by rewrite ?app_nil_r, ?Nat.add_0_r.
    + assert (Hz : (Z.of_nat batchIndex <? Z.of_nat count - 1)%Z = true)
        by (apply Z.ltb_lt; simpl in Hc; lia).
      rewrite Hz. erewrite (bind_of_run (emit _)) by reflexivity.
      rewrite IH by (simpl in *; lia).
      cbn [trace world value PhotoUpload.completedFiles
           PhotoUpload.skippedFiles PhotoUpload.errors].
      unfold PhotoUpload.BATCH_DELAY.
      destruct (decide (map _ (batch' :: rest) = [])) as [He|_];
        [discriminate He|].
      f_equal. f_equal. f_equal; [lia | lia | by rewrite app_assoc].
Qed.

Lemma subBatches_concat {A : Type} (l : list A) : concat (subBatches 5 l) = l.
Proof.
  destruct (decide (l = [])) as [->|Hne]; [reflexivity|].
  by destruct (subBatches_partitioned 5 l) as [Hc _]; [lia|done|].
Qed.

Lemma uploadFilesInBatches_run (files : list File) (w : World) :
  PhotoUpload.uploadFilesInBatches roomId files userName w
  = mkRun
      (joinWith [Delay 1000]
         (map (postEvents roomId userName) (subBatches 5 files)))
      (worldAfter try_ files w)
      (Return
         {| PhotoUpload.completedFiles := countReturned (answers files w);
            PhotoUpload.skippedFiles :=
              length (List.filter isConflict (answers files w));
            PhotoUpload.errors := messagesOf files (answers files w) |}).
Proof.
  unfold PhotoUpload.uploadFilesInBatches. cbn zeta.
  rewrite (batchesFrom_subBatches files (length files)) by lia.
  rewrite drop_0, processBatches_run by reflexivity.
  by rewrite subBatches_concat.
Qed.

End BatchFacts.

(** ** Sub-batches of five, with a pause between them *)

Section BatchingFacts.
Context {World : Type} {backend : Backend World}.
Variable roomId : JSString.
Variable userName : JSString.


End BatchingFacts.


(** Seven files in two sub-batches, the pause between them. *)
Example seven_files_trace :
  trace (PhotoUpload.uploadFilesInBatches Scripted.room Scripted.seven
           Scripted.user (Scripted.start []))
  = map (fun file => PostUpload Scripted.room file Scripted.user)
      (take 5 Scripted.seven)
    ++ [AllSettled 5; Delay 1000]
    ++ map (fun file => PostUpload Scripted.room file Scripted.user)
         (drop 5 Scripted.seven)
    ++ [AllSettled 2].
Proof. vm_compute. reflexivity. Qed.

Example seven_files_logged :
  List.filter (fun ev => negb (isUploadRequest ev))
    (trace (PhotoUploadLogging.uploadFilesWithLogging Scripted.room
              Scripted.seven Scripted.user (Scripted.start [])))
  = CreateSession {| sc_room_id := Scripted.room;
                     sc_user_name := Scripted.user; sc_total_files := 7 |}
    :: SetUploadSession
         (Scripted.sessionOf {| sc_room_id := Scripted.room;
                                sc_user_name := Scripted.user;
                                sc_total_files := 7 |})
    :: map (fun file =>
              CreateLog {| lc_session_id := js "session";
                           lc_room_id := Scripted.room;
                           lc_original_filename := name file;
                           lc_file_size := size file;
                           lc_mime_type := type file;
                           lc_uploader_name := Scripted.user |})
         Scripted.seven
    ++ [SetUploadLogs
          (map (fun n =>
                  Scripted.logOf n
                    {| lc_session_id := js "session";
                       lc_room_id := Scripted.room;
                       lc_original_filename :=
                         name (default (Scripted.image "") (Scripted.seven !! n));
                       lc_file_size := 2048;
                       lc_mime_type := js "image/jpeg";
                       lc_uploader_name := Scripted.user |})
             (seq 0 7));
        AllSettled 5; Delay 4000; AllSettled 2;
        UpdateSession (js "session")
          {| su_completed_files := 7; su_failed_files := 0;
             su_status := completed |};
        SetUploadResult
          (Some {| result_session_id := js "session";
                   result_total_files := 7; successful_uploads := 7;
                   failed_uploads := 0; failed_files := [] |})].
Proof. vm_compute. reflexivity. Qed.

(** ** The summary of a batch *)

Lemma messagesOf_length (files : list File) (cs : list (Completion Photo)) :
  length files = length cs → length (messagesOf files cs) = countThrown cs.
Proof.
  revert cs. induction files as [|f files IH]; intros [|c cs] H;
    try discriminate H; [reflexivity|].
  unfold messagesOf, countThrown in *. cbn.
  destruct c; cbn; rewrite IH by (simpl in H; lia); reflexivity.
Qed.

Lemma countThrown_split {A : Type} (cs : list (Completion A)) :
  countThrown cs
  = (length (List.filter isConflict cs)
     + length (List.filter isGenuineFailure cs))%nat.
Proof.
  unfold countThrown, isGenuineFailure.
  induction cs as [|[a|e] cs IH]; cbn; [reflexivity | exact IH |].
  destruct (bool_decide _); cbn; lia.
Qed.

Lemma messagesOf_elem (files : list File) (cs : list (Completion Photo))
  (k : nat) (file : File) (e : JSError) :
  files !! k = Some file → cs !! k = Some (Throw e) →
  PhotoUpload.describe file e ∈ messagesOf files cs.
Proof.
  intros Hf Hc. unfold messagesOf. apply list_elem_of_omap.
  exists (file, Throw e). split; [|reflexivity].
  apply list_elem_of_lookup. exists k.
  rewrite lookup_zip_with, Hf. cbn. by rewrite Hc.
Qed.

Section SummaryFacts.
Context {World : Type} {backend : Backend World}.
Variable roomId : JSString.
Variable userName : JSString.

(** C9 (as amended). [uploadFilesInBatches] always returns a summary: the
    number of files uploaded, the number skipped as duplicates (requests
    answered with status 409) and one message per file that was not uploaded,
    in the order of the files, made of the file's name, a colon and a reason
    fixed by the status of the response: for 409 that the photo is already
    uploaded, for 400 the detail of the response, for 413, 429 and 419 a
    fixed text, and otherwise the message of the error. A duplicate is
    counted in [skippedFiles] and not among the failures, whose number
    [handleUpload] reports as [errors.length - skippedFiles]; the three
    counts add up to the number of files, and [handleUpload] shows the text
    built from this summary. The loop of the uploader with bookkeeping makes
    no such distinction: every rejected request, a duplicate included, adds
    one to its count of failures. *)
Theorem batch_summary (files : list File) (w : World) :
  let cs := map value (runs (attempt roomId userName) files w) in
  let reason := fun e : JSError =>
    let other :=
      js "업로드 실패 ("
      ++ match message e with
         | [] => js "알 수 없는 오류"
         | c :: m => c :: m
         end
      ++ js ")" in
    match response e with
    | None => other
    | Some r =>
      if (resp_status r =? 409)%Z then js "이미 업로드된 사진입니다"
      else if (resp_status r =? 400)%Z then
        match resp_detail r with
        | Some (c :: detail) => c :: detail
        | _ => js "잘못된 요청"
        end
      else if (resp_status r =? 413)%Z then
        js "파일 크기가 너무 큽니다 (최대 10MB)"
      else if (resp_status r =? 429)%Z then
        js "요청이 너무 많습니다. 잠시 후 다시 시도해주세요"
      else if (resp_status r =? 419)%Z then
        js "보안 토큰 오류. 페이지를 새로고침해주세요"
      else other
    end in
  ∃ s,
    value (PhotoUpload.uploadFilesInBatches roomId files userName w) = Return s
    ∧ PhotoUpload.completedFiles s = countReturned cs
    ∧ PhotoUpload.skippedFiles s = length (List.filter isConflict cs)
    ∧ (length (PhotoUpload.errors s) - PhotoUpload.skippedFiles s)%nat
      = length (List.filter isGenuineFailure cs)
    ∧ (PhotoUpload.completedFiles s + PhotoUpload.skippedFiles s
       + (length (PhotoUpload.errors s) - PhotoUpload.skippedFiles s))%nat
      = length files
    ∧ PhotoUpload.errors s
      = omap (fun fc : File * Completion Photo =>
                match fc.2 with
                | Return _ => None
                | Throw e => Some (name fc.1 ++ js ": " ++ reason e)
                end)
          (zip files cs)
    ∧ (∀ (k : nat) (file : File) (e : JSError),
         files !! k = Some file → cs !! k = Some (Throw e) →
         name file ++ js ": " ++ reason e ∈ PhotoUpload.errors s)
    ∧ (files ≠ [] → validateInput.userName userName = true →
       validateInput.roomId roomId = true →
       trace (PhotoUpload.handleUpload roomId (Some files) (Some userName) w)
       = trace (PhotoUpload.uploadFilesInBatches roomId files userName w)
         ++ [SetSelectedFiles None; OnUploadSuccess;
             Alert (or_else (PhotoUpload.summaryMessage s)
                      (js "업로드할 새로운 사진이 없습니다."))])
    ∧ (∀ (fileLogPairs : list (File * UploadLog))
         (p0 : PhotoUploadLogging.Progress) (w' : World),
         let answers :=
           map value (runs (submit roomId userName) fileLogPairs w') in
         ∃ p,
           value (PhotoUploadLogging.batchLoop roomId userName fileLogPairs 0
                    p0 w') = Return p
           ∧ PhotoUploadLogging.failedCount p
             = (PhotoUploadLogging.failedCount p0
                + length (List.filter isConflict answers)
                + length (List.filter isGenuineFailure answers))%nat).
Proof.
  intros cs reason. rewrite uploadFilesInBatches_run. cbn [value trace].
  fold cs. eexists. split; [reflexivity|].
  cbn [PhotoUpload.completedFiles PhotoUpload.skippedFiles PhotoUpload.errors].
  assert (Hlen : length files = length cs)
    by (subst cs; by rewrite length_map, runs_length).
  pose proof (messagesOf_length files cs Hlen) as Hm.
  pose proof (countThrown_split cs) as Hsplit.
  pose proof (count_total cs) as Htot.
  assert (Hreason : ∀ file e,
            PhotoUpload.describe file e = name file ++ js ": " ++ reason e).
  { intros file e. subst reason. cbn beta zeta.
    assert (Hother : name file ++ js ": 업로드 실패 ("
                     ++ or_else (message e) (js "알 수 없는 오류") ++ js ")"
                     = name file ++ js ": "
                       ++ js "업로드 실패 ("
                       ++ match message e with
                          | [] => js "알 수 없는 오류"
                          | c :: m => c :: m
                          end ++ js ")").
    { assert (H : js ": 업로드 실패 (" = js ": " ++ js "업로드 실패 (")
        by (vm_compute; reflexivity).
      rewrite H, <- app_assoc. by destruct (message e). }
    unfold PhotoUpload.describe, PhotoUpload.statusOf.
    destruct (response e) as [r|]; cbn [fmap option_fmap option_map mbind
                                        option_bind];
      [|rewrite !bool_decide_eq_false_2 by discriminate; exact Hother].
    destruct (Z.eqb_spec (resp_status r) 409) as [Hs|Hs];
      [rewrite bool_decide_eq_true_2 by (by rewrite Hs);
       apply (f_equal (app (name file))); vm_compute; reflexivity
      |rewrite bool_decide_eq_false_2 by congruence].
    destruct (Z.eqb_spec (resp_status r) 400) as [Hs4|Hs4];
      [rewrite bool_decide_eq_true_2 by (by rewrite Hs4);
       by destruct (resp_detail r) as [[|c detail]|]
      |rewrite bool_decide_eq_false_2 by congruence].
    destruct (Z.eqb_spec (resp_status r) 413) as [Hs1|Hs1];
      [rewrite bool_decide_eq_true_2 by (by rewrite Hs1);
       apply (f_equal (app (name file))); vm_compute; reflexivity
      |rewrite bool_decide_eq_false_2 by congruence].
    destruct (Z.eqb_spec (resp_status r) 429) as [Hs2|Hs2];
      [rewrite bool_decide_eq_true_2 by (by rewrite Hs2);
       apply (f_equal (app (name file))); vm_compute; reflexivity
      |rewrite bool_decide_eq_false_2 by congruence].
    destruct (Z.eqb_spec (resp_status r) 419) as [Hs3|Hs3];
      [rewrite bool_decide_eq_true_2 by (by rewrite Hs3);
       apply (f_equal (app (name file))); vm_compute; reflexivity
      |rewrite bool_decide_eq_false_2 by congruence].
    exact Hother. }
  assert (Herrors : messagesOf files cs
                    = omap (fun fc : File * Completion Photo =>
                              match fc.2 with
                              | Return _ => None
                              | Throw e => Some (name fc.1 ++ js ": " ++ reason e)
                              end)
                        (zip files cs)).
  { unfold messagesOf. induction (zip files cs) as [|[file [photo|e]] l IH];
      cbn; [reflexivity | exact IH |]. by rewrite IH, Hreason. }
  split; [reflexivity|]. split; [reflexivity|].
  split; [lia|]. split; [lia|]. split; [exact Herrors|]. split; [|split].
  - intros k file e Hf Hc. rewrite <- Hreason. by eapply messagesOf_elem.
  - intros Hne Hu Hr. unfold PhotoUpload.handleUpload.
    destruct files as [|f files']; [done|].
    assert (Ht : opt_or_else (Some userName) (js "") = userName).
    { cbn. unfold or_else. destruct userName; [discriminate Hu | reflexivity]. }
    rewrite Ht, Hu, Hr.
    assert (Htr : truthy userName = true)
      by (destruct userName; [discriminate Hu | reflexivity]).
    rewrite Htr. cbn [negb]. unfold try_catch.
    erewrite bind_of_run by apply uploadFilesInBatches_run.
    unfold bind, emit. cbn [trace world value]. fold cs.
    by rewrite ?app_nil_r.
  - intros pairs p0 w'.
    rewrite (batchLoop_run roomId userName pairs (length pairs)) by lia.
    rewrite drop_0. cbn [value]. eexists. split; [reflexivity|].
    cbn [PhotoUploadLogging.failedCount].
    rewrite (countThrown_split (map value _)). lia.
Qed.

End SummaryFacts.

(** Seven files of which the third is a duplicate and the sixth meets a
    server error: five uploaded, one skipped, one failed. *)
Lemma batch_summary_witness :
  ∃ s,
    value (PhotoUpload.uploadFilesInBatches Scripted.room Scripted.seven
             Scripted.user
             (Scripted.start [None; None; Some Scripted.conflict; None; None;
                              Some Scripted.serverError; None]))
    = Return s
    ∧ PhotoUpload.completedFiles s = 5%nat
    ∧ PhotoUpload.skippedFiles s = 1%nat
    ∧ (length (PhotoUpload.errors s) - PhotoUpload.skippedFiles s)%nat = 1%nat.
Proof.
  destruct (batch_summary (World := Scripted.World) Scripted.room
              Scripted.user Scripted.seven
              (Scripted.start [None; None; Some Scripted.conflict; None; None;
                               Some Scripted.serverError; None]))
    as (s & H1 & H2 & H3 & H4 & _).
  exists s. split; [exact H1|]. split; [|split].
  - etrans; [exact H2|]. vm_compute. reflexivity.
  - etrans; [exact H3|]. vm_compute. reflexivity.
  - etrans; [exact H4|]. vm_compute. reflexivity.
Defined.

(** C9 (as stated) fails: the server refuses ['a.jpg'] as a duplicate
    (status 409). The batch uploader skips it and counts no failure; the
    uploader with bookkeeping counts it as its one failure, closes the
    session as failed and tells the user that one file failed. *)
Lemma duplicate_counted_as_failure :
  let fileA := Scripted.image "a.jpg" in
  let w := Scripted.start [Some Scripted.conflict] in
  let logA :=
    Scripted.logOf 0
      {| lc_session_id := js "session"; lc_room_id := Scripted.room;
         lc_original_filename := js "a.jpg"; lc_file_size := 2048;
         lc_mime_type := js "image/jpeg";
         lc_uploader_name := Scripted.user |} in
  PhotoUpload.statusOf Scripted.conflict = Some 409%Z
  ∧ value (PhotoUpload.uploadFilesInBatches Scripted.room [fileA]
             Scripted.user w)
    = Return {| PhotoUpload.completedFiles := 0;
                PhotoUpload.skippedFiles := 1;
                PhotoUpload.errors := [js "a.jpg: 이미 업로드된 사진입니다"] |}
  ∧ value (PhotoUploadLogging.uploadFilesWithLogging Scripted.room [fileA]
             Scripted.user w)
    = Return {| result_session_id := js "session"; result_total_files := 1;
                successful_uploads := 0; failed_uploads := 1;
                failed_files := [logA] |}
  ∧ UpdateSession (js "session")
      {| su_completed_files := 0; su_failed_files := 1; su_status := failed |}
    ∈ trace (PhotoUploadLogging.uploadFilesWithLogging Scripted.room [fileA]
               Scripted.user w)
  ∧ last (trace (PhotoUploadLogging.handleUpload Scripted.room (Some [fileA])
                   (Some Scripted.user) w))
    = Some (Alert (js "⚠️ 업로드 완료: 성공 0개, 실패 1개" ++ [10%N]
                   ++ js "실패한 파일들은 재시도할 수 있습니다.")).
Proof.
  split; [reflexivity|]. split; [vm_compute; reflexivity|].
  split; [vm_compute; reflexivity|]. split; [|vm_compute; reflexivity].
  apply list_elem_of_In. vm_compute. do 6 right. left. reflexivity.
Qed.

(** What the batch uploader tells the user after seven files of which one
    is a duplicate and one fails. *)
Example batch_summary_alert :
  last (trace (PhotoUpload.handleUpload Scripted.room (Some Scripted.seven)
                 (Some Scripted.user)
                 (Scripted.start [None; None; Some Scripted.conflict; None;
                                  None; Some Scripted.serverError; None])))
  = Some (Alert (js "5개의 사진이 성공적으로 업로드되었습니다! 📸" ++ [10%N]
                 ++ js "1개의 중복 사진은 건너뛰었습니다. 🔄" ++ [10%N]
                 ++ js "1개의 사진 업로드에 실패했습니다. ❌")).
Proof. vm_compute. reflexivity. Qed.



(** The third file of a sub-batch is refused as a duplicate: its result
    carries its own log and the server's message, its neighbours are
    uploaded. *)
Example failure_in_the_middle :
  let entries :=
    zip (take 5 Scripted.seven)
      (map (fun n => Scripted.logOf n
                       {| lc_session_id := js "session";
                          lc_room_id := Scripted.room;
                          lc_original_filename := js "x.jpg";
                          lc_file_size := 2048;
                          lc_mime_type := js "image/jpeg";
                          lc_uploader_name := Scripted.user |})
         (seq 0 5)) in
  ∃ results failedLogs,
    value (PhotoUploadLogging.uploadBatch Scripted.room Scripted.user entries
             [] (Scripted.start [None; None; Some Scripted.conflict]))
    = Return (results, failedLogs)
    ∧ map (fun r => match r with
                    | PhotoUploadLogging.Uploaded _ _ _ => None
                    | PhotoUploadLogging.NotUploaded _ log error =>
                      Some (log_id log, error)
                    end) results
      = [None; None; Some (js "log-2", js "Duplicate photo"); None; None]
    ∧ map log_id failedLogs = [js "log-2"].
Proof. eexists _, _. vm_compute. repeat split. Qed.

(** ** Retrying failed uploads *)

Section RetryFacts.
Context {World : Type} {backend : Backend World}.

Lemma retry_no_upload (uploadResult : option UploadResult)
  (uploadSession : option UploadSession) (stored : option JSString)
  (w : World) :
  List.filter isUploadRequest
    (trace (PhotoUploadLogging.retryFailedUploads uploadResult uploadSession
              stored w)) = [].
Proof.
  unfold PhotoUploadLogging.retryFailedUploads.
  destruct uploadResult as [r|]; [|reflexivity].
  destruct (length (failed_files r) =? 0)%nat; [reflexivity|].
  unfold try_catch, bind, emit, respond, throw, ret.
  cbn [trace world value].
  destruct (retryFailedUploads_request _ w) as [[[]|e] w1];
    cbn [fst snd trace world value]; [|reflexivity].
  destruct (negb (truthy (opt_or_else stored (js ""))));
    cbn [trace world value]; [reflexivity|].
  destruct uploadSession as [session|]; cbn [trace world value];
    [|reflexivity].
  destruct (getSessionLogs _ w1) as [[ls|e] w2];
    cbn [fst snd trace world value]; reflexivity.
Qed.

End RetryFacts.

(** C8 (the code departs from it). [retryFailedUploads] sends the retry
    request, reads the logs of the session back and reports every pending log
    as a successful retry, but it never submits a file: whatever the inputs,
    no upload request appears in its trace. So it is on one failed file whose
    log the server has reset to pending: the run ends with the alert
    ['재시도 완료: 성공 1개, 실패 0개'] and the log is still pending. *)
Theorem retry_resubmits_nothing :
  (∀ (World : Type) (backend : Backend World)
     (uploadResult : option UploadResult)
     (uploadSession : option UploadSession) (stored : option JSString)
     (w : World),
     List.filter isUploadRequest
       (trace (PhotoUploadLogging.retryFailedUploads uploadResult
                 uploadSession stored w)) = [])
  ∧ PhotoUploadLogging.retryFailedUploads (Some oneFailed)
      (Some (Scripted.sessionOf
               {| sc_room_id := Scripted.room; sc_user_name := Scripted.user;
                  sc_total_files := 1 |}))
      (Some Scripted.user) afterRetry
    = mkRun [RetryFailedUploads [js "log-0"]; SetUploadResult None;
             GetSessionLogs (js "session");
             Alert (js "재시도 완료: 성공 1개, 실패 0개"); OnUploadSuccess]
        afterRetry (Return tt)
  ∧ map log_status (Scripted.logs afterRetry) = [pending].
Proof.
  split; [|split].
  - intros. apply retry_no_upload.
  - vm_compute. reflexivity.
  - reflexivity.
Qed.

(* ===================================================================== *)
(** * Part II, continued: further properties of the client                *)
(* ===================================================================== *)

(** ** [sanitizeInput] *)

Lemma replaceAll_Forall (P : N → Prop) (c : N) (by_ s : JSString) :
  Forall P by_ → Forall (fun x => x ≠ c → P x) s →
  Forall P (replaceAll c by_ s).
Proof.
  intros Hby Hs. unfold replaceAll.
  induction Hs as [|x s Hx Hs IH]; [constructor|].
  cbn. destruct (N.eqb_spec x c) as [->|Hne].
  - apply Forall_app. split; [exact Hby | exact IH].
  - constructor; [by apply Hx | exact IH].
Qed.

Lemma replaceAll_absent (c : N) (by_ s : JSString) :
  Forall (fun x => x ≠ c) s → replaceAll c by_ s = s.
Proof.
  intros Hs. unfold replaceAll. induction Hs as [|x s Hx Hs IH]; [done|].
  cbn. destruct (N.eqb_spec x c) as [->|Hne]; [done|].
  cbn. by rewrite IH.
Qed.

Lemma trimStart_suffix (s : JSString) : ∃ pre, s = pre ++ trimStart s.
Proof.
  induction s as [|c s [pre IH]]; [by exists []|].
  cbn. destruct (isWhiteSpace c).
  - exists (c :: pre). cbn. by rewrite <- IH.
  - by exists [].
Qed.

Lemma trimStart_head (s : JSString) (c : N) :
  head (trimStart s) = Some c → isWhiteSpace c = false.
Proof.
  induction s as [|x s IH]; [discriminate|].
  cbn. destruct (isWhiteSpace x) eqn:E; [exact IH|].
  cbn. by intros [= <-].
Qed.

Lemma trimStart_id (s : JSString) :
  (∀ c, head s = Some c → isWhiteSpace c = false) → trimStart s = s.
Proof.
  destruct s as [|x s]; [done|]. intros H. cbn. by rewrite (H x).
Qed.

Lemma trim_Forall (P : N → Prop) (s : JSString) :
  Forall P s → Forall P (trim s).
Proof.
  intros Hs. unfold trim. apply Forall_rev.
  destruct (trimStart_suffix (rev (trimStart s))) as [pre Hpre].
  assert (H : Forall P (rev (trimStart s))).
  { apply Forall_rev. destruct (trimStart_suffix s) as [pre' Hpre'].
    rewrite Hpre' in Hs. by apply Forall_app in Hs as [_ Hs]. }
  rewrite Hpre in H. by apply Forall_app in H as [_ H].
Qed.

Lemma last_rev {A} (l : list A) : last (rev l) = head l.
Proof. destruct l as [|x l]; [done|]. cbn. apply last_snoc. Qed.

Lemma head_rev {A} (l : list A) : head (rev l) = last l.
Proof. rewrite <- (rev_involutive l) at 2. by rewrite last_rev. Qed.

Lemma trim_head (s : JSString) (c : N) :
  head (trim s) = Some c → isWhiteSpace c = false.
Proof.
  unfold trim. rewrite head_rev. intros H.
  destruct (trimStart_suffix (rev (trimStart s))) as [pre Hpre].
  assert (Hl : last (rev (trimStart s)) = Some c).
  { rewrite Hpre. apply last_app_Some. by left. }
  rewrite last_rev in Hl. by apply trimStart_head in Hl.
Qed.

Lemma trim_last (s : JSString) (c : N) :
  last (trim s) = Some c → isWhiteSpace c = false.
Proof. unfold trim. rewrite last_rev. apply trimStart_head. Qed.

Lemma trim_id (s : JSString) :
  (∀ c, head s = Some c → isWhiteSpace c = false) →
  (∀ c, last s = Some c → isWhiteSpace c = false) →
  trim s = s.
Proof.
  intros Hh Hl. unfold trim. rewrite (trimStart_id s Hh).
  rewrite trimStart_id; [apply rev_involutive|].
  intros c. rewrite head_rev. apply Hl.
Qed.

(** The string after the five replacements, before [trim]. *)
Lemma escaped_none (input : JSString) :
  Forall (fun c => isEscaped c = false)
    (replaceAll 47 (js "&#x2F;")
       (replaceAll 39 (js "&#x27;")
          (replaceAll 34 (js "&quot;")
             (replaceAll 62 (js "&gt;")
                (replaceAll 60 (js "&lt;") input))))).
Proof.
  assert (H1 : Forall (fun c => c ≠ 60%N)
                 (replaceAll 60 (js "&lt;") input)).
  { apply replaceAll_Forall; [by vm_compute; repeat constructor|].
    apply Forall_forall. auto. }
  assert (H2 : Forall (fun c => c ≠ 60%N ∧ c ≠ 62%N)
                 (replaceAll 62 (js "&gt;") (replaceAll 60 (js "&lt;") input))).
  { apply replaceAll_Forall; [by vm_compute; repeat constructor|].
    eapply Forall_impl; [exact H1|]. cbn. auto. }
  assert (H3 : Forall (fun c => c ≠ 60%N ∧ c ≠ 62%N ∧ c ≠ 34%N)
                 (replaceAll 34 (js "&quot;")
                    (replaceAll 62 (js "&gt;")
                       (replaceAll 60 (js "&lt;") input)))).
  { apply replaceAll_Forall; [by vm_compute; repeat constructor|].
    eapply Forall_impl; [exact H2|]. cbn. intros c [? ?] ?. auto. }
  assert (H4 : Forall (fun c => c ≠ 60%N ∧ c ≠ 62%N ∧ c ≠ 34%N ∧ c ≠ 39%N)
                 (replaceAll 39 (js "&#x27;")
                    (replaceAll 34 (js "&quot;")
                       (replaceAll 62 (js "&gt;")
                          (replaceAll 60 (js "&lt;") input))))).
  { apply replaceAll_Forall; [by vm_compute; repeat constructor|].
    eapply Forall_impl; [exact H3|]. cbn. intros c (? & ? & ?) ?. auto. }
  assert (H5 : Forall (fun c => c ≠ 60%N ∧ c ≠ 62%N ∧ c ≠ 34%N ∧ c ≠ 39%N
                                ∧ c ≠ 47%N)
                 (replaceAll 47 (js "&#x2F;")
                    (replaceAll 39 (js "&#x27;")
                       (replaceAll 34 (js "&quot;")
                          (replaceAll 62 (js "&gt;")
                             (replaceAll 60 (js "&lt;") input)))))).
  { apply replaceAll_Forall; [by vm_compute; repeat constructor|].
    eapply Forall_impl; [exact H4|]. cbn. intros c (? & ? & ? & ?) ?. auto. }
  eapply Forall_impl; [exact H5|]. cbn.
  intros c (? & ? & ? & ? & ?). unfold isEscaped.
  repeat (apply orb_false_intro); by apply N.eqb_neq.
Qed.

Lemma unescaped_replacements (s : JSString) :
  Forall (fun c => isEscaped c = false) s →
  replaceAll 47 (js "&#x2F;")
    (replaceAll 39 (js "&#x27;")
       (replaceAll 34 (js "&quot;")
          (replaceAll 62 (js "&gt;") (replaceAll 60 (js "&lt;") s)))) = s.
Proof.
  intros H.
  assert (Hc : ∀ k : N, isEscaped k = true → Forall (fun c => c ≠ k) s).
  { intros k Hk. eapply Forall_impl; [exact H|]. cbn. intros c Hc ->.
    congruence. }
  rewrite (replaceAll_absent 60) by (by apply Hc).
  rewrite (replaceAll_absent 62) by (by apply Hc).
  rewrite (replaceAll_absent 34) by (by apply Hc).
  rewrite (replaceAll_absent 39) by (by apply Hc).
  by rewrite (replaceAll_absent 47) by (by apply Hc).
Qed.

(** X1. The output of [sanitizeInput] holds none of the characters less-than,
    greater-than, double quote, single quote and slash, and neither starts
    nor ends with white space. *)
Theorem sanitizeInput_clean (input : JSString) :
  Forall (fun c => c ≠ 60%N ∧ c ≠ 62%N ∧ c ≠ 34%N ∧ c ≠ 39%N ∧ c ≠ 47%N)
    (sanitizeInput input)
  ∧ (∀ c, head (sanitizeInput input) = Some c → isWhiteSpace c = false)
  ∧ (∀ c, last (sanitizeInput input) = Some c → isWhiteSpace c = false).
Proof.
  unfold sanitizeInput. split; [|split].
  - eapply Forall_impl; [apply trim_Forall, escaped_none|]. cbn.
    unfold isEscaped. intros c Hc.
    repeat (apply orb_false_elim in Hc as [Hc ?]).
    repeat split; by apply N.eqb_neq.
  - apply trim_head.
  - apply trim_last.
Qed.

(** X2. [sanitizeInput] is idempotent: sanitising a sanitised string changes
    nothing, so a value that went through it once (a stored user name) can go
    through it again in a later request. *)
Theorem sanitizeInput_idempotent (input : JSString) :
  sanitizeInput (sanitizeInput input) = sanitizeInput input.
Proof.
  pose proof (trim_Forall _ _ (escaped_none input)) as Hesc.
  fold (sanitizeInput input) in Hesc.
  unfold sanitizeInput at 1. rewrite unescaped_replacements by exact Hesc.
  apply trim_id; unfold sanitizeInput; [apply trim_head | apply trim_last].
Qed.

Lemma nameUnit_plain (c : N) :
  validateInput.isNameUnit c = true →
  isEscaped c = false ∧ isWhiteSpace c = false.
Proof.
  unfold validateInput.isNameUnit, validateInput.isLower, validateInput.isUpper,
    validateInput.isDigit, isEscaped, isWhiteSpace.
  intros H.
  repeat match goal with
         | H : _ || _ = true |- _ => apply orb_true_iff in H as [H|H]
         | H : _ && _ = true |- _ => apply andb_true_iff in H as [? ?]
         | H : (_ <=? _)%N = true |- _ => apply N.leb_le in H
         | H : (_ =? _)%N = true |- _ => apply N.eqb_eq in H
         end;
    (split;
     repeat match goal with
            | |- _ || _ = false => apply orb_false_intro
            | |- _ && _ = false => apply andb_false_iff
            | |- (_ =? _)%N = false => apply N.eqb_neq; lia
            end;
     try (left; apply N.leb_gt; lia); try (right; apply N.leb_gt; lia)).
Qed.

Lemma userName_plain (userName : JSString) :
  validateInput.userName userName = true →
  Forall (fun c => isEscaped c = false ∧ isWhiteSpace c = false) userName.
Proof.
  unfold validateInput.userName. intros H.
  apply andb_true_iff in H as [_ H]. apply andb_true_iff in H as [_ H].
  rewrite forallb_forall in H.
  apply Forall_forall. intros c Hc. apply nameUnit_plain, H.
  by apply list_elem_of_In.
Qed.

Lemma sanitizeInput_plain (s : JSString) :
  Forall (fun c => isEscaped c = false) s →
  (∀ c, head s = Some c → isWhiteSpace c = false) →
  (∀ c, last s = Some c → isWhiteSpace c = false) →
  sanitizeInput s = s.
Proof.
  intros He Hh Hl. unfold sanitizeInput.
  rewrite unescaped_replacements by exact He. by apply trim_id.
Qed.

Lemma sanitizeInput_userName (userName : JSString) :
  validateInput.userName userName = true → sanitizeInput userName = userName.
Proof.
  intros H. apply userName_plain in H as Hp. rewrite Forall_forall in Hp.
  apply sanitizeInput_plain.
  - apply Forall_forall. intros c Hc. by apply Hp.
  - intros c Hc. apply Hp. by apply head_Some_elem_of.
  - intros c Hc. apply Hp. by apply last_Some_elem_of.
Qed.

(** X3. A name accepted by [validateInput.userName] is left unchanged by
    [sanitizeInput]: it holds none of the escaped characters and no white
    space, so the requests of the API service, which validate first and
    sanitise afterwards, carry the user name exactly as it was given. *)
Theorem sanitizeInput_valid_userName (userName : JSString) :
  validateInput.userName userName = true →
  Forall (fun c => isEscaped c = false ∧ isWhiteSpace c = false) userName
  ∧ sanitizeInput userName = userName.
Proof.
  intros H. split; [by apply userName_plain | by apply sanitizeInput_userName].
Qed.

Lemma sanitizeInput_valid_userName_witness :
  sanitizeInput (js "김철수_01") = js "김철수_01".
Proof.
  apply (sanitizeInput_valid_userName (js "김철수_01")). vm_compute. reflexivity.
Defined.

(** ** [validateInput.roomId] *)

Lemma hexRun_Some (n : nat) (s r : JSString) :
  validateInput.hexRun n s = Some r
  ↔ ∃ p, s = p ++ r ∧ length p = n ∧ forallb validateInput.isHex p = true.
Proof.
  revert s. induction n as [|n IH]; intros s; cbn.
  - split.
    + intros [= ->]. by exists [].
    + intros (p & -> & Hl & _). by apply nil_length_inv in Hl as ->.
  - destruct s as [|c s].
    + split; [discriminate|]. intros (p & Hp & Hl & _).
      destruct p; [discriminate Hl | discriminate Hp].
    + destruct (validateInput.isHex c) eqn:Ec.
      * rewrite IH. split.
        -- intros (p & -> & Hl & Hh). exists (c :: p). cbn.
           rewrite Ec, Hh. by rewrite Hl.
        -- intros (p & Hp & Hl & Hh). destruct p as [|c' p]; [discriminate Hl|].
           cbn in Hp, Hl, Hh. injection Hp as <- ->.
           apply andb_true_iff in Hh as [_ Hh]. exists p.
           repeat split; [lia | done].
      * split; [discriminate|]. intros (p & Hp & Hl & Hh).
        destruct p as [|c' p]; [discriminate Hl|].
        cbn in Hp, Hh. injection Hp as <- _. by rewrite Ec in Hh.
Qed.

Lemma hexGroups_last (g : nat) (s : JSString) :
  validateInput.hexGroups [g] s = true
  ↔ length s = g ∧ forallb validateInput.isHex s = true.
Proof.
  cbn. destruct (validateInput.hexRun g s) as [r|] eqn:E.
  - apply hexRun_Some in E as (p & -> & Hl & Hh). destruct r as [|c r].
    + rewrite app_nil_r. by split.
    + split; [discriminate|]. intros [Hl' _]. rewrite length_app in Hl'.
      cbn in Hl'. lia.
  - split; [discriminate|]. intros [Hl Hh].
    assert (H : validateInput.hexRun g s = Some []).
    { apply hexRun_Some. exists s. by rewrite app_nil_r. }
    congruence.
Qed.

Lemma hexGroups_more (g g' : nat) (gs : list nat) (s : JSString) :
  validateInput.hexGroups (g :: g' :: gs) s = true
  ↔ ∃ p r, s = p ++ [45%N] ++ r ∧ length p = g
           ∧ forallb validateInput.isHex p = true
           ∧ validateInput.hexGroups (g' :: gs) r = true.
Proof.
  change (validateInput.hexGroups (g :: g' :: gs) s)
    with (match validateInput.hexRun g s with
          | Some (c :: r) => (c =? 45)%N && validateInput.hexGroups (g' :: gs) r
          | _ => false
          end).
  split.
  - destruct (validateInput.hexRun g s) as [[|c r]|] eqn:E; try discriminate.
    intros H. apply andb_true_iff in H as [Hc Hr].
    apply N.eqb_eq in Hc as ->.
    apply hexRun_Some in E as (p & -> & Hl & Hh). by exists p, r.
  - intros (p & r & -> & Hl & Hh & Hr).
    assert (E : validateInput.hexRun g (p ++ [45%N] ++ r) = Some (45%N :: r)).
    { apply hexRun_Some. by exists p. }
    rewrite E. by rewrite Hr.
Qed.

(** X4. [validateInput.roomId] accepts exactly the strings made of five
    groups of 8, 4, 4, 4 and 12 hexadecimal digits (of either case) separated
    by single hyphens, and nothing before, between or after them. *)
Theorem roomId_shape (roomId : JSString) :
  validateInput.roomId roomId = true
  ↔ ∃ a b c d e : JSString,
      roomId = a ++ [45%N] ++ b ++ [45%N] ++ c ++ [45%N] ++ d ++ [45%N] ++ e
      ∧ map length [a; b; c; d; e] = [8; 4; 4; 4; 12]%nat
      ∧ forallb validateInput.isHex (a ++ b ++ c ++ d ++ e) = true.
Proof.
  unfold validateInput.roomId. split.
  - intros H.
    apply hexGroups_more in H as (a & r1 & -> & Ha & Hha & H).
    apply hexGroups_more in H as (b & r2 & -> & Hb & Hhb & H).
    apply hexGroups_more in H as (c & r3 & -> & Hc & Hhc & H).
    apply hexGroups_more in H as (d & e & -> & Hd & Hhd & H).
    apply hexGroups_last in H as [He Hhe].
    exists a, b, c, d, e. split; [done|]. split.
    + cbn. by rewrite Ha, Hb, Hc, Hd, He.
    + rewrite !forallb_app. by rewrite Hha, Hhb, Hhc, Hhd, Hhe.
  - intros (a & b & c & d & e & -> & Hl & Hh).
    cbn in Hl. injection Hl as Ha Hb Hc Hd He.
    rewrite !forallb_app, !andb_true_iff in Hh.
    destruct Hh as (Hha & Hhb & Hhc & Hhd & Hhe).
    apply hexGroups_more.
    exists a, (b ++ [45%N] ++ c ++ [45%N] ++ d ++ [45%N] ++ e).
    repeat split; [done..|].
    apply hexGroups_more.
    exists b, (c ++ [45%N] ++ d ++ [45%N] ++ e). repeat split; [done..|].
    apply hexGroups_more.
    exists c, (d ++ [45%N] ++ e). repeat split; [done..|].
    apply hexGroups_more.
    exists d, e. repeat split; [done..|].
    by apply hexGroups_last.
Qed.

(** ** The selection of files *)

Lemma keepExcept_spec (index i : nat) (files : list File) :
  keepExcept index i files
  = if decide (i ≤ index)%nat
    then take (index - i) files ++ drop (S (index - i)) files
    else files.
Proof.
  revert i. induction files as [|f files IH]; intros i; cbn.
  - destruct (decide (i ≤ index)%nat); by rewrite ?take_nil, ?drop_nil.
  - rewrite IH. destruct (Nat.eqb_spec i index) as [->|Hne]; cbn.
    + rewrite Nat.sub_diag. cbn. rewrite drop_0.
      destruct (decide (index ≤ index)%nat); [|lia].
      destruct (decide (S index ≤ index)%nat); [lia|done].
    + destruct (decide (i ≤ index)%nat) as [Hle|Hgt].
      * destruct (decide (S i ≤ index)%nat); [|lia].
        replace (index - i)%nat with (S (index - S i)) by lia. done.
      * destruct (decide (S i ≤ index)%nat); [lia|done].
Qed.

Lemma removeFile_eq (selectedFiles : option (list File)) (index : nat) :
  removeFile selectedFiles index
  = (fun files => take index files ++ drop (S index) files) <$> selectedFiles.
Proof.
  destruct selectedFiles as [files|]; [|done]. cbn.
  rewrite keepExcept_spec. destruct (decide (0 ≤ index)%nat); [|lia].
  by rewrite Nat.sub_0_r.
Qed.

(** X5. [removeFile] takes exactly the file at the given position out of the
    selection and keeps the others in their order; a position past the end
    leaves the files as they are, and without a selection nothing happens. *)
Theorem removeFile_spec (selectedFiles : option (list File)) (index : nat) :
  removeFile selectedFiles index
  = (fun files => take index files ++ drop (S index) files) <$> selectedFiles
  ∧ (∀ files, selectedFiles = Some files → (length files ≤ index)%nat →
       removeFile selectedFiles index = Some files)
  ∧ (∀ files, selectedFiles = Some files → (index < length files)%nat →
       ∃ rest, removeFile selectedFiles index = Some rest
               ∧ S (length rest) = length files).
Proof.
  pose proof (removeFile_eq selectedFiles index) as E.
  split; [exact E|]. rewrite E. split.
  - intros files -> Hle. cbn.
    rewrite take_ge by lia. rewrite drop_ge by lia. by rewrite app_nil_r.
  - intros files -> Hlt. cbn.
    exists (take index files ++ drop (S index) files). split; [done|].
    rewrite length_app, length_take, length_drop. lia.
Qed.

Lemma removeFile_spec_witness :
  removeFile (Some Scripted.seven) 7 = Some Scripted.seven
  ∧ ∃ rest, removeFile (Some Scripted.seven) 2 = Some rest
            ∧ S (length rest) = length Scripted.seven.
Proof.
  split.
  - apply (proj1 (proj2 (removeFile_spec (Some Scripted.seven) 7)));
      [reflexivity | cbn; lia].
  - apply (proj2 (proj2 (removeFile_spec (Some Scripted.seven) 2)));
      [reflexivity | cbn; lia].
Defined.

Lemma processFiles_messages_fold (files : list File)
  (acc : list File * list JSString) :
  (fold_left
     (fun acc file =>
        let validation := validateInput.file file in
        if validateInput.valid validation then (acc.1 ++ [file], acc.2)
        else (acc.1,
              acc.2 ++ [name file ++ js ": "
                        ++ default (js "undefined")
                             (validateInput.error validation)]))
     files acc).2
  = acc.2 ++ map refusal (List.filter (fun f => negb (isValidFile f)) files).
Proof.
  revert acc. induction files as [|f files IH]; intros acc; simpl.
  - by rewrite app_nil_r.
  - rewrite IH. unfold isValidFile at 2.
    destruct (validateInput.valid (validateInput.file f)); simpl.
    + reflexivity.
    + by rewrite <- app_assoc.
Qed.

Lemma filter_split_length {A} (p : A → bool) (l : list A) :
  (length (List.filter p l) + length (List.filter (fun x => negb (p x)) l)
   = length l)%nat.
Proof.
  induction l as [|x l IH]; [done|]. cbn. destruct (p x); cbn; lia.
Qed.

(** X6. [processFiles] splits the files the user picked: the files that pass
    [validateInput.file] are kept in their order, every other file gets one
    message, in order, that starts with its name, and no file is both kept
    and reported or neither. *)
Theorem processFiles_splits (files : list File) :
  (PhotoUpload.processFiles files).1 = List.filter isValidFile files
  ∧ (PhotoUpload.processFiles files).2
    = map refusal (List.filter (fun f => negb (isValidFile f)) files)
  ∧ (length (PhotoUpload.processFiles files).1
     + length (PhotoUpload.processFiles files).2 = length files)%nat
  ∧ (∀ file, file ∈ files → isValidFile file = false →
       ∃ reason, reason ≠ [] ∧ name file ++ js ": " ++ reason
                               ∈ (PhotoUpload.processFiles files).2).
Proof.
  assert (E1 : (PhotoUpload.processFiles files).1
               = List.filter isValidFile files)
    by apply processFiles_kept.
  assert (E2 : (PhotoUpload.processFiles files).2
               = map refusal (List.filter (fun f => negb (isValidFile f)) files)).
  { unfold PhotoUpload.processFiles. by rewrite processFiles_messages_fold. }
  split; [exact E1|]. split; [exact E2|]. rewrite E1, E2. split.
  - rewrite length_map. apply filter_split_length.
  - intros file Hin Hv.
    exists (default (js "undefined") (validateInput.error (validateInput.file file))).
    split.
    + unfold isValidFile, validateInput.file in *.
      repeat match goal with
             | |- context [if ?b then _ else _] => destruct b
             end; cbn in *; try discriminate; by vm_compute.
    + apply (list_elem_of_fmap_2 refusal).
      apply list_elem_of_In, filter_In. split; [by apply list_elem_of_In|].
      by rewrite Hv.
Qed.

Lemma processFiles_splits_witness :
  ∃ reason, reason ≠ []
    ∧ name doubleDot ++ js ": " ++ reason
      ∈ (PhotoUpload.processFiles [Scripted.image "a.jpg"; doubleDot]).2.
Proof.
  apply (proj2 (proj2 (proj2
           (processFiles_splits [Scripted.image "a.jpg"; doubleDot])))).
  - apply list_elem_of_In. right. left. reflexivity.
  - vm_compute. reflexivity.
Defined.

Lemma handleFileSelect_valid (files selectedFiles : option (list File)) :
  (∀ fs, selectedFiles = Some fs → Forall (fun f => isValidFile f = true) fs) →
  ∀ fs, handleFileSelect files selectedFiles = Some fs →
        Forall (fun f => isValidFile f = true) fs.
Proof.
  intros Hsel fs. unfold handleFileSelect. destruct files as [files|]; [|auto].
  cbn zeta. rewrite processFiles_kept.
  destruct (0 <? length _)%nat; [|auto]. intros [= <-].
  apply Forall_forall. intros f Hf. apply list_elem_of_In, filter_In in Hf.
  apply Hf.
Qed.

Lemma removeFile_valid (selectedFiles : option (list File)) (index : nat) :
  (∀ fs, selectedFiles = Some fs → Forall (fun f => isValidFile f = true) fs) →
  ∀ fs, removeFile selectedFiles index = Some fs →
        Forall (fun f => isValidFile f = true) fs.
Proof.
  intros Hsel fs. rewrite removeFile_eq.
  destruct selectedFiles as [files|]; [|discriminate]. cbn. intros [= <-].
  specialize (Hsel files eq_refl). apply Forall_app. split.
  - by apply Forall_take.
  - by apply Forall_drop.
Qed.

(** ** [handleUpload] of the batch uploader *)

Lemma digits_head (d : Decimal.uint) :
  d ≠ Decimal.Nil →
  ∃ c rest, digits d = c :: rest ∧ (48 ≤ c ≤ 57)%N.
Proof.
  destruct d; [done|..]; intros _; cbn; eexists _, _; (split; [reflexivity|lia]).
Qed.

Lemma revapp_nonnil (d acc : Decimal.uint) :
  d ≠ Decimal.Nil ∨ acc ≠ Decimal.Nil → Decimal.revapp d acc ≠ Decimal.Nil.
Proof.
  revert acc. induction d; intros acc H; cbn;
    [by destruct H | apply IHd; by right ..].
Qed.

Lemma little_succ_nonnil (d : Decimal.uint) :
  Decimal.Little.succ d ≠ Decimal.Nil.
Proof. destruct d; discriminate. Qed.

Lemma to_little_uint_nonnil (n : nat) (acc : Decimal.uint) :
  acc ≠ Decimal.Nil → Nat.to_little_uint n acc ≠ Decimal.Nil.
Proof.
  revert acc. induction n as [|n IH]; intros acc H; cbn; [done|].
  apply IH, little_succ_nonnil.
Qed.

Lemma ofNat_head (n : nat) :
  ∃ c rest, ofNat n = c :: rest ∧ (48 ≤ c ≤ 57)%N.
Proof.
  apply digits_head. unfold Nat.to_uint, Decimal.rev.
  apply revapp_nonnil. left. by apply to_little_uint_nonnil.
Qed.

(** The text of the summary starts with a digit or a line feed as soon as one
    file was uploaded or reported. *)
Lemma summaryMessage_head (s : PhotoUpload.Summary) :
  (0 < PhotoUpload.completedFiles s + length (PhotoUpload.errors s))%nat →
  ∃ c rest, PhotoUpload.summaryMessage s = c :: rest
            ∧ (c = 10 ∨ 48 ≤ c ≤ 57)%N.
Proof.
  intros Hpos. unfold PhotoUpload.summaryMessage. cbn zeta.
  assert (E : js "" = []) by (vm_compute; reflexivity). rewrite E. clear E.
  destruct (ofNat_head (PhotoUpload.completedFiles s)) as (c & r & Ec & Hc).
  destruct (0 <? PhotoUpload.completedFiles s)%nat eqn:E1.
  - rewrite Ec. cbn [app].
    destruct (0 <? PhotoUpload.skippedFiles s)%nat;
      destruct (PhotoUpload.skippedFiles s <? length (PhotoUpload.errors s))%nat;
      cbn [app]; eexists _, _; (split; [reflexivity|]); by right.
  - destruct (0 <? PhotoUpload.skippedFiles s)%nat eqn:E2.
    + destruct (PhotoUpload.skippedFiles s <? length (PhotoUpload.errors s))%nat;
        cbn [app]; eexists _, _; (split; [reflexivity|]); by left.
    + destruct (PhotoUpload.skippedFiles s <? length (PhotoUpload.errors s))%nat
        eqn:E3.
      * cbn [app]. eexists _, _. split; [reflexivity|]. by left.
      * apply Nat.ltb_ge in E1, E2, E3. lia.
Qed.

Section HandleUploadFacts.
Context {World : Type} {backend : Backend World}.
Variable roomId : JSString.

Lemma batch_handleUpload_run (files : list File) (userName : JSString)
  (w : World) :
  files ≠ [] → validateInput.userName userName = true →
  validateInput.roomId roomId = true →
  let cs := map value (runs (attempt roomId userName) files w) in
  PhotoUpload.handleUpload roomId (Some files) (Some userName) w
  = mkRun
      (joinWith [Delay 1000]
         (map (postEvents roomId userName) (subBatches 5 files))
       ++ [SetSelectedFiles None; OnUploadSuccess;
           Alert (PhotoUpload.summaryMessage (summaryOf files cs))])
      (worldAfter (attempt roomId userName) files w)
      (Return tt).
Proof.
  intros Hne Hu Hr cs. unfold PhotoUpload.handleUpload.
  destruct files as [|f files']; [done|].
  assert (Ht : opt_or_else (Some userName) (js "") = userName).
  { cbn. unfold or_else. destruct userName; [discriminate Hu | reflexivity]. }
  rewrite Ht, Hu, Hr.
  assert (Htr : truthy userName = true)
    by (destruct userName; [discriminate Hu | reflexivity]).
  rewrite Htr. cbn [negb]. unfold try_catch.
  erewrite bind_of_run by apply uploadFilesInBatches_run.
  unfold bind, emit. cbn [trace world value]. fold cs.
  fold (summaryOf (f :: files') cs).
  assert (Hpos : (0 < PhotoUpload.completedFiles (summaryOf (f :: files') cs)
                      + length (PhotoUpload.errors (summaryOf (f :: files') cs)))%nat).
  { cbn [summaryOf PhotoUpload.completedFiles PhotoUpload.errors].
    assert (Hlen : length (f :: files') = length cs)
      by (subst cs; by rewrite length_map, runs_length).
    pose proof (messagesOf_length (f :: files') cs Hlen) as Hm.
    pose proof (count_total cs) as Htot. cbn [length] in Hlen. lia. }
  destruct (summaryMessage_head _ Hpos) as (c & rest & -> & _).
  cbn [or_else truthy]. by rewrite ?app_nil_r.
Qed.

Lemma postEvents_uploads (userName : JSString) (batches : list (list File)) :
  List.filter isUploadRequest
    (joinWith [Delay 1000] (map (postEvents roomId userName) batches))
  = map (fun file => PostUpload roomId file (sanitizeInput userName))
      (List.filter (sendable roomId userName) (concat batches)).
Proof.
  induction batches as [|b batches IH]; [reflexivity|].
  cbn [map concat]. rewrite joinWith_cons, !List.filter_app, map_app.
  assert (Hb : List.filter isUploadRequest (postEvents roomId userName b)
               = map (fun file => PostUpload roomId file (sanitizeInput userName))
                   (List.filter (sendable roomId userName) b)).
  { unfold postEvents. rewrite List.filter_app. cbn. rewrite app_nil_r.
    induction (List.filter (sendable roomId userName) b) as [|x l IHl];
      [reflexivity|]. cbn. by rewrite IHl. }
  rewrite Hb. f_equal.
  destruct (decide (map (postEvents roomId userName) batches = [])) as [E|E].
  - destruct batches; [reflexivity | discriminate E].
  - rewrite List.filter_app. cbn. exact IH.
Qed.

(** X7. [handleUpload] makes a request only with at least one selected file,
    a valid stored user name and a valid room id: without a selection nothing
    happens at all, and with a missing, empty or invalid name, or an invalid
    room id, the user gets one alert and nothing is sent or changed. *)
Theorem handleUpload_guards (stored : option JSString) (w : World) :
  PhotoUpload.handleUpload roomId None stored w = mkRun [] w (Return tt)
  ∧ PhotoUpload.handleUpload roomId (Some []) stored w = mkRun [] w (Return tt)
  ∧ (∀ files : list File,
       files ≠ [] →
       validateInput.userName (opt_or_else stored (js ""))
       && validateInput.roomId roomId = false →
       ∃ msg, PhotoUpload.handleUpload roomId (Some files) stored w
              = mkRun [Alert msg] w (Return tt)).
Proof.
  split; [reflexivity|]. split; [reflexivity|].
  intros files Hne H. destruct files as [|f files]; [done|].
  unfold PhotoUpload.handleUpload.
  destruct (truthy (opt_or_else stored (js ""))); cbn [negb];
    [|eexists; reflexivity].
  destruct (validateInput.userName (opt_or_else stored (js ""))); cbn [negb];
    [|eexists; reflexivity].
  cbn [andb] in H. rewrite H. eexists; reflexivity.
Qed.

(** X8. The selection only ever holds files that pass [validateInput.file],
    whatever files the user picks, drops or removes; so once the stored name
    and the room id are valid, [handleUpload] posts every selected file, once
    and in the order of the selection, with the user name as it is stored. *)
Theorem selection_is_uploaded (steps : list SelectionStep) (files : list File)
  (userName : JSString) (w : World) :
  selectionAfter steps = Some files → files ≠ [] →
  validateInput.userName userName = true →
  validateInput.roomId roomId = true →
  Forall (fun f => isValidFile f = true) files
  ∧ List.filter isUploadRequest
      (trace (PhotoUpload.handleUpload roomId (Some files) (Some userName) w))
    = map (fun file => PostUpload roomId file userName) files.
Proof.
  intros Hsel Hne Hu Hr.
  assert (Hv : Forall (fun f => isValidFile f = true) files).
  { unfold selectionAfter in Hsel.
    assert (Hinv : ∀ (steps : list SelectionStep) (sel : option (list File)),
               (∀ fs, sel = Some fs → Forall (fun f => isValidFile f = true) fs) →
               ∀ fs, fold_left selectionStep steps sel = Some fs →
                     Forall (fun f => isValidFile f = true) fs).
    { clear. induction steps as [|step steps IH]; intros sel Hs fs; cbn.
      - apply Hs.
      - apply IH. destruct step; cbn.
        + by apply handleFileSelect_valid.
        + by apply handleFileSelect_valid.
        + by apply removeFile_valid. }
    eapply Hinv; [|exact Hsel]. discriminate. }
  split; [exact Hv|].
  rewrite batch_handleUpload_run by done. cbn [trace].
  rewrite List.filter_app. cbn [List.filter isUploadRequest].
  rewrite app_nil_r, postEvents_uploads, subBatches_concat.
  rewrite sanitizeInput_userName by done. f_equal.
  clear Hsel Hne. induction Hv as [|f fs Hf Hfs IH]; [reflexivity|].
  cbn. unfold sendable at 1. rewrite Hr, Hu. unfold isValidFile in Hf.
  rewrite Hf. cbn. f_equal. apply IH.
Qed.

(** X9. When [handleUpload] gets as far as uploading, it never fails: it
    clears the selection, calls [onUploadSuccess] and shows the summary text
    whatever the outcomes of the files, also when every upload was refused.
    The alternative text for an empty summary and the alert of the [catch]
    block are never shown. *)
Theorem handleUpload_never_fails (files : list File) (userName : JSString)
  (w : World) :
  files ≠ [] → validateInput.userName userName = true →
  validateInput.roomId roomId = true →
  let run := PhotoUpload.handleUpload roomId (Some files) (Some userName) w in
  value run = Return tt
  ∧ (∃ requests msg,
       trace run = requests ++ [SetSelectedFiles None; OnUploadSuccess; Alert msg]
       ∧ List.filter isAlert requests = []
       ∧ msg ≠ []
       ∧ msg ≠ js "업로드할 새로운 사진이 없습니다."
       ∧ msg ≠ js "사진 업로드 중 오류가 발생했습니다.").
Proof.
  intros Hne Hu Hr run. subst run.
  rewrite batch_handleUpload_run by done. cbn [trace value].
  split; [reflexivity|]. eexists _, _. split; [reflexivity|]. split.
  - apply joinWith_filter_nil; [reflexivity|].
    apply Forall_forall. intros l Hl.
    apply list_elem_of_fmap in Hl as (b & -> & _).
    unfold postEvents. rewrite List.filter_app. cbn. rewrite app_nil_r.
    induction (List.filter (sendable roomId userName) b) as [|x l' IH];
      [reflexivity|]. cbn. exact IH.
  - set (cs := map value (runs (attempt roomId userName) files w)).
    assert (Hpos : (0 < PhotoUpload.completedFiles (summaryOf files cs)
                        + length (PhotoUpload.errors (summaryOf files cs)))%nat).
    { cbn [summaryOf PhotoUpload.completedFiles PhotoUpload.errors].
      assert (Hlen : length files = length cs)
        by (subst cs; by rewrite length_map, runs_length).
      pose proof (messagesOf_length files cs Hlen) as Hm.
      pose proof (count_total cs) as Htot.
      destruct files; [done|]. cbn [length] in Hlen. lia. }
    destruct (summaryMessage_head _ Hpos) as (c & rest & -> & Hc).
    split; [discriminate|].
    assert (H1 : head (js "업로드할 새로운 사진이 없습니다.") = Some 0xC5C5%N)
      by (vm_compute; reflexivity).
    assert (H2 : head (js "사진 업로드 중 오류가 발생했습니다.") = Some 0xC0AC%N)
      by (vm_compute; reflexivity).
    split; intros E; [rewrite <- E in H1 | rewrite <- E in H2];
      cbn in *; [injection H1 as -> | injection H2 as ->]; lia.
Qed.

End HandleUploadFacts.

Lemma handleUpload_guards_witness :
  ∃ msg, PhotoUpload.handleUpload Scripted.room (Some Scripted.seven)
           (Some (js "a b")) (Scripted.start [])
         = mkRun [Alert msg] (Scripted.start []) (Return tt).
Proof.
  apply (proj2 (proj2 (handleUpload_guards Scripted.room (Some (js "a b"))
                         (Scripted.start [])))).
  - discriminate.
  - vm_compute. reflexivity.
Defined.

Lemma selection_is_uploaded_witness :
  List.filter isUploadRequest
    (trace (PhotoUpload.handleUpload Scripted.room
              (Some [Scripted.image "a.jpg"; Scripted.image "c.jpg"])
              (Some Scripted.user) (Scripted.start [])))
  = map (fun file => PostUpload Scripted.room file Scripted.user)
      [Scripted.image "a.jpg"; Scripted.image "c.jpg"].
Proof.
  apply (selection_is_uploaded Scripted.room
           [FileSelect (Some [Scripted.image "a.jpg"; doubleDot;
                              Scripted.image "b.jpg"; Scripted.image "c.jpg"]);
            RemoveFile 1]
           [Scripted.image "a.jpg"; Scripted.image "c.jpg"]
           Scripted.user (Scripted.start [])).
  - vm_compute. reflexivity.
  - discriminate.
  - vm_compute. reflexivity.
  - vm_compute. reflexivity.
Defined.

Lemma handleUpload_never_fails_witness :
  value (PhotoUpload.handleUpload Scripted.room (Some Scripted.seven)
           (Some Scripted.user)
           (Scripted.start (replicate 7 (Some Scripted.serverError))))
  = Return tt.
Proof.
  apply (handleUpload_never_fails Scripted.room Scripted.seven Scripted.user
           (Scripted.start (replicate 7 (Some Scripted.serverError)))).
  - discriminate.
  - vm_compute. reflexivity.
  - vm_compute. reflexivity.
Defined.

(** ** The uploader with bookkeeping: failures of the bookkeeping itself *)

(** A loop that throws stops at the first element whose call throws: the
    elements before it were processed, and the trace ends with that call. *)
Lemma forEach_throws {World A B : Type} (f : A → Async World Event B)
  (l : list A) (w : World) (e : JSError) :
  value (forEach f l w) = Throw e →
  ∃ k x,
    l !! k = Some x
    ∧ isReturn (value (forEach f (take k l) w)) = true
    ∧ value (f x (world (forEach f (take k l) w))) = Throw e
    ∧ trace (forEach f l w)
      = trace (forEach f (take k l) w)
        ++ trace (f x (world (forEach f (take k l) w))).
Proof.
  revert w. induction l as [|x l IH]; intros w; [discriminate|].
  cbn [forEach]. unfold bind at 1. cbn zeta.
  destruct (value (f x w)) as [y|e'] eqn:Hx.
  - cbn [value trace]. unfold bind at 1. cbn zeta.
    destruct (value (forEach f l (world (f x w)))) as [ys|e'] eqn:Hl;
      [discriminate|].
    cbn [value]. intros [= ->]. destruct (IH _ Hl) as (k & x' & Hk & Hr & He & Ht).
    exists (S k), x'. cbn [take forEach lookup list_lookup].
    destruct (value (forEach f (take k l) (world (f x w)))) as [zs|] eqn:Hz;
      [|discriminate Hr].
    unfold bind. cbn zeta. rewrite Hx. cbn [value world trace].
    rewrite Hl, Hz. cbn [value world trace]. rewrite app_nil_r.
    split; [exact Hk|]. split; [reflexivity|]. split; [exact He|].
    by rewrite Ht, app_assoc.
  - cbn [value]. intros [= ->]. exists 0%nat, x.
    cbn [take forEach lookup list_lookup]. unfold ret, bind.
    cbn [value world trace app]. rewrite Hx. by cbn.
Qed.

Lemma forEach_value_cons {World A B : Type} (f : A → Async World Event B)
  (x : A) (l : list A) (w : World) :
  isReturn (value (forEach f (x :: l) w)) = true →
  isReturn (value (f x w)) = true
  ∧ isReturn (value (forEach f l (world (f x w)))) = true.
Proof.
  cbn [forEach]. unfold bind at 1. cbn zeta.
  destruct (value (f x w)) as [y|e']; [|discriminate].
  cbn [value]. unfold bind at 1. cbn zeta.
  by destruct (value (forEach f l (world (f x w)))).
Qed.

Lemma forEach_trace_returned {World A B : Type} (f : A → Async World Event B)
  (g : A → Event) (l : list A) (w : World) :
  (∀ x w', trace (f x w') = [g x]) →
  isReturn (value (forEach f l w)) = true →
  trace (forEach f l w) = map g l.
Proof.
  intros Hf. revert w. induction l as [|x l IH]; intros w Hr; [reflexivity|].
  apply forEach_value_cons in Hr as [Hx Hl].
  cbn [forEach]. rewrite bind_trace, Hf.
  destruct (value (f x w)) as [y|e']; [|discriminate Hx].
  rewrite bind_trace, (IH _ Hl).
  destruct (value (forEach f l (world (f x w)))); [|discriminate Hl].
  cbn. by rewrite app_nil_r.
Qed.

Section BookkeepingFacts.
Context {World : Type} {backend : Backend World}.
Variable roomId : JSString.
Variable userName : JSString.

Lemma batchEvents_filter_nil (P : Event → bool)
  (batch : list (File * UploadLog)) :
  (∀ f l, P (UploadPhotoWithLogging roomId f userName l) = false) →
  (∀ n, P (AllSettled n) = false) →
  List.filter P (batchEvents roomId userName batch) = [].
Proof.
  intros Hu Ha. unfold batchEvents. rewrite List.filter_app. cbn.
  rewrite Ha, app_nil_r. induction batch as [|entry batch IH]; [reflexivity|].
  cbn. by rewrite Hu.
Qed.

Lemma loop_filter_nil (P : Event → bool) (batches : list (list (File * UploadLog))) :
  (∀ f l, P (UploadPhotoWithLogging roomId f userName l) = false) →
  (∀ n, P (AllSettled n) = false) → (∀ ms, P (Delay ms) = false) →
  List.filter P
    (joinWith [Delay 4000] (map (batchEvents roomId userName) batches)) = [].
Proof.
  intros Hu Ha Hd. apply joinWith_filter_nil; [cbn; by rewrite Hd|].
  apply Forall_forall. intros l Hl. apply list_elem_of_fmap in Hl as (b & -> & _).
  by apply batchEvents_filter_nil.
Qed.

Lemma createLogs_filter_nil (P : Event → bool) (session : UploadSession)
  (files : list File) (w : World) :
  (∀ c, P (CreateLog c) = false) →
  List.filter P
    (trace (PhotoUploadLogging.createLogs roomId session userName files w)) = [].
Proof.
  intros Hc. apply forEach_filter_nil. intros file w'.
  rewrite bind_trace. cbn. by rewrite Hc.
Qed.

(** The uploader itself shows nothing and leaves the selection alone. *)
Lemma uploadFilesWithLogging_quiet (files : list File) (w : World) :
  List.filter isOutcome
    (trace (PhotoUploadLogging.uploadFilesWithLogging roomId files userName w))
  = [].
Proof.
  pose proof (uploadFilesWithLogging_run roomId userName files w) as Hrun.
  cbn zeta in Hrun.
  destruct (createSession _ w).1 as [session|e]; [|by rewrite Hrun].
  destruct (value (PhotoUploadLogging.createLogs roomId session userName files _))
    as [logs|e].
  2:{ rewrite Hrun. cbn [trace List.filter isOutcome].
      by apply createLogs_filter_nil. }
  destruct (updateSession _ _ _).1; rewrite Hrun;
    cbn [trace List.filter isOutcome];
    rewrite List.filter_app, createLogs_filter_nil by done;
    cbn [app List.filter isOutcome];
    rewrite List.filter_app, loop_filter_nil by done; reflexivity.
Qed.

(** X10. When the session or one of the logs cannot be created,
    [uploadFilesWithLogging] submits no file and sends no session update. It
    stops at the first request that fails, the creation of the session or of
    the log of some file after the logs of the files before it, and throws an
    error whose message is the prefix ['업로드 세션 생성 실패: '] followed by the
    message of the error that this request threw. *)
Theorem bookkeeping_failure_uploads_nothing (files : list File) (w : World) :
  let c := {| sc_room_id := roomId; sc_user_name := userName;
              sc_total_files := length files |} in
  let run := PhotoUploadLogging.uploadFilesWithLogging roomId files userName w in
  let request := fun (session : UploadSession) (file : File) =>
    {| lc_session_id := session_id_ session; lc_room_id := roomId;
       lc_original_filename := name file; lc_file_size := size file;
       lc_mime_type := type file; lc_uploader_name := userName |} in
  (∀ session, (createSession c w).1 = Return session →
     isThrow (value (PhotoUploadLogging.createLogs roomId session userName
                       files (createSession c w).2)) = true) →
  List.filter isUploadRequest (trace run) = []
  ∧ List.filter isUpdateSession (trace run) = []
  ∧ ∃ e,
      value run = Throw (Error (js "업로드 세션 생성 실패: " ++ message e))
      ∧ ((createSession c w).1 = Throw e ∧ trace run = [CreateSession c]
         ∨ ∃ session k file,
             let before :=
               PhotoUploadLogging.createLogs roomId session userName
                 (take k files) (createSession c w).2 in
             (createSession c w).1 = Return session
             ∧ files !! k = Some file
             ∧ isReturn (value before) = true
             ∧ (createLog (request session file) (world before)).1 = Throw e
             ∧ trace run
               = CreateSession c :: SetUploadSession session
                 :: map (fun file => CreateLog (request session file))
                      (take (S k) files)).
Proof.
  intros c run request H. subst run.
  pose proof (uploadFilesWithLogging_run roomId userName files w) as Hrun.
  cbn zeta in Hrun. fold c in Hrun.
  destruct (createSession c w).1 as [session|e] eqn:Hsession.
  - specialize (H session eq_refl).
    destruct (value (PhotoUploadLogging.createLogs roomId session userName
                       files _)) as [logs|e] eqn:Hlogs; [discriminate H|].
    rewrite Hrun. cbn [trace value List.filter isUploadRequest isUpdateSession].
    rewrite createLogs_no_upload, createLogs_no_update.
    split; [reflexivity|]. split; [reflexivity|].
    exists e. split; [reflexivity|]. right.
    unfold PhotoUploadLogging.createLogs in Hlogs |- *.
    apply forEach_throws in Hlogs as (k & file & Hk & Hr & He & Ht).
    exists session, k, file. cbn zeta.
    split; [reflexivity|]. split; [exact Hk|]. split; [exact Hr|].
    split; [exact He|].
    rewrite Ht. f_equal. f_equal.
    rewrite (forEach_trace_returned _
               (fun file => CreateLog (request session file))) by done.
    rewrite (take_S_r _ _ _ Hk), map_app. reflexivity.
  - rewrite Hrun. cbn [trace value List.filter isUploadRequest
                       isUpdateSession].
    split; [reflexivity|]. split; [reflexivity|].
    exists e. split; [reflexivity|]. by left.
Qed.

(** X11. When [uploadFilesWithLogging] throws although it has sent the final
    session update, every file has already been submitted, once. The error
    still carries the message of a failed session creation, and
    [handleUpload] shows it, keeps the selection, sets no result and does not
    call [onUploadSuccess], whether or not the files were accepted. *)
Theorem refused_update_after_uploads (files : list File) (w : World)
  (sid : JSString) (u : UploadSessionUpdate) (err : JSError) :
  let upload :=
    PhotoUploadLogging.uploadFilesWithLogging roomId files userName w in
  let run :=
    PhotoUploadLogging.handleUpload roomId (Some files) (Some userName) w in
  files ≠ [] → truthy userName = true →
  UpdateSession sid u ∈ trace upload → value upload = Throw err →
  (∃ logs, length logs = length files
           ∧ List.filter isUploadRequest (trace run)
             = map (fun entry => UploadPhotoWithLogging roomId entry.1 userName
                                   (log_id entry.2)) (zip files logs))
  ∧ (∃ e, err = Error (js "업로드 세션 생성 실패: " ++ message e))
  ∧ List.filter isOutcome (trace run)
    = [Alert (js "업로드 실패: " ++ message err)]
  ∧ (∀ result, SetUploadResult (Some result) ∉ trace run)
  ∧ value run = Return tt.
Proof.
  intros upload run Hne Ht Hin Hv. subst run.
  assert (Hf : UpdateSession sid u
               ∈ List.filter isUpdateSession (trace upload)).
  { apply list_elem_of_In, filter_In. split; [by apply list_elem_of_In|done]. }
  clear Hin.
  pose proof (uploadFilesWithLogging_run roomId userName files w) as Hrun.
  cbn zeta in Hrun. fold upload in Hrun.
  set (c := {| sc_room_id := roomId |}) in *.
  destruct (createSession c w).1 as [session|e0].
  2:{ rewrite Hrun in Hf. cbn in Hf. by apply elem_of_nil in Hf. }
  destruct (value (PhotoUploadLogging.createLogs roomId session userName files _))
    as [logs|e0] eqn:Hl.
  2:{ rewrite Hrun in Hf. cbn [trace List.filter isUpdateSession] in Hf.
      rewrite createLogs_no_update in Hf. by apply elem_of_nil in Hf. }
  destruct (updateSession _ _ _).1 as [[]|e] eqn:Hu.
  { rewrite Hrun in Hv. discriminate Hv. }
  clear Hf. rewrite Hrun in Hv. cbn [value] in Hv. injection Hv as <-.
  unfold PhotoUploadLogging.handleUpload.
  destruct files as [|f files']; [done|].
  assert (Hn : opt_or_else (Some userName) (js "") = userName).
  { cbn. unfold or_else. by rewrite Ht. }
  rewrite Hn, Ht. cbn [negb].
  unfold try_catch, bind, emit. cbn [trace world value]. fold upload.
  rewrite Hrun. cbn [trace world value app].
  pose proof (createLogs_length roomId userName session (f :: files') _ logs Hl)
    as Hlen.
  split; [|split; [|split; [|split]]].
  - exists logs. split; [exact Hlen|].
    cbn [List.filter isUploadRequest]. rewrite !List.filter_app.
    rewrite createLogs_no_upload. cbn [app List.filter isUploadRequest].
    rewrite !List.filter_app.
    rewrite (loop_uploads roomId userName (length (zip (f :: files') logs)))
      by lia.
    cbn. by rewrite !app_nil_r.
  - by exists e.
  - cbn [List.filter isOutcome]. rewrite !List.filter_app.
    rewrite createLogs_filter_nil by done. cbn [app List.filter isOutcome].
    rewrite !List.filter_app, loop_filter_nil by done. reflexivity.
  - intros result Hin.
    match type of Hin with
    | _ ∈ ?t => assert (Hf : List.filter showsResult t = [])
    end.
    { cbn [List.filter app showsResult]. rewrite !List.filter_app.
      rewrite createLogs_filter_nil by done.
      cbn [app List.filter showsResult].
      rewrite !List.filter_app, loop_filter_nil by done. reflexivity. }
    by pose proof (elem_of_filter_nil _ _ _ Hf Hin).
  - reflexivity.
Qed.

(** X12. [handleUpload] of the uploader with bookkeeping never throws and
    shows exactly one alert. It clears the selection and calls
    [onUploadSuccess] exactly when [uploadFilesWithLogging] returned a result
    without failed uploads; in every other case the selection is kept. *)
Theorem logging_handleUpload_outcome (files : list File) (w : World) :
  let run :=
    PhotoUploadLogging.handleUpload roomId (Some files) (Some userName) w in
  let upload :=
    PhotoUploadLogging.uploadFilesWithLogging roomId files userName w in
  files ≠ [] → truthy userName = true →
  value run = Return tt
  ∧ length (List.filter isAlert (trace run)) = 1%nat
  ∧ (OnUploadSuccess ∈ trace run
     ↔ ∃ result, value upload = Return result
                 ∧ failed_uploads result = 0%nat)
  ∧ (SetSelectedFiles None ∈ trace run ↔ OnUploadSuccess ∈ trace run)
  ∧ (∀ fs, SetSelectedFiles fs ∈ trace run → fs = None).
Proof.
  intros run upload Hne Ht. subst run.
  unfold PhotoUploadLogging.handleUpload.
  destruct files as [|f files']; [done|].
  assert (Hn : opt_or_else (Some userName) (js "") = userName).
  { cbn. unfold or_else. by rewrite Ht. }
  rewrite Hn, Ht. cbn [negb].
  pose proof (uploadFilesWithLogging_quiet (f :: files') w) as Hq.
  fold upload in Hq.
  assert (Hquiet : ∀ ev, ev ∈ trace upload → isOutcome ev = false)
    by (intros ev; by apply elem_of_filter_nil).
  assert (Hal : List.filter isAlert (trace upload) = []).
  { clear -Hq. induction (trace upload) as [|ev t IH]; [reflexivity|].
    cbn in Hq |- *. destruct ev; cbn in Hq |- *; try discriminate Hq;
      by apply IH. }
  unfold try_catch, bind, emit. cbn [trace world value]. fold upload.
  destruct (value upload) as [result|e] eqn:Ev; cbn [trace world value app].
  - destruct (failed_uploads result =? 0)%nat eqn:Ef;
      cbn [trace world value app].
    + apply Nat.eqb_eq in Ef. split; [reflexivity|]. split.
      { cbn [List.filter isAlert]. rewrite List.filter_app, Hal. reflexivity. }
      split; [|split].
      * split; [eauto|]. intros _. apply elem_of_cons. right.
        apply elem_of_app. right. set_solver.
      * split; intros _; apply elem_of_cons; right; apply elem_of_app; right;
          set_solver.
      * intros fs Hin. apply elem_of_cons in Hin as [Hin|Hin]; [discriminate|].
        apply elem_of_app in Hin as [Hin|Hin].
        -- by apply Hquiet in Hin.
        -- set_solver.
    + apply Nat.eqb_neq in Ef. split; [reflexivity|]. split.
      { cbn [List.filter isAlert]. rewrite List.filter_app, Hal. reflexivity. }
      assert (Hno : ∀ ev, isOutcome ev = true → isAlert ev = false →
                ev ∉ SetUploadResult None
                     :: trace upload ++ [Alert (js "⚠️ 업로드 완료: 성공 "
                          ++ ofNat (successful_uploads result) ++ js "개, 실패 "
                          ++ ofNat (failed_uploads result) ++ js "개" ++ [10%N]
                          ++ js "실패한 파일들은 재시도할 수 있습니다.")]).
      { intros ev Ho Ha Hin.
        apply elem_of_cons in Hin as [->|Hin]; [discriminate Ho|].
        apply elem_of_app in Hin as [Hin|Hin].
        - apply Hquiet in Hin. congruence.
        - apply list_elem_of_singleton in Hin as ->. discriminate Ha. }
      split; [|split].
      * split; [intros Hin; by apply Hno in Hin|].
        intros (r & [= <-] & Hz). done.
      * split; intros Hin; by apply Hno in Hin.
      * intros fs Hin. by apply Hno in Hin.
  - split; [reflexivity|]. split.
    { cbn [List.filter isAlert]. rewrite List.filter_app, Hal. reflexivity. }
    assert (Hno : ∀ ev, isOutcome ev = true → isAlert ev = false →
              ev ∉ SetUploadResult None
                   :: trace upload ++ [Alert (js "업로드 실패: " ++ message e)]).
    { intros ev Ho Ha Hin.
      apply elem_of_cons in Hin as [->|Hin]; [discriminate Ho|].
      apply elem_of_app in Hin as [Hin|Hin].
      - apply Hquiet in Hin. congruence.
      - apply list_elem_of_singleton in Hin as ->. discriminate Ha. }
    split; [|split].
    + split; [intros Hin; by apply Hno in Hin|].
      intros (r & [=] & _).
    + split; intros Hin; by apply Hno in Hin.
    + intros fs Hin. by apply Hno in Hin.
Qed.

End BookkeepingFacts.

(** Two files on a server that refuses the second log: the first log stays
    behind, nothing is uploaded. *)
Lemma bookkeeping_failure_uploads_nothing_witness :
  List.filter isUploadRequest
    (trace (PhotoUploadLogging.uploadFilesWithLogging Scripted.room
              [Scripted.image "a.jpg"; Scripted.image "b.jpg"] Scripted.user
              Flaky.secondLogRefused)) = []
  ∧ List.filter isUpdateSession
      (trace (PhotoUploadLogging.uploadFilesWithLogging Scripted.room
                [Scripted.image "a.jpg"; Scripted.image "b.jpg"] Scripted.user
                Flaky.secondLogRefused)) = [].
Proof.
  destruct (bookkeeping_failure_uploads_nothing Scripted.room Scripted.user
              [Scripted.image "a.jpg"; Scripted.image "b.jpg"]
              Flaky.secondLogRefused) as (H1 & H2 & _).
  - intros session H. injection H as <-. vm_compute. reflexivity.
  - split; assumption.
Defined.

(** In that run the error met is the network error of the second log. *)
Example second_log_refused :
  PhotoUploadLogging.uploadFilesWithLogging Scripted.room
    [Scripted.image "a.jpg"; Scripted.image "b.jpg"] Scripted.user
    Flaky.secondLogRefused
  = let c := {| sc_room_id := Scripted.room; sc_user_name := Scripted.user;
                sc_total_files := 2 |} in
    let request := fun file : File =>
      {| lc_session_id := js "session"; lc_room_id := Scripted.room;
         lc_original_filename := name file; lc_file_size := size file;
         lc_mime_type := type file; lc_uploader_name := Scripted.user |} in
    mkRun [CreateSession c; SetUploadSession (Scripted.sessionOf c);
           CreateLog (request (Scripted.image "a.jpg"));
           CreateLog (request (Scripted.image "b.jpg"))]
      {| Flaky.sessionError := None; Flaky.logsLeft := Some 0%nat;
         Flaky.updateError := None; Flaky.script := []; Flaky.created := 1 |}
      (Throw (Error (js "업로드 세션 생성 실패: "
                     ++ message Flaky.networkError))).
Proof. vm_compute. reflexivity. Qed.

Lemma refused_update_after_uploads_witness :
  List.filter isOutcome
    (trace (PhotoUploadLogging.handleUpload Scripted.room
              (Some [Scripted.image "a.jpg"; Scripted.image "b.jpg"])
              (Some Scripted.user) Flaky.updateRefused))
  = [Alert (js "업로드 실패: "
            ++ message (Error (js "업로드 세션 생성 실패: "
                               ++ message Flaky.networkError)))].
Proof.
  apply (refused_update_after_uploads Scripted.room Scripted.user
           [Scripted.image "a.jpg"; Scripted.image "b.jpg"]
           Flaky.updateRefused (js "session")
           {| su_completed_files := 2; su_failed_files := 0;
              su_status := completed |}
           (Error (js "업로드 세션 생성 실패: " ++ message Flaky.networkError))).
  - discriminate.
  - reflexivity.
  - vm_compute. apply list_elem_of_In.
    repeat (first [left; reflexivity | right]).
  - vm_compute. reflexivity.
Defined.

Lemma logging_handleUpload_outcome_witness :
  value (PhotoUploadLogging.handleUpload Scripted.room (Some Scripted.seven)
           (Some Scripted.user)
           (Scripted.start [None; Some Scripted.serverError]))
  = Return tt.
Proof.
  apply (logging_handleUpload_outcome Scripted.room Scripted.user
           Scripted.seven (Scripted.start [None; Some Scripted.serverError])).
  - discriminate.
  - reflexivity.
Defined.

(** ** Laws of the runs, for any kind of event *)

Lemma bind_emit_run {World Ev B : Type} (ev : Ev)
  (f : unit → Async World Ev B) (w : World) :
  bind (emit ev) f w
  = mkRun (ev :: trace (f tt w)) (world (f tt w)) (value (f tt w)).
Proof. reflexivity. Qed.

Lemma bind_respond_return {World Ev A B : Type}
  (req : World → Completion A * World) (f : A → Async World Ev B)
  (w : World) (a : A) :
  (req w).1 = Return a → bind (respond req) f w = f a (req w).2.
Proof.
  intros H. unfold bind, respond. cbn [value world trace]. rewrite H.
  cbn [app]. by destruct (f a (req w).2).
Qed.

Lemma bind_respond_throw {World Ev A B : Type}
  (req : World → Completion A * World) (f : A → Async World Ev B)
  (w : World) (e : JSError) :
  (req w).1 = Throw e → bind (respond req) f w = mkRun [] (req w).2 (Throw e).
Proof.
  intros H. unfold bind, respond. cbn [value world trace]. by rewrite H.
Qed.

Lemma bind_of_run' {World Ev A B : Type} (m : Async World Ev A)
  (f : A → Async World Ev B) (w w' : World) (t : list Ev) (a : A) :
  m w = mkRun t w' (Return a) →
  bind m f w = mkRun (t ++ trace (f a w')) (world (f a w')) (value (f a w')).
Proof. intros H. unfold bind. rewrite H. reflexivity. Qed.

Lemma bind_of_throw' {World Ev A B : Type} (m : Async World Ev A)
  (f : A → Async World Ev B) (w w' : World) (t : list Ev) (e : JSError) :
  m w = mkRun t w' (Throw e) → bind m f w = mkRun t w' (Throw e).
Proof. intros H. unfold bind. rewrite H. reflexivity. Qed.

Lemma run_eta' {World Ev A : Type} (r : Run World Ev A) :
  r = mkRun (trace r) (world r) (value r).
Proof. by destruct r. Qed.

Lemma try_catch_of_return {World Ev A : Type} (m : Async World Ev A)
  (h : JSError → Async World Ev A) (w w' : World) (t : list Ev) (a : A) :
  m w = mkRun t w' (Return a) → try_catch m h w = mkRun t w' (Return a).
Proof. intros H. unfold try_catch. by rewrite H. Qed.

Lemma try_catch_of_throw {World Ev A : Type} (m : Async World Ev A)
  (h : JSError → Async World Ev A) (w w' : World) (t : list Ev) (e : JSError) :
  m w = mkRun t w' (Throw e) →
  try_catch m h w
  = mkRun (t ++ trace (h e w')) (world (h e w')) (value (h e w')).
Proof. intros H. unfold try_catch. by rewrite H. Qed.

(** ** The result of the uploader with bookkeeping and the retry button *)

Lemma failedOf_length (entries : list (File * UploadLog))
  (cs : list (Completion Photo)) :
  length entries = length cs → length (failedOf entries cs) = countThrown cs.
Proof.
  unfold failedOf, countThrown. rewrite length_map.
  revert cs. induction entries as [|entry entries IH]; intros [|c cs] Hlen;
    try discriminate Hlen; [reflexivity|].
  cbn. destruct c; cbn; rewrite IH by (cbn in Hlen; lia); reflexivity.
Qed.

Lemma retryCounts_spec (pendingLogs : list UploadLog) :
  PhotoUploadLogging.retryCounts pendingLogs = (length pendingLogs, 0%nat).
Proof.
  unfold PhotoUploadLogging.retryCounts.
  assert (H : ∀ acc : nat * nat,
            fold_left (fun acc (_ : UploadLog) => ((acc.1 + 1)%nat, acc.2))
              pendingLogs acc
            = ((acc.1 + length pendingLogs)%nat, acc.2)).
  { induction pendingLogs as [|l ls IH]; intros [a b]; cbn.
    - by rewrite Nat.add_0_r.
    - rewrite IH. cbn. f_equal. lia. }
  by rewrite H.
Qed.

Section ResultFacts.
Context {World : Type} {backend : Backend World}.
Variable roomId : JSString.
Variable userName : JSString.

(** X13. A result returned by [uploadFilesWithLogging] accounts for every
    file: the successful and failed uploads add up to the number of files,
    which is its [total_files], and [failed_files] holds one log per failed
    upload. [retryFailedUploads] on this result does nothing at all when no
    upload failed, and otherwise starts with the retry request for the ids of
    exactly these logs. *)
Theorem result_accounts_for_files (files : list File) (w : World)
  (result : UploadResult) :
  value (PhotoUploadLogging.uploadFilesWithLogging roomId files userName w)
  = Return result →
  result_total_files result = length files
  ∧ (successful_uploads result + failed_uploads result)%nat = length files
  ∧ length (failed_files result) = failed_uploads result
  ∧ ∀ (uploadSession : option UploadSession) (stored : option JSString)
      (w' : World),
      let retry :=
        PhotoUploadLogging.retryFailedUploads (Some result) uploadSession
          stored w' in
      (failed_uploads result = 0%nat → retry = mkRun [] w' (Return tt))
      ∧ (failed_uploads result ≠ 0%nat →
         ∃ rest, trace retry
                 = RetryFailedUploads (map log_id (failed_files result)) :: rest
                 ∧ length (map log_id (failed_files result))
                   = failed_uploads result).
Proof.
  intros Hv.
  pose proof (uploadFilesWithLogging_run roomId userName files w) as Hrun.
  cbn zeta in Hrun.
  destruct (createSession _ w).1 as [session|e];
    [|rewrite Hrun in Hv; discriminate Hv].
  destruct (value (PhotoUploadLogging.createLogs roomId session userName files _))
    as [logs|e] eqn:Hl; [|rewrite Hrun in Hv; discriminate Hv].
  destruct (updateSession _ _ _).1; [|rewrite Hrun in Hv; discriminate Hv].
  rewrite Hrun in Hv. cbn [value] in Hv. injection Hv as <-.
  cbn [result_total_files successful_uploads failed_uploads failed_files].
  apply createLogs_length in Hl.
  set (pairs := zip files logs).
  set (cs := map value (runs (submit roomId userName) pairs _)).
  assert (Hp : length pairs = length files)
    by (subst pairs; rewrite length_zip_with; lia).
  assert (Hcs : length pairs = length cs)
    by (subst cs; by rewrite length_map, runs_length).
  pose proof (failedOf_length pairs cs Hcs) as Hfl.
  split; [reflexivity|]. split; [rewrite count_total; lia|].
  split; [exact Hfl|].
  intros uploadSession stored w'.
  unfold PhotoUploadLogging.retryFailedUploads. cbn [failed_files].
  split.
  - intros Hz. rewrite Hfl, Hz. reflexivity.
  - intros Hnz. destruct (Nat.eqb_spec (length (failedOf pairs cs)) 0) as [E|E];
      [lia|].
    unfold try_catch. rewrite bind_trace. cbn [trace emit value world].
    match goal with
    | |- context [value ?r] => destruct (value r)
    end; cbn [trace app]; rewrite length_map; eauto.
Qed.

End ResultFacts.

Section RetryOutcome.
Context {World : Type} {backend : Backend World}.

(** X14. [retryFailedUploads] never throws. When it reaches its final report
    and calls [onUploadSuccess], it has asked for the logs of the session and
    reports every pending log among them as a successful retry and none as a
    failed one. *)
Theorem retry_reports_no_failure (uploadResult : option UploadResult)
  (uploadSession : option UploadSession) (stored : option JSString)
  (w : World) :
  let run :=
    PhotoUploadLogging.retryFailedUploads uploadResult uploadSession stored w in
  value run = Return tt
  ∧ (OnUploadSuccess ∈ trace run →
     ∃ result session logs,
       uploadResult = Some result ∧ uploadSession = Some session
       ∧ (getSessionLogs (session_id_ session)
            (retryFailedUploads_request (map log_id (failed_files result)) w).2).1
         = Return logs
       ∧ trace run
         = [RetryFailedUploads (map log_id (failed_files result));
            SetUploadResult None; GetSessionLogs (session_id_ session);
            Alert (js "재시도 완료: 성공 "
                   ++ ofNat (length (List.filter
                                       (fun log =>
                                          bool_decide (log_status log = pending))
                                       logs))
                   ++ js "개, 실패 " ++ ofNat 0 ++ js "개");
            OnUploadSuccess]).
Proof.
  intros run. subst run. unfold PhotoUploadLogging.retryFailedUploads.
  generalize (js "재시도 완료: 성공 ") (js "개, 실패 ") (js "개")
    (js "사용자 이름을 찾을 수 없습니다.") (js "재시도 실패: ") (js "").
  intros l1 l2 l3 l4 l5 l6.
  destruct uploadResult as [result|];
    [|split; [reflexivity | intros H; by apply elem_of_nil in H]].
  destruct (length (failed_files result) =? 0)%nat;
    [split; [reflexivity | intros H; by apply elem_of_nil in H]|].
  set (ids := map log_id (failed_files result)).
  assert (Hno : ∀ t : list Event,
            Forall (fun ev => ev ≠ OnUploadSuccess) t → OnUploadSuccess ∉ t).
  { intros t Ht Hin. rewrite Forall_forall in Ht. by apply (Ht _ Hin). }
  destruct (retryFailedUploads_request ids w) as [[[]|e] w1] eqn:Hr.
  2:{ erewrite try_catch_of_throw.
      2:{ rewrite bind_emit_run. cbn beta.
          erewrite bind_respond_throw by (rewrite Hr; reflexivity).
          rewrite Hr. reflexivity. }
      cbn [emit trace world value app]. split; [reflexivity|].
      intros H. apply Hno in H; [done|]. by repeat constructor. }
  destruct (truthy (opt_or_else stored l6)); cbn [negb].
  2:{ erewrite try_catch_of_return.
      2:{ rewrite bind_emit_run. cbn beta.
          erewrite bind_respond_return by (rewrite Hr; reflexivity).
          rewrite Hr. reflexivity. }
      cbn [emit trace world value app]. split; [reflexivity|].
      intros H. apply Hno in H; [done|]. by repeat constructor. }
  destruct uploadSession as [session|].
  2:{ erewrite try_catch_of_throw.
      2:{ rewrite bind_emit_run. cbn beta.
          erewrite bind_respond_return by (rewrite Hr; reflexivity).
          rewrite Hr. cbn [snd]. rewrite bind_emit_run. cbn beta.
          erewrite bind_of_throw by reflexivity. reflexivity. }
      cbn [emit throw trace world value app]. split; [reflexivity|].
      intros H. apply Hno in H; [done|]. by repeat constructor. }
  destruct (getSessionLogs (session_id_ session) w1) as [[logs|e] w2] eqn:Hg.
  2:{ erewrite try_catch_of_throw.
      2:{ rewrite bind_emit_run. cbn beta.
          erewrite bind_respond_return by (rewrite Hr; reflexivity).
          rewrite Hr. cbn [snd]. rewrite bind_emit_run. cbn beta.
          erewrite (bind_of_run (ret session)) by reflexivity.
          cbn [app]. rewrite bind_emit_run. cbn beta.
          erewrite bind_respond_throw by (rewrite Hg; reflexivity).
          rewrite Hg. reflexivity. }
      cbn [emit ret trace world value app]. split; [reflexivity|].
      intros H. apply Hno in H; [done|]. by repeat constructor. }
  erewrite try_catch_of_return.
  2:{ rewrite bind_emit_run. cbn beta.
      erewrite bind_respond_return by (rewrite Hr; reflexivity).
      rewrite Hr. cbn [snd]. rewrite bind_emit_run. cbn beta.
      erewrite (bind_of_run (ret session)) by reflexivity.
      cbn [app]. rewrite bind_emit_run. cbn beta.
      erewrite bind_respond_return by (rewrite Hg; reflexivity).
      rewrite Hg. cbn [snd]. rewrite bind_emit_run. cbn beta.
      cbn [emit ret trace world value app]. reflexivity. }
  cbn [trace value]. split; [reflexivity|]. intros _.
  exists result, session, logs.
  split; [reflexivity|]. split; [reflexivity|].
  split; [by fold ids; rewrite Hr; cbn [snd]; rewrite Hg|].
  by rewrite retryCounts_spec.
Qed.

End RetryOutcome.

Lemma result_accounts_for_files_witness :
  ∃ result,
    value (PhotoUploadLogging.uploadFilesWithLogging Scripted.room
             Scripted.seven Scripted.user
             (Scripted.start [None; Some Scripted.serverError]))
    = Return result
    ∧ length (failed_files result) = failed_uploads result
    ∧ failed_uploads result = 1%nat.
Proof.
  eexists. split; [vm_compute; reflexivity|].
  split; [|vm_compute; reflexivity].
  apply (result_accounts_for_files Scripted.room Scripted.user Scripted.seven
           (Scripted.start [None; Some Scripted.serverError])).
  vm_compute. reflexivity.
Defined.

Lemma retry_reports_no_failure_witness :
  ∃ result session logs,
    Some oneFailed = Some result
    ∧ Some (Scripted.sessionOf
              {| sc_room_id := Scripted.room; sc_user_name := Scripted.user;
                 sc_total_files := 1 |}) = Some session
    ∧ (getSessionLogs (session_id_ session)
         (retryFailedUploads_request (map log_id (failed_files result))
            afterRetry).2).1 = Return logs
    ∧ trace (PhotoUploadLogging.retryFailedUploads (Some oneFailed)
               (Some (Scripted.sessionOf
                        {| sc_room_id := Scripted.room;
                           sc_user_name := Scripted.user;
                           sc_total_files := 1 |}))
               (Some Scripted.user) afterRetry)
      = [RetryFailedUploads (map log_id (failed_files result));
         SetUploadResult None; GetSessionLogs (session_id_ session);
         Alert (js "재시도 완료: 성공 "
                ++ ofNat (length (List.filter
                                    (fun log =>
                                       bool_decide (log_status log = pending))
                                    logs))
                ++ js "개, 실패 " ++ ofNat 0 ++ js "개");
         OnUploadSuccess].
Proof.
  apply (retry_reports_no_failure (Some oneFailed)
           (Some (Scripted.sessionOf
                    {| sc_room_id := Scripted.room;
                       sc_user_name := Scripted.user; sc_total_files := 1 |}))
           (Some Scripted.user) afterRetry).
  vm_compute. apply list_elem_of_In.
  repeat (first [left; reflexivity | right]).
Defined.

(** ** The API service as a whole *)

Lemma trace_emit_respond {World Ev A : Type} (ev : Ev)
  (req : World → Completion A * World) (w : World) :
  trace (bind (emit ev) (fun _ => respond req) w) = [ev].
Proof.
  unfold bind, emit, respond. cbn [trace world value].
  by destruct (req w).1.
Qed.

Section ServiceFacts.
Context {World : Type} {backend : Backend World} {server : Server World}.

(** What a call sends of the ids and user names it was given. *)
Lemma api_ids_and_names (call : ApiCall) (w : World) :
  let actions := actionsOf call w in
  (length actions ≤ 1)%nat
  ∧ Forall (fun a => isRequest a = true) actions
  ∧ ∀ a, a ∈ actions →
      sentIds a = givenIds call
      ∧ Forall (fun i => validateInput.roomId i = true) (sentIds a)
      ∧ sentNames a = givenNames call
      ∧ Forall (fun n => validateInput.userName n = true) (sentNames a).
Proof.
  assert (Hnil : (length (@nil Action) ≤ 1)%nat
                 ∧ Forall (fun a => isRequest a = true) []
                 ∧ ∀ a, a ∈ @nil Action →
                     sentIds a = givenIds call
                     ∧ Forall (fun i => validateInput.roomId i = true) (sentIds a)
                     ∧ sentNames a = givenNames call
                     ∧ Forall (fun n => validateInput.userName n = true)
                         (sentNames a)).
  { split; [cbn; lia|]. split; [constructor|]. intros a Ha.
    by apply elem_of_nil in Ha. }
  cbn zeta.
  destruct call; cbn [actionsOf givenIds givenNames];
    unfold roomApi.createRoom, roomApi.getRoom, roomApi.joinRoom,
      roomApi.listRooms, roomApi.getParticipantsCount,
      roomApi.getParticipantsList, photoApi.getRoomPhotos,
      photoApi.getRoomPhotosWithUserStatus, photoApi.downloadPhoto,
      likeApi.getPhotoLikes, likeApi.checkUserLike, likeApi.getLikeCount,
      dislikeApi.checkUserDislike, lift, deleteRoom, uploadPhoto, toggleLike,
      toggleDislike;
    repeat match goal with
           | |- context [negb (validateInputRest.roomName ?x)] =>
             destruct (validateInputRest.roomName x) eqn:?; cbn [negb];
               [|exact Hnil]
           | |- context [negb (validateInput.roomId ?x)] =>
             destruct (validateInput.roomId x) eqn:?; cbn [negb]; [|exact Hnil]
           | |- context [negb (validateInput.userName ?x)] =>
             destruct (validateInput.userName x) eqn:?; cbn [negb];
               [|exact Hnil]
           | |- context [negb (validateInput.valid ?x)] =>
             destruct (validateInput.valid x) eqn:?; cbn [negb]; [|exact Hnil]
           end;
    cbn zeta; cbn [trace]; rewrite trace_emit_respond;
    repeat match goal with
           | H : validateInput.userName ?n = true |- _ =>
             rewrite (sanitizeInput_userName n H)
           end;
    cbn [map];
    (split; [cbn; lia|]);
    (split; [constructor; [reflexivity | constructor]|]);
    intros a Ha; apply list_elem_of_singleton in Ha as ->;
    cbn [sentIds sentNames rc_creator_name];
    (split; [reflexivity|]);
    (split; [repeat (constructor; [assumption|]); constructor|]);
    (split; [reflexivity|]);
    repeat (constructor; [assumption|]); constructor.
Qed.


(** X15. Every function of the API service makes at most one request and
    nothing else. The room and photo ids of the request are the ones the
    caller gave and have the shape [validateInput.roomId] asks for; its user
    name is the one the caller gave, unchanged by the sanitiser, and passes
    [validateInput.userName]; a file is sent only by [photoApi.uploadPhoto],
    as given, and passes [validateInput.file]. A room name is sent only by
    [roomApi.createRoom]: it is the sanitised form of the name given, and it
    is the name given, not the name sent, that has passed
    [validateInput.roomName]. *)
Theorem api_requests_well_formed (call : ApiCall) (w : World) :
  let actions := actionsOf call w in
  (length actions ≤ 1)%nat
  ∧ Forall (fun a => isRequest a = true) actions
  ∧ (∀ a, a ∈ actions →
       sentIds a = givenIds call
       ∧ Forall (fun i => validateInput.roomId i = true) (sentIds a)
       ∧ sentNames a = givenNames call
       ∧ Forall (fun n => validateInput.userName n = true) (sentNames a))
  ∧ (∀ roomId file name, Of (PostUpload roomId file name) ∈ actions →
       call = UploadPhotoCall roomId file name
       ∧ validateInput.valid (validateInput.file file) = true)
  ∧ (∀ data, Sent (PostRoom data) ∈ actions →
       ∃ roomData,
         call = CreateRoomCall roomData
         ∧ validateInputRest.roomName (rc_name roomData) = true
         ∧ rc_name data = sanitizeInput (rc_name roomData)).
Proof.
  intros actions. subst actions.
  destruct (api_ids_and_names call w) as (H1 & H2 & H3).
  split; [exact H1|]. split; [exact H2|]. split; [exact H3|].
  clear H1 H2 H3.
  destruct call; cbn [actionsOf];
    unfold roomApi.createRoom, roomApi.getRoom, roomApi.joinRoom,
      roomApi.listRooms, roomApi.getParticipantsCount,
      roomApi.getParticipantsList, photoApi.getRoomPhotos,
      photoApi.getRoomPhotosWithUserStatus, photoApi.downloadPhoto,
      likeApi.getPhotoLikes, likeApi.checkUserLike, likeApi.getLikeCount,
      dislikeApi.checkUserDislike, lift, deleteRoom, uploadPhoto, toggleLike,
      toggleDislike;
    repeat match goal with
           | |- context [negb (validateInputRest.roomName ?x)] =>
             destruct (validateInputRest.roomName x) eqn:?; cbn [negb]
           | |- context [negb (validateInput.roomId ?x)] =>
             destruct (validateInput.roomId x) eqn:?; cbn [negb]
           | |- context [negb (validateInput.userName ?x)] =>
             destruct (validateInput.userName x) eqn:?; cbn [negb]
           | |- context [negb (validateInput.valid ?x)] =>
             destruct (validateInput.valid x) eqn:?; cbn [negb]
           end;
    cbn zeta; cbn [trace throw]; rewrite ?trace_emit_respond; cbn [map];
    (split; [intros r f n Hin | intros data Hin]);
    try (by apply elem_of_nil in Hin);
    apply list_elem_of_singleton in Hin; try discriminate Hin.
  - injection Hin as ->. eexists. split; [reflexivity|]. by split.
  - injection Hin as -> -> Hn.
    match goal with
    | H : validateInput.userName ?u = true |- _ =>
      rewrite (sanitizeInput_userName u H) in Hn; subst
    end.
    by split.
Qed.

End ServiceFacts.

(** ** [roomApi.createRoom] and the room name *)

Lemma trimStart_nil_iff (s : JSString) :
  trimStart s = [] ↔ forallb isWhiteSpace s = true.
Proof.
  induction s as [|c s IH]; [done|]. cbn.
  destruct (isWhiteSpace c); [exact IH|]. split; discriminate.
Qed.

Lemma forallb_rev {A} (p : A → bool) (l : list A) :
  forallb p (rev l) = forallb p l.
Proof.
  induction l as [|x l IH]; [done|]. cbn.
  rewrite forallb_app, IH. cbn. rewrite andb_true_r. apply andb_comm.
Qed.

Lemma trimStart_all_white (s : JSString) :
  forallb isWhiteSpace (trimStart s) = true → trimStart s = [].
Proof.
  intros H. destruct (trimStart s) as [|c r] eqn:E; [done|].
  assert (Hc : isWhiteSpace c = false) by (apply (trimStart_head s); by rewrite E).
  cbn in H. by rewrite Hc in H.
Qed.

Lemma trim_nil_iff (s : JSString) :
  trim s = [] ↔ forallb isWhiteSpace s = true.
Proof.
  unfold trim. split.
  - intros H. apply (f_equal (@rev N)) in H. rewrite rev_involutive in H.
    cbn in H. apply trimStart_nil_iff in H. rewrite forallb_rev in H.
    apply trimStart_all_white in H. by apply trimStart_nil_iff.
  - intros H. apply trimStart_nil_iff in H. by rewrite H.
Qed.

Lemma whiteSpace_unescaped (c : N) :
  isWhiteSpace c = true → isEscaped c = false.
Proof.
  unfold isWhiteSpace, isEscaped. intros H.
  repeat match goal with
         | H : _ || _ = true |- _ => apply orb_true_iff in H as [H|H]
         | H : _ && _ = true |- _ => apply andb_true_iff in H as [? ?]
         | H : (_ <=? _)%N = true |- _ => apply N.leb_le in H
         | H : (_ =? _)%N = true |- _ => apply N.eqb_eq in H
         end;
    repeat match goal with
           | |- _ || _ = false => apply orb_false_intro
           | |- (_ =? _)%N = false => apply N.eqb_neq; lia
           end.
Qed.

Lemma roomName_unescaped (roomName : JSString) :
  validateInputRest.roomName roomName = true →
  Forall (fun c => isEscaped c = false) roomName.
Proof.
  unfold validateInputRest.roomName. intros H.
  apply andb_true_iff in H as [_ H]. apply andb_true_iff in H as [_ H].
  rewrite forallb_forall in H. apply Forall_forall. intros c Hc.
  apply list_elem_of_In, H in Hc. unfold validateInputRest.isRoomNameUnit in Hc.
  apply orb_true_iff in Hc as [Hc|Hc].
  - by apply nameUnit_plain in Hc as [? _].
  - by apply whiteSpace_unescaped.
Qed.

Section CreateRoomFacts.
Context {World : Type} {server : Server World}.

(** X16. [roomApi.createRoom] checks the room name before it trims it: for a
    valid room name and creator name it sends the trimmed room name and the
    creator name as given. A name that consists of white space only passes
    the check, and what is sent for it is the empty name. *)
Theorem createRoom_sends_trimmed_name (roomData : RoomCreate) (w : World) :
  validateInputRest.roomName (rc_name roomData) = true →
  validateInput.userName (rc_creator_name roomData) = true →
  (∃ description,
     trace (roomApi.createRoom roomData w)
     = [Sent (PostRoom {| rc_name := trim (rc_name roomData);
                          rc_description := description;
                          rc_creator_name := rc_creator_name roomData |})])
  ∧ (trim (rc_name roomData) = []
     ↔ forallb isWhiteSpace (rc_name roomData) = true).
Proof.
  intros Hn Hc. split; [|apply trim_nil_iff].
  unfold roomApi.createRoom. rewrite Hn, Hc. cbn [negb]. cbn zeta.
  rewrite trace_emit_respond, (sanitizeInput_userName _ Hc).
  eexists. do 3 f_equal. unfold sanitizeInput.
  by rewrite unescaped_replacements by (by apply roomName_unescaped).
Qed.

End CreateRoomFacts.

(** A room name of three spaces: accepted, and sent as the empty name. *)
Lemma createRoom_sends_trimmed_name_witness :
  (∃ description,
     trace (roomApi.createRoom
              {| rc_name := js "   "; rc_description := None;
                 rc_creator_name := Scripted.user |} Site.empty)
     = [Sent (PostRoom {| rc_name := trim (js "   ");
                          rc_description := description;
                          rc_creator_name := Scripted.user |})])
  ∧ (trim (js "   ") = [] ↔ forallb isWhiteSpace (js "   ") = true).
Proof.
  apply (createRoom_sends_trimmed_name
           {| rc_name := js "   "; rc_description := None;
              rc_creator_name := Scripted.user |} Site.empty).
  - vm_compute. reflexivity.
  - vm_compute. reflexivity.
Defined.

(** ** The gallery: downloads *)

Section DownloadFacts.
Context {World : Type} {server : Server World}.
Variable userAgent : JSString.
Variable protocol : JSString.
Variable hostname : JSString.

Import GalleryDownloads.

Lemma downloadPhoto_run (roomId photoId : JSString) (w : World) :
  photoApi.downloadPhoto roomId photoId w
  = if validateInput.roomId roomId && validateInput.roomId photoId
    then mkRun [Sent (GetDownload roomId photoId)]
           (get_download roomId photoId w).2 (get_download roomId photoId w).1
    else mkRun [] w
           (Throw (Error (if validateInput.roomId roomId
                          then js "Invalid photo ID format"
                          else js "Invalid room ID format"))).
Proof.
  unfold photoApi.downloadPhoto.
  destruct (validateInput.roomId roomId); [|reflexivity].
  destruct (validateInput.roomId photoId); reflexivity.
Qed.

Lemma handleDownload_run (photo : Photo) (downloading : gset JSString)
  (w : World) :
  isIOS userAgent = false →
  let r := photoApi.downloadPhoto (room_id photo) (id photo) w in
  handleDownload userAgent protocol hostname photo downloading w
  = mkRun (trace r ++ [match value r with
                       | Return blob => SaveAs blob (original_filename photo)
                       | Throw _ => Of (Alert (js "다운로드에 실패했습니다."))
                       end])
      (world r) (Return (downloading ∖ {[id photo]})).
Proof.
  intros Hios r. unfold handleDownload. rewrite Hios. cbn zeta.
  assert (Hset : (downloading ∪ {[id photo]}) ∖ {[id photo]}
                 = downloading ∖ {[id photo]}) by set_solver.
  rewrite Hset. fold r. destruct (value r) as [blob|e] eqn:Ev.
  - erewrite try_catch_of_return; [reflexivity|].
    unfold bind. fold r. rewrite Ev. reflexivity.
  - erewrite try_catch_of_throw.
    2:{ unfold bind. fold r. rewrite Ev. reflexivity. }
    reflexivity.
Qed.

Lemma downloadEach_run (objs : list Photo) (downloading : gset JSString)
  (w : World) :
  isIOS userAgent = false →
  let run := downloadEach userAgent protocol hostname objs downloading w in
  value run = Return (downloading ∖ list_to_set (map id objs))
  ∧ List.filter isRequest (trace run)
    = map (fun p => Sent (GetDownload (room_id p) (id p)))
        (List.filter downloadable objs)
  ∧ length (List.filter isPause (trace run)) = length objs
  ∧ (length (List.filter isSaveAs (trace run))
     + length (List.filter isDownloadAlert (trace run)))%nat = length objs.
Proof.
  intros Hios. revert downloading w.
  induction objs as [|photo objs IH]; intros downloading w.
  - cbn. split; [f_equal; set_solver|]. done.
  - cbn [downloadEach].
    erewrite bind_of_run' by (by apply handleDownload_run).
    rewrite bind_emit_run. cbn beta. cbn [trace value].
    pose proof (downloadPhoto_run (room_id photo) (id photo) w) as Hrun.
    set (r := photoApi.downloadPhoto (room_id photo) (id photo) w) in *.
    assert (Hreq : List.filter isRequest (trace r)
                   = if downloadable photo
                     then [Sent (GetDownload (room_id photo) (id photo))]
                     else []).
    { rewrite Hrun. unfold downloadable.
      by destruct (validateInput.roomId (room_id photo)
                   && validateInput.roomId (id photo)). }
    assert (Hquiet : List.filter isPause (trace r) = []
                     ∧ List.filter isSaveAs (trace r) = []
                     ∧ List.filter isDownloadAlert (trace r) = []).
    { rewrite Hrun.
      by destruct (validateInput.roomId (room_id photo)
                   && validateInput.roomId (id photo)). }
    destruct Hquiet as (Hq1 & Hq2 & Hq3). clear Hrun.
    destruct (IH (downloading ∖ {[id photo]}) (world r))
      as (Hv & Hr & Hp & Hs).
    split; [|split; [|split]].
    + rewrite Hv. f_equal. cbn [map list_to_set]. set_solver.
    + rewrite <- app_assoc, List.filter_app, Hreq. cbn [List.filter map].
      destruct (downloadable photo); destruct (value r); cbn; by rewrite Hr.
    + rewrite <- app_assoc, List.filter_app, length_app, Hq1.
      destruct (value r); cbn; by rewrite Hp.
    + rewrite <- app_assoc, !List.filter_app, !length_app, Hq2, Hq3.
      destruct (value r); cbn; lia.
Qed.

(** X17. Off iOS, [handleBatchDownload] works through the photos that are
    both selected and visible, in the order of the gallery: each one whose
    ids are well formed is requested once, each one ends either in a saved
    file or in an alert, and a failure does not stop the ones after it. A
    selected photo that is hidden is not downloaded. At the end the selection
    is empty and none of these photos is marked as downloading. *)
Theorem batch_download_selected_visible (selectedPhotos : gset JSString)
  (localPhotos : list Photo) (downloading : gset JSString) (w : World) :
  isIOS userAgent = false → selectedPhotos ≠ ∅ →
  let run :=
    handleBatchDownload userAgent protocol hostname selectedPhotos
      localPhotos downloading w in
  let objs := chosen selectedPhotos localPhotos in
  value run = Return (∅, downloading ∖ list_to_set (map id objs))
  ∧ List.filter isRequest (trace run)
    = map (fun p => Sent (GetDownload (room_id p) (id p)))
        (List.filter downloadable objs)
  ∧ length (List.filter isPause (trace run)) = length objs
  ∧ (length (List.filter isSaveAs (trace run))
     + length (List.filter isDownloadAlert (trace run)))%nat = length objs
  ∧ ∀ photo, photo ∈ objs
             ↔ photo ∈ localPhotos ∧ dislike_count photo = 0
               ∧ id photo ∈ selectedPhotos.
Proof.
  intros Hios Hne run objs. subst run.
  unfold handleBatchDownload. rewrite Hios.
  destruct (Nat.eqb_spec (base.size selectedPhotos) 0) as [E|_].
  { apply size_empty_iff in E. by apply leibniz_equiv in E. }
  cbn zeta. fold (chosen selectedPhotos localPhotos). fold objs.
  destruct (downloadEach_run objs downloading w Hios) as (Hv & Hr & Hp & Hs).
  unfold bind. cbn zeta. rewrite Hv. cbn [trace value ret]. rewrite app_nil_r.
  split; [reflexivity|]. split; [exact Hr|]. split; [exact Hp|].
  split; [exact Hs|].
  intros photo. subst objs. unfold chosen, PhotoGallery.visiblePhotos.
  rewrite !list_elem_of_In, !filter_In, <- list_elem_of_In.
  unfold PhotoGallery.has. rewrite bool_decide_eq_true, Z.eqb_eq. tauto.
Qed.

(** X18. Without a selection [handleBatchDownload] only shows an alert. On
    iOS it sends no request: it shows one alert and sets up one tab per
    selected visible photo, the k-th of them k seconds later, and empties the
    selection. *)
Theorem batch_download_ios_and_empty (selectedPhotos : gset JSString)
  (localPhotos : list Photo) (downloading : gset JSString) (w : World) :
  let run :=
    handleBatchDownload userAgent protocol hostname selectedPhotos
      localPhotos downloading w in
  let objs := chosen selectedPhotos localPhotos in
  (selectedPhotos = ∅ →
   run = mkRun [Of (Alert (js "다운로드할 사진을 선택해주세요."))] w
           (Return (selectedPhotos, downloading)))
  ∧ (selectedPhotos ≠ ∅ → isIOS userAgent = true →
     ∃ msg,
       run = mkRun
               (Of (Alert msg)
                :: imap (fun k photo =>
                           OpenTabAfter (Z.of_nat k * 1000)
                             (imageUrl protocol hostname photo)
                             (original_filename photo) (k + 1) (length objs))
                     objs)
               w (Return (∅, downloading))).
Proof.
  intros run objs. subst run. unfold handleBatchDownload. split.
  - intros ->. reflexivity.
  - intros Hne Hios. rewrite Hios.
    destruct (Nat.eqb_spec (base.size selectedPhotos) 0) as [E|_].
    { apply size_empty_iff in E. by apply leibniz_equiv in E. }
    cbn zeta. fold (chosen selectedPhotos localPhotos). fold objs.
    assert (Htabs : ∀ (l : list Photo) (i total : nat) (w' : World),
              openTabs protocol hostname i total l w'
              = mkRun
                  (imap (fun k photo =>
                           OpenTabAfter (Z.of_nat (i + k) * 1000)
                             (imageUrl protocol hostname photo)
                             (original_filename photo) (i + k + 1) total) l)
                  w' (Return tt)).
    { induction l as [|photo l IHl]; intros i total w'; [reflexivity|].
      cbn [openTabs imap]. rewrite bind_emit_run. cbn beta.
      rewrite IHl. cbn [trace world value]. rewrite Nat.add_0_r.
      f_equal. f_equal. apply imap_ext. intros k x _. cbn.
      replace (i + 1 + k)%nat with (i + S k)%nat by lia. reflexivity. }
    eexists. erewrite bind_of_run'.
    2:{ rewrite bind_emit_run. cbn beta.
        erewrite bind_of_run' by apply Htabs.
        cbn [ret trace world value]. rewrite app_nil_r. reflexivity. }
    cbn [ret trace world value]. rewrite app_nil_r. reflexivity.
Qed.

(** X19. [handleDownload] never throws. Off iOS it asks for the photo only
    when both of its ids are well formed, ends with exactly one of a saved
    file and the alert, and the photo is no longer marked as downloading
    afterwards, whether the download worked or not. *)
Theorem download_ends_unmarked (photo : Photo) (downloading : gset JSString)
  (w : World) :
  isIOS userAgent = false →
  let run := handleDownload userAgent protocol hostname photo downloading w in
  value run = Return (downloading ∖ {[id photo]})
  ∧ List.filter isRequest (trace run)
    = (if downloadable photo
       then [Sent (GetDownload (room_id photo) (id photo))] else [])
  ∧ (length (List.filter isSaveAs (trace run))
     + length (List.filter isDownloadAlert (trace run)))%nat = 1%nat
  ∧ (List.filter isSaveAs (trace run) ≠ []
     ↔ downloadable photo = true
       ∧ isReturn (get_download (room_id photo) (id photo) w).1 = true).
Proof.
  intros Hios run. subst run. rewrite handleDownload_run by done.
  cbn [trace value]. rewrite downloadPhoto_run. unfold downloadable.
  destruct (validateInput.roomId (room_id photo)
            && validateInput.roomId (id photo)); cbn [trace value].
  - destruct (get_download _ _ w).1; cbn;
      (split; [reflexivity|]); (split; [reflexivity|]);
      (split; [reflexivity|]); split; try done; by intros [_ ?].
  - cbn. split; [reflexivity|]. split; [reflexivity|].
    split; [reflexivity|]. split; [done|]. by intros [? _].
Qed.

End DownloadFacts.

(** The three photos of the trip selected on a desktop browser: the hidden
    one is skipped, the first is saved and the third ends in an alert. *)
Lemma batch_download_selected_visible_witness :
  List.filter isRequest
    (trace (GalleryDownloads.handleBatchDownload desktop (js "http:")
              (js "localhost") allThree (Site.photos Site.trip) ∅ Site.trip))
  = map (fun p => Sent (GetDownload (room_id p) (id p)))
      (List.filter GalleryDownloads.downloadable
         (GalleryDownloads.chosen allThree (Site.photos Site.trip))).
Proof.
  apply (batch_download_selected_visible desktop (js "http:") (js "localhost")
           allThree (Site.photos Site.trip) ∅ Site.trip).
  - vm_compute. reflexivity.
  - unfold allThree. set_solver.
Defined.

Lemma batch_download_ios_and_empty_witness :
  ∃ msg,
    GalleryDownloads.handleBatchDownload iPhone (js "http:") (js "localhost")
      allThree (Site.photos Site.trip) ∅ Site.trip
    = mkRun
        (Of (Alert msg)
         :: imap (fun k photo =>
                    OpenTabAfter (Z.of_nat k * 1000)
                      (GalleryDownloads.imageUrl (js "http:") (js "localhost")
                         photo)
                      (original_filename photo) (k + 1)
                      (length (GalleryDownloads.chosen allThree
                                 (Site.photos Site.trip))))
              (GalleryDownloads.chosen allThree (Site.photos Site.trip)))
        Site.trip (Return (∅, ∅)).
Proof.
  apply (batch_download_ios_and_empty iPhone (js "http:") (js "localhost")
           allThree (Site.photos Site.trip) ∅ Site.trip).
  - unfold allThree. set_solver.
  - vm_compute. reflexivity.
Defined.

Lemma download_ends_unmarked_witness :
  value (GalleryDownloads.handleDownload desktop (js "http:") (js "localhost")
           (Scripted.aPhoto Site.photo3 0 0) {[Site.photo3]} Site.trip)
  = Return ({[Site.photo3]} ∖ {[id (Scripted.aPhoto Site.photo3 0 0)]}).
Proof.
  apply (download_ends_unmarked desktop (js "http:") (js "localhost")
           (Scripted.aPhoto Site.photo3 0 0) {[Site.photo3]} Site.trip).
  vm_compute. reflexivity.
Defined.

(** ** The room page: loading the room *)

Section RoomLoadingFacts.
Context {World : Type} {server : Server World}.

Import RoomPageState.

(** The call for the photos that [fetchAll] makes. *)
Local Abbreviation photosCall roomId userName :=
  (match userName with
   | Some name =>
     if longEnough userName
     then photoApi.getRoomPhotosWithUserStatus roomId name
     else photoApi.getRoomPhotos roomId
   | None => photoApi.getRoomPhotos roomId
   end).

Lemma fetchAll_run (roomId : JSString) (userName : option JSString)
  (w : World) :
  let r1 := roomApi.getRoom roomId w in
  let r2 := photosCall roomId userName (world r1) in
  let r3 := roomApi.getParticipantsList roomId (world r2) in
  fetchAll roomId userName w
  = mkRun (trace r1 ++ trace r2 ++ trace r3) (world r3)
      (Return match value r1, value r2, value r3 with
              | Return r, Return p, Return ps => Some (r, p, ps)
              | _, _, _ => None
              end).
Proof.
  intros r1 r2 r3. unfold fetchAll.
  erewrite bind_of_run' by reflexivity. cbn [trace world value].
  erewrite bind_of_run' by reflexivity. cbn [trace world value].
  erewrite bind_of_run' by reflexivity. cbn [trace world value ret].
  by rewrite app_nil_r.
Qed.

Lemma getRoom_trace (roomId : JSString) (w : World) :
  trace (roomApi.getRoom roomId w)
  = if validateInput.roomId roomId then [Sent (GetRoom roomId)] else [].
Proof.
  unfold roomApi.getRoom. destruct (validateInput.roomId roomId);
    [apply trace_emit_respond | reflexivity].
Qed.

Lemma getParticipantsList_trace (roomId : JSString) (w : World) :
  trace (roomApi.getParticipantsList roomId w)
  = if validateInput.roomId roomId
    then [Sent (GetParticipantsList roomId)] else [].
Proof.
  unfold roomApi.getParticipantsList. destruct (validateInput.roomId roomId);
    [apply trace_emit_respond | reflexivity].
Qed.

Lemma photosCall_trace (roomId : JSString) (userName : option JSString)
  (w : World) :
  trace (photosCall roomId userName w)
  = if validateInput.roomId roomId then
      match userName with
      | Some name =>
        if longEnough userName then
          if validateInput.userName name
          then [Sent (GetPhotosWithUserStatus roomId name)] else []
        else [Sent (GetPhotos roomId)]
      | None => [Sent (GetPhotos roomId)]
      end
    else [].
Proof.
  unfold photoApi.getRoomPhotosWithUserStatus, photoApi.getRoomPhotos.
  destruct userName as [name|].
  - destruct (longEnough (Some name)).
    + destruct (validateInput.roomId roomId); [|reflexivity]. cbn [negb].
      destruct (validateInput.userName name) eqn:Hn; [|reflexivity].
      cbn [negb]. cbn zeta. rewrite (sanitizeInput_userName _ Hn).
      apply trace_emit_respond.
    + destruct (validateInput.roomId roomId);
        [apply trace_emit_respond | reflexivity].
  - destruct (validateInput.roomId roomId);
      [apply trace_emit_respond | reflexivity].
Qed.

Lemma photosCall_throws (roomId name : JSString) (w : World) :
  longEnough (Some name) = true → validateInput.userName name = false →
  isThrow (value ((if longEnough (Some name)
                   then photoApi.getRoomPhotosWithUserStatus roomId name
                   else photoApi.getRoomPhotos roomId) w)) = true.
Proof.
  intros Hl Hn. rewrite Hl. unfold photoApi.getRoomPhotosWithUserStatus.
  destruct (validateInput.roomId roomId); [|reflexivity].
  cbn [negb]. by rewrite Hn.
Qed.



(** X21. A stored name that is long enough but does not pass
    [validateInput.userName] blocks every refresh: the requests for the room
    and for the participants are sent, the one for the photos is not, and
    the page keeps the data it had, without a word to the user. *)
Theorem invalid_stored_name_blocks_refresh (roomId name : JSString)
  (st : State) (w : World) :
  validateInput.roomId roomId = true →
  longEnough (Some name) = true → validateInput.userName name = false →
  let run := refreshRoomData (Some roomId) (Some name) st w in
  value run = Return st
  ∧ trace run = [Sent (GetRoom roomId); Sent (GetParticipantsList roomId)].
Proof.
  intros Hid Hl Hn run. subst run. unfold refreshRoomData.
  assert (Ht : truthy roomId = true).
  { destruct roomId; [discriminate Hid | reflexivity]. }
  rewrite Ht. cbn [negb].
  erewrite bind_of_run' by apply fetchAll_run.
  cbn [trace world value ret]. rewrite app_nil_r.
  pose proof (photosCall_trace roomId (Some name)
                (world (roomApi.getRoom roomId w))) as Hp.
  cbv beta iota in Hp. rewrite getRoom_trace, Hp, getParticipantsList_trace.
  pose proof (photosCall_throws roomId name
                (world (roomApi.getRoom roomId w)) Hl Hn) as Hthrow.
  rewrite Hl in Hthrow. rewrite Hid, Hl, Hn. split; [|reflexivity].
  destruct (value (roomApi.getRoom roomId w)); [|reflexivity].
  match type of Hthrow with
  | isThrow (value ?r) = true => destruct (value r)
  end; [discriminate Hthrow | reflexivity].
Qed.

End RoomLoadingFacts.

Lemma invalid_stored_name_blocks_refresh_witness :
  trace (RoomPageState.refreshRoomData (Some Scripted.room) (Some (js "a b"))
           {| RoomPageState.room := None; RoomPageState.photos := [];
              RoomPageState.participants := [];
              RoomPageState.activeTab := RoomPageState.gallery;
              RoomPageState.showLoginModal := false;
              RoomPageState.selectedUploader := None |} Site.trip)
  = [Sent (GetRoom Scripted.room); Sent (GetParticipantsList Scripted.room)].
Proof.
  apply (invalid_stored_name_blocks_refresh Scripted.room (js "a b")
           {| RoomPageState.room := None; RoomPageState.photos := [];
              RoomPageState.participants := [];
              RoomPageState.activeTab := RoomPageState.gallery;
              RoomPageState.showLoginModal := false;
              RoomPageState.selectedUploader := None |} Site.trip).
  - vm_compute. reflexivity.
  - vm_compute. reflexivity.
  - vm_compute. reflexivity.
Defined.

(** ** Properties of every action of a run *)

Section TraceFacts.
Context {World Ev : Type}.
Variable P : Ev → Prop.

Lemma Forall_trace_bind {A B : Type} (m : Async World Ev A)
  (f : A → Async World Ev B) (w : World) :
  Forall P (trace (m w)) →
  (∀ a, value (m w) = Return a → Forall P (trace (f a (world (m w))))) →
  Forall P (trace (bind m f w)).
Proof.
  intros Hm Hf. unfold bind. cbn zeta.
  destruct (value (m w)) as [a|e]; cbn [trace]; [|exact Hm].
  apply Forall_app. split; [exact Hm | by apply Hf].
Qed.

Lemma Forall_trace_try_catch {A : Type} (m : Async World Ev A)
  (h : JSError → Async World Ev A) (w : World) :
  Forall P (trace (m w)) →
  (∀ e, value (m w) = Throw e → Forall P (trace (h e (world (m w))))) →
  Forall P (trace (try_catch m h w)).
Proof.
  intros Hm Hh. unfold try_catch. cbn zeta.
  destruct (value (m w)) as [a|e]; cbn [trace]; [exact Hm|].
  apply Forall_app. split; [exact Hm | by apply Hh].
Qed.

Lemma Forall_trace_emit (ev : Ev) (w : World) :
  P ev → Forall P (trace (emit ev w)).
Proof. intros H. cbn. by repeat constructor. Qed.

Lemma Forall_trace_emit_respond {A : Type} (ev : Ev)
  (req : World → Completion A * World) (w : World) :
  P ev → Forall P (trace (bind (emit ev) (fun _ => respond req) w)).
Proof. intros H. rewrite trace_emit_respond. by repeat constructor. Qed.

End TraceFacts.

Lemma value_try_catch_returns {World Ev A : Type} (m : Async World Ev A)
  (h : JSError → Async World Ev A) (w : World) :
  (∀ e w', isReturn (value (h e w')) = true) →
  isReturn (value (try_catch m h w)) = true.
Proof.
  intros Hh. unfold try_catch. cbn zeta.
  destruct (value (m w)) as [a|e] eqn:E; [by rewrite E|]. cbn [value]. apply Hh.
Qed.

(** ** Names handed over and stored by the dialogs *)

Section NameFacts.
Context {World JSValue : Type} {server : Server World} {json : Json JSValue}.

Lemma joinRoom_trace (roomId user_name : JSString) (w : World) :
  trace (roomApi.joinRoom roomId user_name w)
  = if validateInput.roomId roomId && validateInput.userName user_name
    then [Sent (PostJoin roomId user_name)] else [].
Proof.
  unfold roomApi.joinRoom. destruct (validateInput.roomId roomId); [|reflexivity].
  destruct (validateInput.userName user_name) eqn:Hn; [|reflexivity].
  cbn [negb andb]. rewrite (sanitizeInput_userName _ Hn).
  apply trace_emit_respond.
Qed.

Lemma joinRoom_returns (roomId user_name : JSString) (w : World) (a : unit) :
  value (roomApi.joinRoom roomId user_name w) = Return a →
  validateInput.roomId roomId = true ∧ validateInput.userName user_name = true.
Proof.
  unfold roomApi.joinRoom. destruct (validateInput.roomId roomId); [|discriminate].
  by destruct (validateInput.userName user_name).
Qed.

Lemma createRoom_returns (roomData : RoomCreate) (w : World) (room : Room) :
  value (roomApi.createRoom roomData w) = Return room →
  validateInputRest.roomName (rc_name roomData) = true
  ∧ validateInput.userName (rc_creator_name roomData) = true.
Proof.
  unfold roomApi.createRoom.
  destruct (validateInputRest.roomName (rc_name roomData)); [|discriminate].
  by destruct (validateInput.userName (rc_creator_name roomData)).
Qed.

Lemma userName_key_differs (key : JSString) :
  head key ≠ Some 117%N → eqb key (js "userName") = false.
Proof.
  intros H. unfold eqb. apply bool_decide_eq_false. intros ->.
  apply H. vm_compute. reflexivity.
Qed.

Lemma saveRoomUser_keeps (roomUsers : option JSString) (key val : JSString)
  (w : World) :
  Forall (fun a => keepsNamesValid a = true ∧ isRequest a = false)
    (trace (saveRoomUser roomUsers key val w)).
Proof.
  unfold saveRoomUser, now.
  destruct (JSON_parse (opt_or_else roomUsers (js "{}"))) as [d|e] eqn:E1.
  2:{ unfold bind. cbn [trace value world]. constructor. }
  erewrite bind_of_run' by reflexivity. cbn [app].
  destruct (setProperty d key val) as [d'|e] eqn:E2.
  2:{ unfold bind. cbn [trace value world]. constructor. }
  erewrite bind_of_run' by reflexivity. cbn [app trace emit].
  constructor; [|constructor]. split; [|reflexivity].
  unfold keepsNamesValid, storesUserName.
  rewrite userName_key_differs; [reflexivity|]. vm_compute. discriminate.
Qed.

Lemma keepsNamesValid_SetItem (storage : Storage) (name : JSString) :
  validateInput.userName name = true →
  keepsNamesValid (SetItem storage (js "userName") name) = true.
Proof.
  intros H. unfold keepsNamesValid, storesUserName.
  assert (E : eqb (js "userName") (js "userName") = true)
    by (unfold eqb; by apply bool_decide_eq_true).
  by rewrite E.
Qed.

(** X22. The dialogs that store a user name after talking to the server
    store only names that pass [validateInput.userName]: this holds for the
    login dialog, the form that creates a room and the two ways of joining on
    the home page, whatever is typed and whatever the server answers. The
    login dialog hands only such a name to the page, and none of the four
    handlers throws. *)
Theorem stored_names_are_valid :
  (∀ (roomId inputValue : JSString) (roomUsers : option JSString) (w : World),
     let run := UserLoginModal.handleSubmit roomId inputValue roomUsers w in
     Forall (fun a => keepsNamesValid a = true) (trace run)
     ∧ value run = Return tt)
  ∧ (∀ (name description creator_name : JSString)
       (roomUsers : option JSString) (w : World),
       let run :=
         CreateRoomPage.handleSubmit name description creator_name roomUsers w
       in
       Forall (fun a => keepsNamesValid a = true) (trace run)
       ∧ value run = Return tt)
  ∧ (∀ (roomIdInput userNameInput : JSString) (roomUsers : option JSString)
       (w : World),
       let run :=
         HomePage.handleJoinRoom roomIdInput userNameInput roomUsers w in
       Forall (fun a => keepsNamesValid a = true) (trace run)
       ∧ value run = Return tt)
  ∧ (∀ (selectedRoom : option Room) (inputRoomId userName : JSString)
       (roomUsers : option JSString) (w : World),
       let run :=
         HomePage.handlePasswordSubmit selectedRoom inputRoomId userName
           roomUsers w in
       Forall (fun a => keepsNamesValid a = true) (trace run)
       ∧ value run = Return tt).
Proof.
  assert (Hsave : ∀ roomUsers key val (w : World),
            Forall (fun a => keepsNamesValid a = true)
              (trace (saveRoomUser roomUsers key val w))).
  { intros. eapply Forall_impl; [apply saveRoomUser_keeps|]. by intros a [? _]. }
  assert (Hjoin : ∀ roomId name (w : World),
            Forall (fun a => keepsNamesValid a = true)
              (trace (roomApi.joinRoom roomId name w))).
  { intros. rewrite joinRoom_trace.
    destruct (_ && _); by repeat constructor. }
  assert (Hunit : ∀ (c : Completion unit), isReturn c = true → c = Return tt).
  { intros [[]|e] H; [reflexivity | discriminate H]. }
  split; [|split; [|split]].
  - intros roomId inputValue roomUsers w run. subst run.
    unfold UserLoginModal.handleSubmit. cbn zeta.
    destruct (truthy (trim inputValue)); cbn [negb];
      [|split; [by repeat constructor | reflexivity]].
    destruct (validateInput.userName (trim inputValue)) eqn:Hn; cbn [negb];
      [|split; [by repeat constructor | reflexivity]].
    destruct (validateInput.roomId roomId); cbn [negb];
      [|split; [by repeat constructor | reflexivity]].
    rewrite (sanitizeInput_userName _ Hn). split.
    + apply Forall_trace_bind; [by repeat constructor|]. intros _ _.
      apply Forall_trace_try_catch.
      * apply Forall_trace_bind; [apply Hjoin|]. intros _ _.
        apply Forall_trace_bind;
          [by apply Forall_trace_emit, keepsNamesValid_SetItem|]. intros _ _.
        apply Forall_trace_bind;
          [by apply Forall_trace_emit, keepsNamesValid_SetItem|]. intros _ _.
        apply Forall_trace_bind; [apply Hsave|]. intros _ _.
        by apply Forall_trace_emit.
      * intros e _.
        repeat match goal with
               | |- context [bool_decide ?p] => destruct (bool_decide p)
               end; by repeat constructor.
    + rewrite bind_emit_run. cbn [value]. apply Hunit.
      apply value_try_catch_returns. intros e w'.
      repeat match goal with
             | |- context [bool_decide ?p] => destruct (bool_decide p)
             end; reflexivity.
  - intros name description creator_name roomUsers w run. subst run.
    unfold CreateRoomPage.handleSubmit.
    destruct (negb (truthy (trim name)) || negb (truthy (trim creator_name)));
      [split; [constructor | reflexivity]|].
    split.
    + apply Forall_trace_try_catch; [|intros; by repeat constructor].
      cbn zeta. apply Forall_trace_bind.
      { unfold roomApi.createRoom.
        destruct (validateInputRest.roomName _); [|constructor].
        destruct (validateInput.userName _); [|constructor].
        cbn [negb]. cbn zeta. by apply Forall_trace_emit_respond. }
      intros room Hroom. apply createRoom_returns in Hroom as [_ Hc].
      cbn [rc_creator_name] in Hc.
      apply Forall_trace_bind;
        [by apply Forall_trace_emit, keepsNamesValid_SetItem|]. intros _ _.
      apply Forall_trace_bind;
        [by apply Forall_trace_emit, keepsNamesValid_SetItem|]. intros _ _.
      apply Forall_trace_bind; [apply Hsave|]. intros _ _.
      apply Forall_trace_bind.
      { apply Forall_trace_emit. unfold keepsNamesValid, storesUserName.
        rewrite userName_key_differs; [reflexivity|]. vm_compute. discriminate. }
      intros _ _. apply Forall_trace_bind.
      { apply Forall_trace_try_catch; [apply Hjoin | intros; constructor]. }
      intros _ _. by apply Forall_trace_emit.
    + apply Hunit, value_try_catch_returns. reflexivity.
  - intros roomIdInput userNameInput roomUsers w run. subst run.
    unfold HomePage.handleJoinRoom. cbn zeta.
    destruct (negb (truthy _) || negb (truthy _));
      [split; [constructor | reflexivity]|].
    split.
    + apply Forall_trace_try_catch; [|intros; by repeat constructor].
      apply Forall_trace_bind; [apply Hjoin|].
      intros a Ha. apply joinRoom_returns in Ha as [_ Hn].
      apply Forall_trace_bind; [apply Hsave|]. intros _ _.
      apply Forall_trace_bind;
        [by apply Forall_trace_emit, keepsNamesValid_SetItem|]. intros _ _.
      apply Forall_trace_bind;
        [by apply Forall_trace_emit, keepsNamesValid_SetItem|]. intros _ _.
      by apply Forall_trace_emit.
    + apply Hunit, value_try_catch_returns. reflexivity.
  - intros selectedRoom inputRoomId userName roomUsers w run. subst run.
    unfold HomePage.handlePasswordSubmit.
    destruct selectedRoom as [selectedRoom|];
      [|split; [constructor | reflexivity]].
    split.
    + apply Forall_trace_try_catch; [|intros; by repeat constructor].
      destruct (eqb inputRoomId (room_id_ selectedRoom)); cbn [negb];
        [|by repeat constructor].
      apply Forall_trace_bind; [apply Hjoin|].
      intros a Ha. apply joinRoom_returns in Ha as [_ Hn].
      apply Forall_trace_bind; [apply Hsave|]. intros _ _.
      apply Forall_trace_bind;
        [by apply Forall_trace_emit, keepsNamesValid_SetItem|]. intros _ _.
      apply Forall_trace_bind;
        [by apply Forall_trace_emit, keepsNamesValid_SetItem|]. intros _ _.
      by apply Forall_trace_emit.
    + apply Hunit, value_try_catch_returns. reflexivity.
Qed.

End NameFacts.

(** ** From the login dialog to the page *)


Section LoginFacts.
Context {World JSValue : Type} {server : Server World} {json : Json JSValue}.


Lemma saveRoomUser_run (roomUsers : option JSString) (key val : JSString)
  (w : World) :
  (∃ v, saveRoomUser roomUsers key val w
        = mkRun [SetItem localStorage (js "roomUsers") v] w (Return tt))
  ∨ (∃ e, saveRoomUser roomUsers key val w = mkRun [] w (Throw e)).
Proof.
  unfold saveRoomUser, now.
  destruct (JSON_parse (opt_or_else roomUsers (js "{}"))) as [d|e] eqn:E1.
  2:{ right. exists e. by erewrite bind_of_throw' by reflexivity. }
  erewrite bind_of_run' by reflexivity. cbn [app].
  destruct (setProperty d key val) as [d'|e] eqn:E2.
  2:{ right. exists e. by erewrite bind_of_throw' by reflexivity. }
  erewrite bind_of_run' by reflexivity. left. by eexists.
Qed.



End LoginFacts.


(** ** The name input of the room page *)

Lemma eqb_refl (s : JSString) : eqb s s = true.
Proof. unfold eqb. by apply bool_decide_eq_true. Qed.

Lemma roomUsers_key : eqb (js "roomUsers") (js "userName") = false.
Proof. apply userName_key_differs. vm_compute. discriminate. Qed.

Section NameInputFacts.
Context {World JSValue : Type} {server : Server World} {json : Json JSValue}.

(** X24. The name input of the room page stores what is typed without any
    check and without asking the server: when the field is left with a
    non-empty trimmed value, that value becomes the stored user name. The
    page then offers the control that deletes the room exactly when the
    value is the reserved name. *)
Theorem name_input_is_not_checked (inputValue roomId : JSString)
  (roomUsers stored : option JSString) (w : World) :
  let run := nameInputBlur inputValue (Some roomId) roomUsers w in
  truthy (trim inputValue) = true → truthy roomId = true →
  isReturn (value run) = true →
  Forall (fun a => isRequest a = false) (trace run)
  ∧ world run = w
  ∧ localUserName stored (trace run) = Some (trim inputValue)
  ∧ (RoomPage.showsDeleteButton (localUserName stored (trace run)) = true
     ↔ trim inputValue = RoomPage.adminName).
Proof.
  intros run Hn Hr. subst run. unfold nameInputBlur. cbn zeta.
  rewrite Hn, Hr. cbn [andb].
  destruct (saveRoomUser_run roomUsers roomId (trim inputValue) w)
    as [[v Hs]|[e Hs]].
  2:{ erewrite bind_of_throw' by exact Hs. discriminate. }
  erewrite bind_of_run' by exact Hs. rewrite !bind_emit_run. cbn beta.
  cbn [trace world value emit app]. intros _.
  split; [by repeat constructor|]. split; [reflexivity|].
  assert (E : localUserName stored
                [SetItem localStorage (js "roomUsers") v;
                 SetItem localStorage (js "userName") (trim inputValue);
                 SetItem sessionStorage (js "userName") (trim inputValue)]
              = Some (trim inputValue)).
  { unfold localUserName. cbn [fold_left].
    by rewrite roomUsers_key, eqb_refl. }
  rewrite E. split; [reflexivity|].
  unfold RoomPage.showsDeleteButton. cbn zeta. cbn [opt_or_else].
  unfold or_else. rewrite Hn. apply eqb_true.
Qed.

End NameInputFacts.

Lemma name_input_is_not_checked_witness :
  RoomPage.showsDeleteButton
    (localUserName (Some Scripted.user)
       (trace (nameInputBlur (json := entries) (js " 이성일 ")
                 (Some Scripted.room) None Site.trip))) = true
  ↔ trim (js " 이성일 ") = RoomPage.adminName.
Proof.
  apply (name_input_is_not_checked (json := entries) (js " 이성일 ")
           Scripted.room None (Some Scripted.user) Site.trip).
  - vm_compute. reflexivity.
  - vm_compute. reflexivity.
  - vm_compute. reflexivity.
Defined.

(** ** The form that creates a room *)

Section CreateRoomPageFacts.
Context {World JSValue : Type} {server : Server World} {json : Json JSValue}.

Lemma createRoom_trace (roomData : RoomCreate) (w : World) :
  trace (roomApi.createRoom roomData w)
  = if validateInputRest.roomName (rc_name roomData)
       && validateInput.userName (rc_creator_name roomData)
    then [Sent (PostRoom
                  {| rc_name := trim (rc_name roomData);
                     rc_description :=
                       match rc_description roomData with
                       | Some description =>
                         if truthy description
                         then Some (sanitizeInput description) else None
                       | None => None
                       end;
                     rc_creator_name := rc_creator_name roomData |})]
    else [].
Proof.
  unfold roomApi.createRoom.
  destruct (validateInputRest.roomName (rc_name roomData)) eqn:Hn;
    [|reflexivity].
  destruct (validateInput.userName (rc_creator_name roomData)) eqn:Hc;
    [|reflexivity].
  cbn [negb andb]. cbn zeta.
  rewrite trace_emit_respond, (sanitizeInput_userName _ Hc).
  do 3 f_equal. unfold sanitizeInput.
  by rewrite unescaped_replacements by (by apply roomName_unescaped).
Qed.

(** The ways [handleSubmit] of the form can go once the request is made. *)
Lemma create_handleSubmit_cases (name description creator_name : JSString)
  (roomUsers : option JSString) (w : World) :
  let formData := {| rc_name := name; rc_description := Some description;
                     rc_creator_name := creator_name |} in
  let create := roomApi.createRoom formData w in
  let run :=
    CreateRoomPage.handleSubmit name description creator_name roomUsers w in
  let failed := Of (Alert (js "방 생성에 실패했습니다.")) in
  value run = Return tt
  ∧ (trace run = [] ∨ trace run = [failed]
     ∨ (truthy (trim name) = true
        ∧ validateInput.userName creator_name = true
        ∧ ∃ data, rc_name data = trim name
                  ∧ rc_creator_name data = creator_name
                  ∧ ((isThrow (value create) = true
                      ∧ trace run = [Sent (PostRoom data); failed])
                     ∨ ∃ room,
                         value create = Return room
                         ∧ (trace run
                            = [Sent (PostRoom data);
                               SetItem localStorage (js "userName") creator_name;
                               SetItem sessionStorage (js "userName")
                                 creator_name;
                               failed]
                            ∨ ∃ v joined,
                                (joined = []
                                 ∨ joined
                                   = [Sent (PostJoin (room_id_ room)
                                              creator_name)])
                                ∧ trace run
                                  = [Sent (PostRoom data);
                                     SetItem localStorage (js "userName")
                                       creator_name;
                                     SetItem sessionStorage (js "userName")
                                       creator_name;
                                     SetItem localStorage (js "roomUsers") v;
                                     SetItem sessionStorage
                                       (js "autoLogin_" ++ room_id_ room)
                                       creator_name]
                                    ++ joined
                                    ++ [Of (Navigate
                                              (js "/room/" ++ room_id_ room
                                               ++ js "?creator=true"))])))).
Proof.
  intros formData create run failed. subst run.
  unfold CreateRoomPage.handleSubmit.
  destruct (truthy (trim name)) eqn:Hname; cbn [negb orb];
    [|split; [reflexivity | by left]].
  destruct (truthy (trim creator_name)); cbn [negb];
    [|split; [reflexivity | by left]].
  cbn zeta. fold formData.
  pose proof (createRoom_trace formData w) as Ht. cbn [rc_name rc_creator_name
    rc_description formData] in Ht.
  set (data0 := {| rc_name := trim name;
                   rc_description :=
                     if truthy description
                     then Some (sanitizeInput description) else None;
                   rc_creator_name := creator_name |}) in *.
  pose proof (run_eta' (roomApi.createRoom formData w)) as Hc.
  fold create in Hc, Ht. set (w1 := world create) in *.
  destruct (value create) as [room|e] eqn:Ev.
  2:{ erewrite try_catch_of_throw
        by (erewrite bind_of_throw' by exact Hc; reflexivity).
      cbn [trace world value emit app]. split; [reflexivity|]. rewrite Ht.
      destruct (validateInputRest.roomName name && validateInput.userName creator_name)
        eqn:Hv; [|right; by left].
      apply andb_true_iff in Hv as [_ Hv].
      right. right. split; [reflexivity|]. split; [exact Hv|].
      exists data0. split; [|split; [|left; split; reflexivity]]; reflexivity. }
  assert (Hv : validateInputRest.roomName name = true
               ∧ validateInput.userName creator_name = true)
    by (by apply (createRoom_returns formData w room)).
  destruct Hv as [Hv1 Hv2]. rewrite Hv1, Hv2 in Ht. cbn [andb] in Ht.
  rewrite Ht in Hc.
  destruct (saveRoomUser_run roomUsers (room_id_ room) creator_name w1)
    as [[v Hs]|[e Hs]].
  - (* the names are stored: the page goes on to the room *)
    pose proof (joinRoom_trace (room_id_ room) creator_name w1) as Hjt.
    set (join := roomApi.joinRoom (room_id_ room) creator_name w1) in *.
    assert (Hj : ∃ w2, try_catch (roomApi.joinRoom (room_id_ room) creator_name)
                         (fun _ => ret tt) w1
                       = mkRun (trace join) w2 (Return tt)).
    { pose proof (run_eta' join) as Hje. destruct (value join) as [[]|e].
      - exists (world join). by apply try_catch_of_return.
      - exists (world join). erewrite try_catch_of_throw by exact Hje.
        cbn [ret trace world value]. by rewrite app_nil_r. }
    destruct Hj as [w2 Hj].
    erewrite try_catch_of_return.
    2:{ erewrite bind_of_run' by exact Hc. rewrite !bind_emit_run. cbn beta.
        erewrite bind_of_run' by exact Hs. rewrite bind_emit_run. cbn beta.
        erewrite bind_of_run' by exact Hj.
        cbn [emit trace world value app]. reflexivity. }
    cbn [trace value]. split; [reflexivity|]. right. right.
    split; [reflexivity|]. split; [exact Hv2|].
    exists data0. split; [|split; [|right; exists room; split; [reflexivity|]]];
      [reflexivity..|].
    right. exists v, (trace join). split; [|reflexivity].
    rewrite Hjt. destruct (_ && _); [by right | by left].
  - erewrite try_catch_of_throw.
    2:{ erewrite bind_of_run' by exact Hc. rewrite !bind_emit_run. cbn beta.
        erewrite bind_of_throw' by exact Hs. reflexivity. }
    cbn [emit trace world value app]. split; [reflexivity|]. right. right.
    split; [reflexivity|]. split; [exact Hv2|].
    exists data0. split; [|split; [|right; exists room; split; [reflexivity|]]];
      [reflexivity..|].
    by left.
Qed.

(** X25. The form never creates a room without a name: a request to create
    a room carries the trimmed name, which is not empty, and the creator name
    as typed. The page moves on to the room only after the room was created
    and the creator name, which then is a valid user name, was stored; it
    does so with the id the server returned, whether or not the creator
    could be registered as a participant. *)
Theorem create_room_then_enter (name description creator_name : JSString)
  (roomUsers : option JSString) (w : World) :
  let formData := {| rc_name := name; rc_description := Some description;
                     rc_creator_name := creator_name |} in
  let run :=
    CreateRoomPage.handleSubmit name description creator_name roomUsers w in
  (∀ data, Sent (PostRoom data) ∈ trace run →
     rc_name data = trim name ∧ rc_name data ≠ []
     ∧ rc_creator_name data = creator_name)
  ∧ (∀ path, Of (Navigate path) ∈ trace run →
       ∃ room,
         value (roomApi.createRoom formData w) = Return room
         ∧ path = js "/room/" ++ room_id_ room ++ js "?creator=true"
         ∧ last (trace run) = Some (Of (Navigate path))
         ∧ localUserName None (trace run) = Some creator_name
         ∧ validateInput.userName creator_name = true)
  ∧ (∀ roomId user_name,
       Sent (PostJoin roomId user_name) ∈ trace run →
       ∃ path, Of (Navigate path) ∈ trace run).
Proof.
  intros formData run.
  destruct (create_handleSubmit_cases name description creator_name roomUsers w)
    as [_ Hcases]. fold formData run in Hcases. cbn zeta in Hcases.
  assert (Hinv : ∀ (a : Action) (l : list Action),
            a ∈ l → Forall (fun b => b ≠ a) l → False).
  { intros a l Hin Hall. rewrite Forall_forall in Hall. by apply (Hall a). }
  destruct Hcases as [Ht|[Ht|(Hname & Hcreator & data & Hd1 & Hd2 & Hcases)]].
  - rewrite Ht. split; [|split]; intros; exfalso; eapply Hinv; eauto.
  - rewrite Ht. split; [|split]; intros; exfalso; eapply Hinv; eauto;
      by repeat constructor.
  - assert (Hne : rc_name data ≠ []).
    { rewrite Hd1. by destruct (trim name). }
    destruct Hcases as [[_ Ht]|(room & Hroom & [Ht|(v & joined & Hj & Ht)])];
      rewrite Ht.
    + split; [|split].
      * intros d Hin.
        apply elem_of_cons in Hin as [[= ->]|Hin]; [done|].
        exfalso. eapply Hinv; [exact Hin | by repeat constructor].
      * intros path Hin. exfalso. eapply Hinv; [exact Hin | by repeat constructor].
      * intros r u Hin. exfalso. eapply Hinv; [exact Hin | by repeat constructor].
    + split; [|split].
      * intros d Hin.
        apply elem_of_cons in Hin as [[= ->]|Hin]; [done|].
        exfalso. eapply Hinv; [exact Hin | by repeat constructor].
      * intros path Hin. exfalso. eapply Hinv; [exact Hin | by repeat constructor].
      * intros r u Hin. exfalso. eapply Hinv; [exact Hin | by repeat constructor].
    + assert (Hjoined : Forall (fun a => ∃ r u, a = Sent (PostJoin r u)) joined).
      { destruct Hj as [->| ->]; [constructor|]. repeat constructor. eauto. }
      split; [|split].
      * intros d Hin.
        apply elem_of_cons in Hin as [[= ->]|Hin]; [done|].
        exfalso. cbn [app] in Hin.
        repeat (apply elem_of_cons in Hin as [Hin|Hin]; [discriminate Hin|]).
        apply elem_of_app in Hin as [Hin|Hin].
        -- rewrite Forall_forall in Hjoined.
           destruct (Hjoined _ Hin) as (r & u & Hru). discriminate Hru.
        -- apply list_elem_of_singleton in Hin. discriminate Hin.
      * intros path Hin. exists room. split; [exact Hroom|].
        cbn [app] in Hin.
        repeat (apply elem_of_cons in Hin as [Hin|Hin]; [discriminate Hin|]).
        assert (Hpath : path = js "/room/" ++ room_id_ room ++ js "?creator=true").
        { apply elem_of_app in Hin as [Hin|Hin].
          - rewrite Forall_forall in Hjoined.
            destruct (Hjoined _ Hin) as (r & u & Hru). discriminate Hru.
          - apply list_elem_of_singleton in Hin. by injection Hin. }
        split; [exact Hpath|]. subst path. split.
        { rewrite app_assoc. apply last_snoc. }
        split; [|exact Hcreator].
        unfold localUserName. rewrite !fold_left_app. cbn [fold_left].
        rewrite eqb_refl, roomUsers_key.
        assert (Hfold : ∀ (l : list Action) (acc : option JSString),
                  Forall (fun a => ∃ r u, a = Sent (PostJoin r u)) l →
                  fold_left
                    (fun acc a =>
                       match a with
                       | SetItem localStorage key value =>
                         if eqb key (js "userName") then Some value else acc
                       | _ => acc
                       end) l acc = acc).
        { induction l as [|a l IH]; intros acc Hl; [reflexivity|].
          apply Forall_cons in Hl as [(r & u & ->) Hl]. cbn. by apply IH. }
        by rewrite Hfold.
      * intros r u _. eexists. apply elem_of_app. right.
        apply elem_of_app. right. by apply list_elem_of_singleton.
Qed.

End CreateRoomPageFacts.

Lemma create_room_then_enter_witness :
  ∃ room,
    value (roomApi.createRoom
             {| rc_name := js " Jeju "; rc_description := Some (js "");
                rc_creator_name := Scripted.user |} Site.empty) = Return room
    ∧ js "/room/" ++ Scripted.room ++ js "?creator=true"
      = js "/room/" ++ room_id_ room ++ js "?creator=true"
    ∧ last (trace (CreateRoomPage.handleSubmit (json := entries) (js " Jeju ")
                     (js "") Scripted.user None Site.empty))
      = Some (Of (Navigate (js "/room/" ++ Scripted.room ++ js "?creator=true")))
    ∧ localUserName None
        (trace (CreateRoomPage.handleSubmit (json := entries) (js " Jeju ")
                  (js "") Scripted.user None Site.empty))
      = Some Scripted.user
    ∧ validateInput.userName Scripted.user = true.
Proof.
  apply (create_room_then_enter (json := entries) (js " Jeju ") (js "")
           Scripted.user None Site.empty).
  vm_compute. apply list_elem_of_In.
  repeat (first [left; reflexivity | right]).
Defined.

(** ** Joining a room from the home page *)

Lemma or_else_empty (s : JSString) : or_else s (js "") = s.
Proof. unfold or_else. destruct s; [vm_compute|]; reflexivity. Qed.

Section JoinFacts.
Context {World JSValue : Type} {server : Server World} {json : Json JSValue}.

(** The [try] block the two join handlers share, with the alert of their
    [catch]. *)
Lemma join_then_enter_cases (roomId userName : JSString)
  (roomUsers : option JSString) (msg : JSString) (w : World) :
  let run :=
    try_catch
      (roomApi.joinRoom roomId userName ;;;
       saveRoomUser roomUsers roomId userName ;;;
       emit (SetItem localStorage (js "userName") userName) ;;;
       emit (SetItem sessionStorage (js "userName") userName) ;;;
       emit (Of (Navigate (js "/room/" ++ roomId))))
      (fun _ => emit (Of (Alert msg))) w in
  value run = Return tt
  ∧ ((last (trace run) = Some (Of (Alert msg))
      ∧ Forall (fun a => ∀ path, a ≠ Of (Navigate path)) (trace run))
     ∨ (validateInput.roomId roomId = true
        ∧ validateInput.userName userName = true
        ∧ isReturn (value (roomApi.joinRoom roomId userName w)) = true
        ∧ ∃ v, trace run
               = [Sent (PostJoin roomId userName);
                  SetItem localStorage (js "roomUsers") v;
                  SetItem localStorage (js "userName") userName;
                  SetItem sessionStorage (js "userName") userName;
                  Of (Navigate (js "/room/" ++ roomId))])).
Proof.
  intros run. subst run.
  pose proof (joinRoom_trace roomId userName w) as Hjt.
  pose proof (run_eta' (roomApi.joinRoom roomId userName w)) as Hj.
  set (w1 := world (roomApi.joinRoom roomId userName w)) in *.
  destruct (value (roomApi.joinRoom roomId userName w)) as [[]|e] eqn:Ev.
  - apply joinRoom_returns in Ev as Hv. destruct Hv as [Hv1 Hv2].
    rewrite Hv1, Hv2 in Hjt. cbn [andb] in Hjt. rewrite Hjt in Hj.
    destruct (saveRoomUser_run roomUsers roomId userName w1)
      as [[v Hs]|[e Hs]].
    + erewrite try_catch_of_return.
      2:{ erewrite bind_of_run' by exact Hj.
          erewrite bind_of_run' by exact Hs. rewrite !bind_emit_run.
          cbn beta. cbn [emit trace world value app]. reflexivity. }
      cbn [trace value]. split; [reflexivity|]. right.
      split; [exact Hv1|]. split; [exact Hv2|]. split; [reflexivity|].
      by exists v.
    + erewrite try_catch_of_throw.
      2:{ erewrite bind_of_run' by exact Hj.
          erewrite bind_of_throw' by exact Hs. reflexivity. }
      cbn [emit trace world value app]. split; [reflexivity|]. left.
      split; [reflexivity|]. by repeat constructor.
  - erewrite try_catch_of_throw
      by (erewrite bind_of_throw' by exact Hj; reflexivity).
    cbn [emit trace world value]. split; [reflexivity|]. left. split.
    + apply last_snoc.
    + apply Forall_app. split; [|by repeat constructor].
      rewrite Hjt. destruct (_ && _); by repeat constructor.
Qed.

(** X26. The home page moves on to a room only after a join request for
    that room and that user name was accepted: the room id then has the
    shape of an id, the name passes [validateInput.userName] and is the
    stored user name afterwards. From the card of a room this needs the id
    typed to be the id of that room; any other id ends in an alert without a
    request. What the dialog hands over is the trimmed room id and name, of
    at least ten and two characters. *)
Theorem home_page_enters_after_join :
  (∀ (roomIdInput userNameInput : JSString) (roomUsers : option JSString)
     (w : World) (path : JSString),
     let run := HomePage.handleJoinRoom roomIdInput userNameInput roomUsers w in
     Of (Navigate path) ∈ trace run →
     path = js "/room/" ++ trim roomIdInput
     ∧ validateInput.roomId (trim roomIdInput) = true
     ∧ validateInput.userName (trim userNameInput) = true
     ∧ isReturn (value (roomApi.joinRoom (trim roomIdInput)
                          (trim userNameInput) w)) = true
     ∧ localUserName None (trace run) = Some (trim userNameInput))
  ∧ (∀ (selectedRoom : option Room) (inputRoomId userName : JSString)
       (roomUsers : option JSString) (w : World) (path : JSString),
       let run :=
         HomePage.handlePasswordSubmit selectedRoom inputRoomId userName
           roomUsers w in
       Of (Navigate path) ∈ trace run →
       (∃ room, selectedRoom = Some room ∧ inputRoomId = room_id_ room)
       ∧ path = js "/room/" ++ inputRoomId
       ∧ validateInput.roomId inputRoomId = true
       ∧ validateInput.userName userName = true
       ∧ isReturn (value (roomApi.joinRoom inputRoomId userName w)) = true
       ∧ localUserName None (trace run) = Some userName)
  ∧ (∀ (room : Room) (inputRoomId userName : JSString)
       (roomUsers : option JSString) (w : World),
       inputRoomId ≠ room_id_ room →
       HomePage.handlePasswordSubmit (Some room) inputRoomId userName
         roomUsers w
       = mkRun [Of (Alert (js "올바르지 않은 방 ID입니다."))] w (Return tt))
  ∧ (∀ (roomIdInput userNameInput : JSString) (w : World)
       (roomId userName : JSString),
       OnSubmit roomId userName
       ∈ trace (RoomPasswordModal.handleSubmit roomIdInput userNameInput w) →
       roomId = trim roomIdInput ∧ userName = trim userNameInput
       ∧ (10 ≤ length roomId)%nat ∧ (2 ≤ length userName)%nat).
Proof.
  assert (Hstored : ∀ (r u v : JSString),
            localUserName None
              [Sent (PostJoin r u); SetItem localStorage (js "roomUsers") v;
               SetItem localStorage (js "userName") u;
               SetItem sessionStorage (js "userName") u;
               Of (Navigate (js "/room/" ++ r))] = Some u).
  { intros r u v. unfold localUserName. cbn [fold_left].
    by rewrite roomUsers_key, eqb_refl. }
  assert (Henter : ∀ (r u v path : JSString),
            Of (Navigate path)
            ∈ [Sent (PostJoin r u); SetItem localStorage (js "roomUsers") v;
               SetItem localStorage (js "userName") u;
               SetItem sessionStorage (js "userName") u;
               Of (Navigate (js "/room/" ++ r))] →
            path = js "/room/" ++ r).
  { intros r u v path Hin.
    repeat (apply elem_of_cons in Hin as [Hin|Hin];
            [first [discriminate Hin | by injection Hin]|]).
    by apply elem_of_nil in Hin. }
  split; [|split; [|split]].
  - intros roomIdInput userNameInput roomUsers w path run Hin. subst run.
    revert Hin. unfold HomePage.handleJoinRoom. cbn zeta.
    rewrite !or_else_empty.
    destruct (negb (truthy (trim roomIdInput))
              || negb (truthy (trim userNameInput))).
    { intros Hin. by apply elem_of_nil in Hin. }
    destruct (join_then_enter_cases (trim roomIdInput) (trim userNameInput)
                roomUsers (js "방에 참가할 수 없습니다. 방 ID를 확인해주세요.") w)
      as [_ [[_ Hno]|(Hv1 & Hv2 & Hret & v & Ht)]].
    + intros Hin. rewrite Forall_forall in Hno. by destruct (Hno _ Hin path).
    + rewrite Ht. intros Hin. apply Henter in Hin. by rewrite Hstored.
  - intros selectedRoom inputRoomId userName roomUsers w path run Hin.
    subst run. revert Hin. unfold HomePage.handlePasswordSubmit.
    destruct selectedRoom as [room|];
      [|intros Hin; by apply elem_of_nil in Hin].
    destruct (eqb inputRoomId (room_id_ room)) eqn:Heq; cbn [negb].
    2:{ intros Hin. exfalso. revert Hin.
        erewrite try_catch_of_return by reflexivity. cbn [trace].
        intros Hin. apply list_elem_of_singleton in Hin. discriminate Hin. }
    apply eqb_true in Heq.
    destruct (join_then_enter_cases inputRoomId userName roomUsers
                (js "방에 접근할 수 없습니다. 방 ID나 사용자 이름을 다시 확인해주세요.") w)
      as [_ [[_ Hno]|(Hv1 & Hv2 & Hret & v & Ht)]].
    + intros Hin. rewrite Forall_forall in Hno. by destruct (Hno _ Hin path).
    + rewrite Ht. intros Hin. apply Henter in Hin. rewrite Hstored.
      split; [by exists room|]. done.
  - intros room inputRoomId userName roomUsers w Hne.
    unfold HomePage.handlePasswordSubmit.
    assert (Heq : eqb inputRoomId (room_id_ room) = false).
    { unfold eqb. by apply bool_decide_eq_false. }
    rewrite Heq. cbn [negb]. by erewrite try_catch_of_return by reflexivity.
  - intros roomIdInput userNameInput w roomId userName.
    unfold RoomPasswordModal.handleSubmit. cbn zeta. rewrite !or_else_empty.
    destruct (truthy (trim roomIdInput)); cbn [negb];
      [|intros Hin; apply list_elem_of_singleton in Hin; discriminate Hin].
    destruct (Nat.ltb_spec (length (trim roomIdInput)) 10);
      [intros Hin; apply list_elem_of_singleton in Hin; discriminate Hin|].
    destruct (truthy (trim userNameInput)); cbn [negb];
      [|intros Hin; apply list_elem_of_singleton in Hin; discriminate Hin].
    destruct (Nat.ltb_spec (length (trim userNameInput)) 2);
      [intros Hin; apply list_elem_of_singleton in Hin; discriminate Hin|].
    rewrite bind_emit_run. cbn [trace emit]. intros Hin.
    apply elem_of_cons in Hin as [Hin|Hin]; [discriminate Hin|].
    apply list_elem_of_singleton in Hin. injection Hin as -> ->. done.
Qed.

End JoinFacts.

(** ** The room page: the filter by participant *)

(** X27. Clicking a participant with a non-empty name who was not selected
    shows exactly the photos that participant uploaded, in the order of the
    page; clicking the same participant again, or clicking the selected one,
    shows all photos again, and so does a click on a participant whose name
    is empty. The click touches neither the photos nor the room of the page,
    and what is shown is always part of the photos, in their order. *)
Theorem participant_filter (participantName : JSString)
  (st : RoomPageState.State) :
  let clicked := RoomPageState.handleParticipantClick participantName st in
  RoomPageState.photos clicked = RoomPageState.photos st
  ∧ RoomPageState.room clicked = RoomPageState.room st
  ∧ sublist (RoomPageState.filteredPhotos st) (RoomPageState.photos st)
  ∧ (RoomPageState.selectedUploader st = Some participantName →
     RoomPageState.filteredPhotos clicked = RoomPageState.photos st)
  ∧ (participantName = [] →
     RoomPageState.filteredPhotos clicked = RoomPageState.photos st)
  ∧ (RoomPageState.selectedUploader st ≠ Some participantName →
     participantName ≠ [] →
     (∀ photo, photo ∈ RoomPageState.filteredPhotos clicked
               ↔ photo ∈ RoomPageState.photos st
                 ∧ uploader_name photo = participantName)
     ∧ RoomPageState.filteredPhotos clicked
       = List.filter
           (fun photo => bool_decide (uploader_name photo = participantName))
           (RoomPageState.photos st)
     ∧ RoomPageState.filteredPhotos
         (RoomPageState.handleParticipantClick participantName clicked)
       = RoomPageState.photos st).
Proof.
  intros clicked. subst clicked.
  unfold RoomPageState.handleParticipantClick, RoomPageState.filteredPhotos.
  cbn [RoomPageState.photos RoomPageState.room RoomPageState.selectedUploader].
  split; [reflexivity|]. split; [reflexivity|]. split; [|split; [|split]].
  - destruct (RoomPageState.selectedUploader st) as [u|]; [|reflexivity].
    destruct (truthy u); [|reflexivity].
    induction (RoomPageState.photos st) as [|p l IH]; [constructor|].
    cbn. destruct (eqb (uploader_name p) u); by constructor.
  - intros ->. by rewrite bool_decide_eq_true_2.
  - intros ->. by destruct (bool_decide _).
  - intros Hne Ht. rewrite bool_decide_eq_false_2 by done.
    rewrite bool_decide_eq_true_2 by done.
    assert (Htruthy : truthy participantName = true)
      by (by destruct participantName).
    rewrite Htruthy. split; [|split; [|reflexivity]].
    + intros photo. rewrite list_elem_of_In, filter_In, <- list_elem_of_In.
      by rewrite eqb_true.
    + induction (RoomPageState.photos st) as [|p l IH]; [reflexivity|].
      cbn. rewrite IH.
      destruct (eqb (uploader_name p) participantName) eqn:He.
      * apply eqb_true in He. by rewrite bool_decide_eq_true_2.
      * rewrite bool_decide_eq_false_2; [reflexivity|].
        intros Heq. apply eqb_true in Heq. congruence.
Qed.

(** On a page of three photos filtered by the guest, a click on the other
    uploader shows that uploader's two photos, and a second click all
    three. *)
Lemma participant_filter_witness :
  RoomPageState.filteredPhotos
    (RoomPageState.handleParticipantClick Scripted.user sharedPage)
  = [photoBy Scripted.photo1 Scripted.user; photoBy Site.photo3 Scripted.user]
  ∧ RoomPageState.filteredPhotos
      (RoomPageState.handleParticipantClick Scripted.user
         (RoomPageState.handleParticipantClick Scripted.user sharedPage))
    = RoomPageState.photos sharedPage.
Proof.
  destruct (participant_filter Scripted.user sharedPage)
    as (_ & _ & _ & _ & _ & H).
  destruct H as (_ & Hshown & Hback).
  - intros H. vm_compute in H. discriminate H.
  - intros H. vm_compute in H. discriminate H.
  - split; [|exact Hback]. rewrite Hshown. vm_compute. reflexivity.
Defined.

(** ** The gallery: taking over the photos of the page *)





